(** * Energy tracker (lightCal.py): consumption ledger and energy model

    A shallow embedding of the consumption-record functions of
    [lightCal.py] ([calculate_energy_consumption], [save_consumption_data],
    [get_user_consumption_data] and the computing part of
    [show_energy_input_form]) together with the pieces of Python and of the
    document store they rely on:

    - Python [float] is IEEE-754 binary64, taken from the Standard Library's
      executable specification [SpecFloat] (precision 53, emax 1024);
    - Python [int] is [Z]; a Python number is an [int] or a [float];
    - a [datetime] is the number of microseconds since 0001-01-01T00:00:00;
    - a MongoDB collection is the list of its documents in natural order, a
      document is a finite map from field names to BSON values;
    - exceptions are an explicit outcome, the store and the messages written
      to the page are threaded through explicitly. *)

From Stdlib Require Import ZArith List String Ascii SpecFloat Lia.
From stdpp Require Import base option list gmap strings sorting.

Set Warnings "-clear-no-such-hyp".

Local Open Scope Z_scope.

(** ** Python outcomes *)

Module Py.

Inductive exn : Type :=
| OverflowError
| PyMongoError.

Inductive outcome (A : Type) : Type :=
| Returns (a : A)
| Raises (e : exn).
Arguments Returns {A} a.
Arguments Raises {A} e.

Definition bind {A B} (m : outcome A) (k : A -> outcome B) : outcome B :=
  match m with
  | Returns a => k a
  | Raises e => Raises e
  end.

Definition raised {A} (m : outcome A) : Prop :=
  match m with
  | Returns _ => False
  | Raises _ => True
  end.

End Py.

Import Py.

#[global] Instance exn_eq_dec : EqDecision exn.
Proof. solve_decision. Defined.

#[global] Instance outcome_eq_dec `{EqDecision A} : EqDecision (outcome A).
Proof. solve_decision. Defined.

#[global] Instance outcome_ret : MRet outcome := fun A a => Returns a.
#[global] Instance outcome_bind : MBind outcome := fun A B k m => Py.bind m k.

(** ** binary64 floats *)

Module PyFloat.

Definition prec : Z := 53.
Definition emax : Z := 1024.

Definition float : Type := spec_float.

#[global] Instance float_eq_dec : EqDecision spec_float.
Proof. solve_decision. Defined.

Definition fadd : float -> float -> float := SFadd prec emax.
Definition fmul : float -> float -> float := SFmul prec emax.
Definition fdiv : float -> float -> float := SFdiv prec emax.
Definition flt : float -> float -> bool := SFltb.
Definition fle : float -> float -> bool := SFleb.
Definition feq : float -> float -> bool := SFeqb.

(** [float(n)] for a Python int: the nearest double, ties to even;
    [OverflowError] ("int too large to convert to float") when the
    nearest double is not finite. *)
Definition round_int (n : Z) : float := binary_normalize prec emax n 0 false.

Definition of_int (n : Z) : outcome float :=
  match round_int n with
  | S754_infinity _ => Raises OverflowError
  | f => Returns f
  end.

(** A decimal literal [n/d] of the source text, correctly rounded. *)
Definition literal (n d : Z) : float := fdiv (round_int n) (round_int d).

(** The integer nearest to [n/d] for [0 < d], ties to even. *)
Definition div_half_even (n d : Z) : Z :=
  let q := n / d in
  match (2 * (n mod d)) ?= d with
  | Lt => q
  | Gt => q + 1
  | Eq => if Z.even q then q else q + 1
  end.

(** [round(x, 2)] on a float (CPython's [double_round]): the exact value
    of [x] is rounded to two decimals, ties to even, and the decimal is
    converted back to the nearest double.  Zeros, infinities and NaN round
    to themselves; a value that rounds to zero keeps its sign. *)
Definition round2 (x : float) : float :=
  match x with
  | S754_finite s m e =>
      if 0 <=? e then x
      else
        match div_half_even (Zpos m * 100) (2 ^ (- e)) with
        | Zpos q => fdiv (S754_finite s q 0) (S754_finite false 100 0)
        | _ => S754_zero s
        end
  | _ => x
  end.

End PyFloat.

Import PyFloat.

(** ** Python numbers: [int] or [float] *)

Module PyNum.

Inductive number : Type :=
| PInt (n : Z)
| PFloat (f : float).

#[global] Instance number_eq_dec : EqDecision number.
Proof. solve_decision. Defined.

Definition to_float (x : number) : outcome float :=
  match x with
  | PInt n => of_int n
  | PFloat f => Returns f
  end.

(** [x + y] *)
Definition add (x y : number) : outcome number :=
  match x, y with
  | PInt a, PInt b => Returns (PInt (a + b))
  | _, _ =>
      a ← to_float x;
      b ← to_float y;
      Returns (PFloat (fadd a b))
  end.

(** [x * y] *)
Definition mul (x y : number) : outcome number :=
  match x, y with
  | PInt a, PInt b => Returns (PInt (a * b))
  | _, _ =>
      a ← to_float x;
      b ← to_float y;
      Returns (PFloat (fmul a b))
  end.

(** [x > 0] *)
Definition gt0 (x : number) : bool :=
  match x with
  | PInt n => 0 <? n
  | PFloat f => flt (S754_zero false) f
  end.

(** [x == y] *)
Definition eqb (x y : number) : bool :=
  match x, y with
  | PInt a, PInt b => a =? b
  | PFloat a, PFloat b => feq a b
  | PInt a, PFloat b => feq (round_int a) b && (match b with S754_finite _ _ e => 0 <=? e | S754_zero _ => true | _ => false end)
  | PFloat a, PInt b => feq a (round_int b) && (match a with S754_finite _ _ e => 0 <=? e | S754_zero _ => true | _ => false end)
  end.

(** [round(x, 2)]: an int is returned unchanged. *)
Definition round2 (x : number) : number :=
  match x with
  | PInt n => PInt n
  | PFloat f => PFloat (PyFloat.round2 f)
  end.

End PyNum.

Import PyNum.

(** ** The energy model *)

Module EnergyModel.

(** An appliance mapping is a Python dict with [str] keys and [int]
    counts; iteration follows insertion order. *)
Definition appliances : Type := list (string * Z).

Definition energy_rates : gmap string float :=
  list_to_map
    [ ("lights"%string, literal 2 10);
      ("fans"%string, literal 2 10);
      ("tvs"%string, literal 3 10);
      ("ac"%string, literal 30 10);
      ("fridge"%string, literal 31 10);
      ("washing_machine"%string, literal 28 10) ].

Fixpoint accumulate (items : appliances) (total : number) : outcome number :=
  match items with
  | [] => Returns total
  | (appliance, count) :: rest =>
      match energy_rates !! appliance with
      | Some rate =>
          x ← mul (PInt count) (PFloat rate);
          total' ← add total x;
          accumulate rest total'
      | None => accumulate rest total
      end
  end.

Definition calculate_energy_consumption (a : appliances) : outcome number :=
  accumulate a (PInt 0).

Definition rate_per_unit : number := PInt 8.

(** A count that the table has a rate for, and one that [float(count)]
    accepts. *)
Definition known (kc : string * Z) : Prop := is_Some (energy_rates !! kc.1).

Definition convertible (kc : string * Z) : Prop := exists f, of_int kc.2 = Returns f.

(** The running total of the loop: the initial [0] or a float. *)
Definition running (total : number) : Prop :=
  total = PInt 0 \/ exists g, total = PFloat g.

End EnergyModel.

Import EnergyModel.

(** ** Naive local datetimes *)

Module Datetime.

(** Microseconds since 0001-01-01T00:00:00 (day ordinal 1). *)
Definition datetime : Type := Z.

Definition us_per_day : Z := 86400000000.
Definition ms_per_day : Z := 86400000.
Definition MAXORDINAL : Z := 3652059.

Definition in_range (t : datetime) : bool :=
  (0 <=? t) && (t <? MAXORDINAL * us_per_day).

Definition toordinal (t : datetime) : Z := t / us_per_day + 1.

(** [timedelta(days=d)], in microseconds. *)
Definition timedelta_days (d : Z) : outcome Z :=
  if Z.abs d <=? 999999999 then Returns (d * us_per_day)
  else Raises OverflowError.

(** [t - delta] *)
Definition sub (t : datetime) (delta : Z) : outcome datetime :=
  if in_range (t - delta) then Returns (t - delta) else Raises OverflowError.

Definition DI400Y : Z := 146097.
Definition DI100Y : Z := 36524.
Definition DI4Y : Z := 1461.

Definition DAYS_IN_MONTH (m : Z) : Z :=
  match m with
  | 1 => 31 | 2 => 28 | 3 => 31 | 4 => 30 | 5 => 31 | 6 => 30
  | 7 => 31 | 8 => 31 | 9 => 30 | 10 => 31 | 11 => 30 | 12 => 31
  | _ => -1
  end.

Definition DAYS_BEFORE_MONTH (m : Z) : Z :=
  match m with
  | 1 => 0 | 2 => 31 | 3 => 59 | 4 => 90 | 5 => 120 | 6 => 151
  | 7 => 181 | 8 => 212 | 9 => 243 | 10 => 273 | 11 => 304 | 12 => 334
  | _ => -1
  end.

Definition b2z (b : bool) : Z := if b then 1 else 0.

(** [_ord2ymd]: ordinal to (year, month, day). *)
Definition ord2ymd (n : Z) : Z * Z * Z :=
  let n := n - 1 in
  let n400 := n / DI400Y in
  let n := n mod DI400Y in
  let year := n400 * 400 + 1 in
  let n100 := n / DI100Y in
  let n := n mod DI100Y in
  let n4 := n / DI4Y in
  let n := n mod DI4Y in
  let n1 := n / 365 in
  let n := n mod 365 in
  let year := year + (n100 * 100 + n4 * 4 + n1) in
  if (n1 =? 4) || (n100 =? 4) then (year - 1, 12, 31)
  else
    let leapyear := (n1 =? 3) && (negb (n4 =? 24) || (n100 =? 3)) in
    let month := Z.shiftr (n + 50) 5 in
    let preceding := DAYS_BEFORE_MONTH month + b2z ((2 <? month) && leapyear) in
    if n <? preceding then
      let month := month - 1 in
      let preceding :=
        preceding - (DAYS_IN_MONTH month + b2z ((month =? 2) && leapyear)) in
      (year, month, n - preceding + 1)
    else (year, month, n - preceding + 1).

Definition digit (n : Z) : ascii := ascii_of_N (48 + Z.to_N (n mod 10)).

Definition pad2 (n : Z) (rest : string) : string :=
  String (digit (n / 10)) (String (digit n) rest).

Definition pad4 (n : Z) (rest : string) : string :=
  String (digit (n / 1000)) (String (digit (n / 100)) (pad2 n rest)).

(** The ISO form of the day with ordinal [n], [YYYY-MM-DD] with the year
    padded to four digits ([date.isoformat]). *)
Definition isoformat (n : Z) : string :=
  let '(y, m, d) := ord2ymd n in
  pad4 y (String "-" (pad2 m (String "-" (pad2 d EmptyString)))).

(** The year as [strftime("%Y")] writes it: the C library's [%Y] is the
    decimal number of the year and is not padded, so the years before 1000
    have fewer than four digits. *)
Definition decimal_year (y : Z) (rest : string) : string :=
  if y <? 10 then String (digit y) rest
  else if y <? 100 then pad2 y rest
  else if y <? 1000 then String (digit (y / 100)) (pad2 y rest)
  else pad4 y rest.

(** [t.strftime("%Y-%m-%d")] *)
Definition strftime_Ymd (t : datetime) : string :=
  let '(y, m, d) := ord2ymd (toordinal t) in
  decimal_year y (String "-" (pad2 m (String "-" (pad2 d EmptyString)))).

Definition day_name (n : Z) : string :=
  match (n + 6) mod 7 with
  | 0 => "Monday" | 1 => "Tuesday" | 2 => "Wednesday" | 3 => "Thursday"
  | 4 => "Friday" | 5 => "Saturday" | _ => "Sunday"
  end.

(** [t.strftime("%A")] *)
Definition strftime_A (t : datetime) : string := day_name (toordinal t).

(** A BSON date keeps milliseconds. *)
Definition to_bson (t : datetime) : Z := t / 1000.

(** The day of a BSON date. *)
Definition bson_ordinal (ms : Z) : Z := ms / ms_per_day + 1.

(** A date as the number yyyymmdd. *)
Definition ymd_key (n : Z) : Z :=
  let '(y, m, d) := ord2ymd n in y * 10000 + m * 100 + d.

(** The days of the 400-year cycle, counted from 0. *)
Definition cycle_day_ok (r : Z) : bool :=
  let '(y, m, d) := ord2ymd (r + 1) in
  (1 <=? y) && (y <=? 400) && (1 <=? m) && (m <=? 12) && (1 <=? d) && (d <=? 31) &&
  ((r =? DI400Y - 1) || (y * 10000 + m * 100 + d <? ymd_key (r + 2))).

(** [f] holds on the [p] integers from [lo] on. *)
Fixpoint all_from (f : Z -> bool) (p : positive) (lo : Z) : bool :=
  match p with
  | xH => f lo
  | xO q => all_from f q lo && all_from f q (lo + Zpos q)
  | xI q => f lo && all_from f q (lo + 1) && all_from f q (lo + 1 + Zpos q)
  end.

End Datetime.

Import Datetime.

(** ** The document store *)

Module Mongo.

Inductive value : Type :=
| VOid (n : N)
| VStr (s : string)
| VNum (x : number)
| VDate (ms : Z)
| VDoc (d : list (string * Z)).

#[global] Instance value_eq_dec : EqDecision value.
Proof. solve_decision. Defined.

Abbreviation document := (gmap string value).

Abbreviation collection := (list (gmap string value)).

(** A field condition of a filter: equality or [$gte]. *)
Inductive cond : Type :=
| Is (v : value)
| Gte (v : value).

Definition query : Type := list (string * cond).

Definition value_is (v w : value) : bool :=
  match v, w with
  | VOid a, VOid b => N.eqb a b
  | VStr a, VStr b => String.eqb a b
  | VNum a, VNum b => PyNum.eqb a b
  | VDate a, VDate b => a =? b
  | VDoc a, VDoc b =>
      bool_decide (a = b)
  | _, _ => false
  end.

(** Comparisons only match values of the same type. *)
Definition value_gte (v w : value) : bool :=
  match v, w with
  | VDate a, VDate b => b <=? a
  | VStr a, VStr b => negb (String.ltb a b)
  | VOid a, VOid b => N.leb b a
  | _, _ => false
  end.

Definition holds (d : document) (c : string * cond) : bool :=
  match d !! c.1, c.2 with
  | Some v, Is w => value_is v w
  | Some v, Gte w => value_gte v w
  | None, _ => false
  end.

Definition matches (q : query) (d : document) : bool := forallb (holds d) q.

Definition int64 (n : Z) : bool := (- 2 ^ 63 <=? n) && (n <? 2 ^ 63).

(** BSON has 8-byte ints only. *)
Definition encodable_value (v : value) : bool :=
  match v with
  | VNum (PInt n) => int64 n
  | VDoc d => forallb (fun kv => int64 kv.2) d
  | _ => true
  end.

Definition encodable (fields : list (string * value)) : bool :=
  forallb (fun kv => encodable_value kv.2) fields.

(** The server side: documents in natural order, the next ObjectId, and
    for each coming operation whether it will fail (the server cannot be
    reached, the operation times out). *)
Record server : Type := mkServer {
  docs : collection;
  next_oid : N;
  faults : list bool
}.

#[global] Instance server_eq_dec : EqDecision server.
Proof. solve_decision. Defined.

Definition op (A : Type) : Type := server -> outcome A * server.

(** Each operation is one round trip; a failed one changes nothing. *)
Definition round_trip {A} (run : collection -> N -> outcome A * collection * N) : op A :=
  fun s =>
    match faults s with
    | true :: rest => (Raises PyMongoError, mkServer (docs s) (next_oid s) rest)
    | _ =>
        let '(r, c, n) := run (docs s) (next_oid s) in
        (r, mkServer c n (tail (faults s)))
    end.

Definition find_first (q : query) (c : collection) : option (nat * document) :=
  list_find (fun d => matches q d) c.

Definition find_one (q : query) : op (option document) :=
  round_trip (fun c n => (Returns (snd <$> find_first q c), c, n)).

(** [$set]: the given fields replace or extend those of the document. *)
Definition set_fields (fields : list (string * value)) (d : document) : document :=
  list_to_map fields ∪ d.

(** The first match is rewritten where it stands; no match, no change. *)
Definition update_first (q : query) (fields : list (string * value)) (c : collection) : collection :=
  match find_first q c with
  | Some (i, d) => <[i := set_fields fields d]> c
  | None => c
  end.

Definition update_one (q : query) (fields : list (string * value)) : op unit :=
  round_trip (fun c n =>
    if encodable fields then (Returns tt, update_first q fields c, n)
    else (Raises OverflowError, c, n)).

Definition has_oid (i : N) (d : document) : bool :=
  match d !! "_id"%string with
  | Some (VOid j) => N.eqb i j
  | _ => false
  end.

(** The driver adds a fresh [_id]; the server refuses a duplicate. *)
Definition insert_one (fields : list (string * value)) : op unit :=
  round_trip (fun c n =>
    if encodable fields then
      if existsb (has_oid n) c then (Raises PyMongoError, c, N.succ n)
      else (Returns tt, c ++ [<["_id"%string := VOid n]> (list_to_map fields)], N.succ n)
    else (Raises OverflowError, c, n)).

Definition date_of (d : document) (k : string) : Z :=
  match d !! k with
  | Some (VDate ms) => ms
  | _ => 0
  end.

Definition date_le (k : string) (d1 d2 : document) : Prop :=
  date_of d1 k <= date_of d2 k.

#[global] Instance date_le_dec k d1 d2 : Decision (date_le k d1 d2).
Proof. unfold date_le. apply _. Defined.

(** [find(q).sort(k, 1)] on a date field. *)
Definition find_sorted (q : query) (k : string) : op (list document) :=
  round_trip (fun c n => (Returns (merge_sort (date_le k) (filter (fun d => matches q d) c)), c, n)).

End Mongo.

Import Mongo.

(** ** lightCal.py *)

Module LightCal.

(** The process state: the [consumption] collection behind the global
    [db] handle ([None] when the connection could not be set up) and the
    messages written to the page. *)
Record world : Type := mkWorld {
  db : option server;
  page : list string
}.

#[global] Instance world_eq_dec : EqDecision world.
Proof. solve_decision. Defined.

Definition st_error (msg : string) (w : world) : world :=
  mkWorld (db w) (page w ++ [msg]).

Definition saving_error : string := "Error saving consumption data".
Definition retrieval_error : string := "Error retrieving consumption data".

Definition consumption (w : world) : collection :=
  match db w with
  | Some s => docs s
  | None => []
  end.

(** The new data of [save_consumption_data], in the order of the dict. *)
Definition consumption_data (username : string) (a : appliances)
    (total_energy cost : number) (today : datetime) : list (string * value) :=
  [ ("username"%string, VStr username);
    ("date"%string, VStr (strftime_Ymd today));
    ("day_of_week"%string, VStr (strftime_A today));
    ("timestamp"%string, VDate (to_bson today));
    ("appliances"%string, VDoc a);
    ("total_energy_kwh"%string, VNum (PyNum.round2 total_energy));
    ("estimated_cost"%string, VNum (PyNum.round2 cost)) ].

Definition today_query (username : string) (today : datetime) : query :=
  [ ("username"%string, Is (VStr username));
    ("date"%string, Is (VStr (strftime_Ymd today))) ].

(** The body of the [try] of [save_consumption_data]. *)
Definition upsert (username : string) (data : list (string * value))
    (today : datetime) (s : server) : outcome unit * server :=
  match find_one (today_query username today) s with
  | (Returns (Some existing), s1) =>
      match existing !! "_id"%string with
      | Some i => update_one [("_id"%string, Is i)] data s1
      | None => (Raises PyMongoError, s1)
      end
  | (Returns None, s1) => insert_one data s1
  | (Raises e, s1) => (Raises e, s1)
  end.

Definition save_consumption_data (username : string) (a : appliances)
    (total_energy cost : number) (today : datetime) (w : world) : bool * world :=
  match db w with
  | None => (false, w)
  | Some s =>
      let data := consumption_data username a total_energy cost today in
      match upsert username data today s with
      | (Returns _, s') => (true, mkWorld (Some s') (page w))
      | (Raises e, s') =>
          (false, st_error saving_error (mkWorld (Some s') (page w)))
      end
  end.

Definition range_query (username : string) (start_date : datetime) : query :=
  [ ("username"%string, Is (VStr username));
    ("timestamp"%string, Gte (VDate (to_bson start_date))) ].

(** [datetime.now() - timedelta(days=days)] *)
Definition start_of (now : datetime) (days : Z) : outcome datetime :=
  delta ← timedelta_days days; Datetime.sub now delta.

Definition get_user_consumption_data (username : string) (days : Z)
    (now : datetime) (w : world) : outcome (list document) * world :=
  match db w with
  | None => (Returns [], w)
  | Some s =>
      match start_of now days with
      | Raises e => (Raises e, w)
      | Returns start_date =>
          match find_sorted (range_query username start_date) "timestamp" s with
          | (Returns data, s') => (Returns data, mkWorld (Some s') (page w))
          | (Raises e, s') =>
              (Returns [], st_error retrieval_error (mkWorld (Some s') (page w)))
          end
      end
  end.

(** The widgets of the form of [show_energy_input_form]. *)
Record energy_form : Type := mkForm {
  lights : Z;
  fans : Z;
  tvs : Z;
  has_ac : bool;
  ac_widget : Z;
  has_fridge : bool;
  fridge_widget : Z;
  has_wm : bool;
  wm_widget : Z;
  submit_button : bool
}.

(** [st.number_input(min_value, max_value)] only yields values in range. *)
Definition number_input (min_value max_value v : Z) : Prop :=
  min_value <= v <= max_value.

Definition widgets (f : energy_form) : Prop :=
  number_input 0 50 (lights f) /\ number_input 0 20 (fans f) /\
  number_input 0 10 (tvs f) /\ number_input 0 10 (ac_widget f) /\
  number_input 0 5 (fridge_widget f) /\ number_input 0 5 (wm_widget f).

Definition ac_count (f : energy_form) : Z := if has_ac f then ac_widget f else 0.
Definition fridge_count (f : energy_form) : Z := if has_fridge f then fridge_widget f else 0.
Definition wm_count (f : energy_form) : Z := if has_wm f then wm_widget f else 0.

Definition form_appliances (f : energy_form) : appliances :=
  [ ("lights"%string, lights f);
    ("fans"%string, fans f);
    ("tvs"%string, tvs f);
    ("ac"%string, ac_count f);
    ("fridge"%string, fridge_count f);
    ("washing_machine"%string, wm_count f) ].

Definition st_message (msg : string) (w : world) : world :=
  mkWorld (db w) (page w ++ [msg]).

(** [show_energy_input_form] without the layout: the look-up of today's
    entry, the computation of energy and cost, and the submission.
    [now] is the clock at the top of the form, [today] the clock read by
    [save_consumption_data]. *)
Definition show_energy_input_form (username : string) (compact : bool)
    (f : energy_form) (now today : datetime) (w : world) : outcome unit * world :=
  let looked_up :=
    match db w with
    | Some s =>
        let '(r, s') := find_one (today_query username now) s in
        (r, mkWorld (Some s') (page w))
    | None => (Returns None, w)
    end in
  match looked_up with
  | (Raises e, w1) => (Raises e, w1)
  | (Returns existing_data, w1) =>
      let w2 :=
        if bool_decide (is_Some existing_data) && negb compact
        then st_message "You already have an entry for today" w1 else w1 in
      let a := form_appliances f in
      match (total_energy ← calculate_energy_consumption a;
             total_cost ← mul total_energy rate_per_unit;
             Returns (total_energy, total_cost)) with
      | Raises e => (Raises e, w2)
      | Returns (total_energy, total_cost) =>
          if submit_button f then
            if gt0 total_energy then
              let '(saved, w3) := save_consumption_data username a total_energy total_cost today w2 in
              if saved then (Returns tt, st_message "Energy data saved successfully!" w3)
              else (Returns tt, st_error "Failed to save data. Please try again." w3)
            else (Returns tt, st_message "Please enter at least one appliance." w2)
          else (Returns tt, w2)
      end
  end.

End LightCal.

Import LightCal.


(** ** What the ledger is expected to keep *)

Module Ledger.

Definition day_query (username date : string) : query :=
  [ ("username"%string, Is (VStr username));
    ("date"%string, Is (VStr date)) ].

(** The records of a user for a day. *)
Definition records_for (username date : string) (c : collection) : list document :=
  filter (fun d => matches (day_query username date) d) c.

Definition oid_of (d : document) : option N :=
  match d !! "_id"%string with
  | Some (VOid n) => Some n
  | _ => None
  end.

(** Every document carries an ObjectId, and no two carry the same. *)
Definition well_keyed (c : collection) : Prop :=
  Forall (fun d => is_Some (oid_of d)) c /\ NoDup (oid_of <$> c).

#[global] Instance well_keyed_dec c : Decision (well_keyed c).
Proof. unfold well_keyed. apply _. Defined.

(** The date a record is filed under. *)
Definition date_field (d : document) : string :=
  match d !! "date"%string with
  | Some (VStr date) => date
  | _ => ""%string
  end.

(** ISO dates are compared as strings. *)
Definition by_date (d1 d2 : document) : Prop :=
  String.leb (date_field d1) (date_field d2) = true.

(** The first day whose year has four digits, 1000-01-01. *)
Definition Y1000 : Z := 364878.

(** The date of a record is the day of its timestamp, as the upsert writes
    them. *)
Definition dated (d : document) : Prop :=
  match d !! "timestamp"%string with
  | Some (VDate ms) =>
      d !! "date"%string = Some (VStr (isoformat (bson_ordinal ms))) /\
      Y1000 <= bson_ordinal ms <= MAXORDINAL
  | _ => True
  end.

#[global] Instance dated_dec d : Decision (dated d).
Proof. unfold dated. destruct (d !! "timestamp"%string) as [[]|]; apply _. Defined.

Definition records_of (username : string) (c : collection) : list document :=
  filter (fun d => d !! "username"%string = Some (VStr username)) c.

(** The records of a user have pairwise different dates. *)
Definition one_date_each (username : string) (c : collection) : Prop :=
  NoDup (date_field <$> records_of username c).

(** The same world over another arrangement of the documents. *)
Definition with_docs (c : collection) (w : world) : world :=
  mkWorld ((fun s => mkServer c (next_oid s) (faults s)) <$> db w) (page w).

(** One call of the upsert. *)
Record submission : Type := mkSubmission {
  sub_appliances : appliances;
  sub_energy : number;
  sub_cost : number;
  sub_clock : datetime
}.

Definition submit (username : string) (x : submission) (w : world) : bool * world :=
  save_consumption_data username (sub_appliances x) (sub_energy x) (sub_cost x) (sub_clock x) w.

Definition submit_all (username : string) (xs : list submission) (w : world) : world :=
  foldl (fun w x => (submit username x w).2) w xs.

(** The records of a user from [start_date] on, oldest timestamp first. *)
Definition window (username : string) (start_date : datetime) (c : collection) : list document :=
  merge_sort (date_le "timestamp")
    (filter (fun d => matches (range_query username start_date) d) c).

(** A record as the upsert leaves it: an existing document with the new
    fields set, or the new fields under a fresh ObjectId. *)
Definition written (data : list (string * value)) (before : collection) (r : document) : Prop :=
  (exists existing, existing ∈ before /\ r = set_fields data existing) \/
  (exists n, r = <["_id"%string := VOid n]> (list_to_map data)).

Definition record_keys : gset string :=
  list_to_set [ "_id"; "username"; "date"; "day_of_week"; "timestamp"; "appliances";
    "total_energy_kwh"; "estimated_cost" ]%string.

(** The fields the persisted record shape of the specification lists. *)
Definition listed_keys : list string :=
  [ "username"; "date"; "day_of_week"; "appliances";
    "total_energy_kwh"; "estimated_cost" ]%string.

Definition kinds : list string :=
  [ "lights"; "fans"; "tvs"; "ac"; "fridge"; "washing_machine" ]%string.

Definition data_keys : list string :=
  [ "username"; "date"; "day_of_week"; "timestamp"; "appliances";
    "total_energy_kwh"; "estimated_cost" ]%string.

End Ledger.

Import Ledger.

(** ** The totals the input form can produce *)

Module FormRange.

(** Equality of doubles as bit patterns. *)
Definition same (x y : float) : bool :=
  match x, y with
  | S754_zero a, S754_zero b => Bool.eqb a b
  | S754_infinity a, S754_infinity b => Bool.eqb a b
  | S754_nan, S754_nan => true
  | S754_finite a m e, S754_finite b n f => Bool.eqb a b && Pos.eqb m n && Z.eqb e f
  | _, _ => false
  end.

Fixpoint dedupe (l : list float) : list float :=
  match l with
  | [] => []
  | x :: r => let r' := dedupe r in if existsb (same x) r' then r' else x :: r'
  end.

(** The counts a number input with bounds [0] and [bound] yields. *)
Definition counts (bound : Z) : list Z := seqZ 0 (bound + 1).

(** The running totals after one more kind, from those before it. *)
Definition after_kind (rate : float) (bound : Z) (totals : list float) : list float :=
  dedupe (t ← totals; c ← counts bound; [fadd t (fmul (round_int c) rate)]).

Definition rate_of (k : string) : float := default S754_nan (energy_rates !! k).

Definition form_totals : list float :=
  after_kind (rate_of "washing_machine") 5
    (after_kind (rate_of "fridge") 5
      (after_kind (rate_of "ac") 10
        (after_kind (rate_of "tvs") 10
          (after_kind (rate_of "fans") 20
            (after_kind (rate_of "lights") 50 [S754_zero false]))))).

(** The cost rounded from the unrounded total is the cost computed from the
    rounded total. *)
Definition cost_agrees (e : float) : bool :=
  bool_decide (PyFloat.round2 (fmul e (round_int 8))
               = PyFloat.round2 (fmul (PyFloat.round2 e) (round_int 8))).

End FormRange.

Import FormRange.

(** ** A day in the life of the ledger *)

Module Example.

(** 2024-04-24 at 10:00, 12:00 and 18:30. *)
Definition morning : datetime := (739000 - 1) * us_per_day + 10 * 3600000000.
Definition noon : datetime := (739000 - 1) * us_per_day + 12 * 3600000000.
Definition evening : datetime := (739000 - 1) * us_per_day + 18 * 3600000000 + 1800000000.

Definition fresh : world := mkWorld (Some (mkServer [] 0 [])) [].

(** 7.800000000000001 and 62.400000000000006 *)
Definition above_7_8 : float := S754_finite false 8782019273372468 (-50).
Definition above_62_4 : float := S754_finite false 8782019273372468 (-47).

(** -0.2 *)
Definition minus_0_2 : float := S754_finite true 7205759403792794 (-55).

Definition home : appliances :=
  [ ("lights", 5); ("fans", 2); ("tvs", 1); ("ac", 1); ("fridge", 1);
    ("washing_machine", 0) ]%string.

Definition flat : appliances :=
  [ ("lights", 3); ("fans", 1); ("tvs", 1); ("ac", 0); ("fridge", 1);
    ("washing_machine", 1) ]%string.

(** The total and the cost the form computes for a mapping. *)
Definition priced (a : appliances) : number * number :=
  match (e ← calculate_energy_consumption a; c ← mul e rate_per_unit; Returns (e, c)) with
  | Returns ec => ec
  | Raises _ => (PInt 0, PInt 0)
  end.

Definition entry (a : appliances) (clock : datetime) : submission :=
  mkSubmission a (priced a).1 (priced a).2 clock.

(** A hundred million million lights, and two. *)
Definition stadium : appliances := [ ("lights"%string, 100000000000002) ].

Definition after_stadium : world := (submit "ann" (entry stadium morning) fresh).2.

Definition stadium_record : document := default ∅ (head (consumption after_stadium)).

(** 20000000000000.4, 160000000000003.22 and 160000000000003.2 *)
Definition stadium_energy : float := S754_finite false 5120000000000102 (-8).
Definition stadium_cost : float := S754_finite false 5120000000000103 (-5).
Definition stadium_energy_times_8 : float := S754_finite false 5120000000000102 (-5).

(** The ledger after the morning's submission. *)
Definition after_morning : world := (submit "ann" (entry home morning) fresh).2.

(** The form filled in for [home] and submitted. *)
Definition home_form : energy_form := mkForm 5 2 1 true 1 true 1 false 3 true.

Definition after_form : world :=
  (show_energy_input_form "ann" false home_form morning morning fresh).2.

(** The same ledger when the next operation on the store is going to fail. *)
Definition morning_record : document :=
  default ∅ (head (consumption after_morning)).

(** The ledger after the evening's submission of the same day. *)
Definition after_evening : world := (submit "ann" (entry flat evening) after_morning).2.

Definition unreachable (w : world) : world :=
  mkWorld ((fun s => mkServer (docs s) (next_oid s) [true]) <$> db w) (page w).

(** The next day's submission, and what the last fortnight then shows. *)
Definition next_morning : datetime := morning + us_per_day.

Definition after_two_days : world := (submit "ann" (entry flat next_morning) after_evening).2.

Definition next_noon : datetime := noon + us_per_day.

Definition fortnight : list document :=
  match (get_user_consumption_data "ann" 14 next_noon after_two_days).1 with
  | Returns l => l
  | Raises _ => []
  end.

End Example.

(** ** Doubles on the grid of the multiples of 2^-1074 *)

Module Grid.

(** The grid of the multiples of 2^-1074, on which every double lies. *)
Definition TOP : Z := 2 ^ 2098.

Definition pos (x : float) : Z :=
  match x with
  | S754_zero _ => 0
  | S754_finite false m e => Zpos m * 2 ^ (e + 1074)
  | S754_infinity false => TOP
  | _ => -1
  end.

Definition good (x : float) : Prop :=
  match x with
  | S754_zero false => True
  | S754_finite false m e => bounded prec emax m e = true
  | S754_infinity false => True
  | _ => False
  end.

Definition rnd (K : Z) : Z :=
  let b := Z.max (Z.log2 K + 1 - 53) 0 in
  Z.min TOP (div_half_even K (2 ^ b) * 2 ^ b).

(** What [k] right shifts leave of [m0]: the quotient by [2^k], and in the
    two flags the place of the remainder with respect to the half. *)
Definition shifted (m0 k : Z) (mrs : shr_record) : Prop :=
  shr_m mrs = m0 / 2 ^ k /\
  (shr_r mrs = true <-> 2 ^ k <= 2 * (m0 mod 2 ^ k)) /\
  (shr_s mrs = true <-> m0 mod 2 ^ k <> 0 /\ 2 * (m0 mod 2 ^ k) <> 2 ^ k).

Definition fx (x : Z) : Z := Z.max (x - 53) (-1074).

(** The double made of a rounded mantissa [q] of at most 54 bits at
    exponent [f]. *)
Definition packed (q f : Z) : float :=
  match q with
  | Zpos qm =>
      if q <? 2 ^ 53 then
        if f <=? 971 then S754_finite false qm f else S754_infinity false
      else
        if f + 1 <=? 971 then S754_finite false 4503599627370496 (f + 1)
        else S754_infinity false
  | _ => S754_zero false
  end.

(** The bits dropped from [K] and the mantissa kept. *)
Definition dropped (K : Z) : Z := Z.max (Z.log2 K + 1 - 53) 0.

Definition kept (K : Z) : Z := div_half_even K (2 ^ dropped K).

(** A non-negative double with an integer value: zero, or a normal double
    of exponent at least -52. *)
Definition whole (x : float) : Prop :=
  match x with
  | S754_zero false => True
  | S754_finite false m e => bounded prec emax m e = true /\ -52 <= e
  | _ => False
  end.

End Grid.

Import Grid.

(** ** Comparing appliance mappings and totals *)

Module Usage.

(** Counts as the widgets give them: none is negative. *)
Definition natural (a : appliances) : Prop := Forall (fun kc => 0 <= kc.2) a.

(** The same kinds in the same order, no count of the second mapping below
    that of the first. *)
Definition no_less (a a' : appliances) : Prop :=
  Forall2 (fun kc kc' => kc.1 = kc'.1 /\ kc.2 <= kc'.2) a a'.

(** [x <= y] for two totals of the same type. *)
Definition at_most (x y : number) : Prop :=
  match x, y with
  | PInt a, PInt b => a <= b
  | PFloat a, PFloat b => fle a b = true
  | _, _ => False
  end.

(** A kind with a rate and a positive count. *)
Definition in_use (kc : string * Z) : Prop :=
  is_Some (energy_rates !! kc.1) /\ 0 < kc.2.

(** The rates are normal doubles. *)
Definition normal_rate (r : float) : bool :=
  match r with
  | S754_finite false m e => bounded prec emax m e && (-1022 <=? e)
  | _ => false
  end.

(** The running total as a double: the initial [0] is converted when the
    first product is added. *)
Definition as_float (total : number) : float :=
  match total with
  | PInt _ => S754_zero false
  | PFloat g => g
  end.

(** Two running totals of the same type, the first not above the second. *)
Definition level (t t' : number) : Prop :=
  (t = PInt 0 /\ t' = PInt 0) \/
  (exists g g', t = PFloat g /\ t' = PFloat g' /\ good g /\ good g' /\ pos g <= pos g').

(** An eighth, on the grid: no rate is below it. *)
Definition floor : Z := 2 ^ 1071.

(** The mapping with the counts of both, kind by kind. *)
Definition together (a b : appliances) : appliances :=
  zip_with (fun x y => (x.1, x.2 + y.2)) a b.

End Usage.

Import Usage.

(** ** What a save leaves alone *)

Module Upkeep.

(** The records that are not the user's record of the day. *)
Definition others (username date : string) (c : collection) : list document :=
  filter (fun d => ~ matches (day_query username date) d) c.

(** A ledger in good order: ObjectIds are unique, each record is filed
    under the day of its timestamp, and no user has two records of one
    date. *)
Definition tidy (c : collection) : Prop :=
  well_keyed c /\ Forall dated c /\ forall username, one_date_each username c.

(** A record of the user whose timestamp is a date not before [start],
    in milliseconds. *)
Definition since (username : string) (start : Z) (d : document) : Prop :=
  d !! "username"%string = Some (VStr username) /\
  match d !! "timestamp"%string with
  | Some (VDate ms) => start <= ms
  | _ => False
  end.

#[global] Instance since_dec username start d : Decision (since username start d).
Proof.
  unfold since. destruct (d !! "timestamp"%string) as [[]|]; apply _.
Defined.

(** The store answers the next operation (or there is no connection). *)
Definition answering (w : world) : bool :=
  match db w with
  | Some s => match faults s with true :: _ => false | _ => true end
  | None => true
  end.

End Upkeep.

Import Upkeep.

(** ** SHA-256, as [hashlib.sha256(...).hexdigest()] computes it *)

Module Sha256.

(** Words are 32-bit integers; sums wrap around. *)
Definition w32 (x : Z) : Z := x mod 2 ^ 32.

Definition rotr (n x : Z) : Z :=
  Z.lor (Z.shiftr x n) (w32 (Z.shiftl x (32 - n))).

Definition ch (x y z : Z) : Z :=
  Z.lxor (Z.land x y) (Z.land (Z.lxor x 4294967295) z).

Definition maj (x y z : Z) : Z :=
  Z.lxor (Z.lxor (Z.land x y) (Z.land x z)) (Z.land y z).

Definition Sigma0 (x : Z) : Z := Z.lxor (Z.lxor (rotr 2 x) (rotr 13 x)) (rotr 22 x).
Definition Sigma1 (x : Z) : Z := Z.lxor (Z.lxor (rotr 6 x) (rotr 11 x)) (rotr 25 x).
Definition sigma0 (x : Z) : Z := Z.lxor (Z.lxor (rotr 7 x) (rotr 18 x)) (Z.shiftr x 3).
Definition sigma1 (x : Z) : Z := Z.lxor (Z.lxor (rotr 17 x) (rotr 19 x)) (Z.shiftr x 10).

Definition K : list Z :=
  [
    1116352408; 1899447441; 3049323471; 3921009573; 961987163; 1508970993;
    2453635748; 2870763221; 3624381080; 310598401; 607225278; 1426881987;
    1925078388; 2162078206; 2614888103; 3248222580; 3835390401; 4022224774;
    264347078; 604807628; 770255983; 1249150122; 1555081692; 1996064986;
    2554220882; 2821834349; 2952996808; 3210313671; 3336571891; 3584528711;
    113926993; 338241895; 666307205; 773529912; 1294757372; 1396182291;
    1695183700; 1986661051; 2177026350; 2456956037; 2730485921; 2820302411;
    3259730800; 3345764771; 3516065817; 3600352804; 4094571909; 275423344;
    430227734; 506948616; 659060556; 883997877; 958139571; 1322822218;
    1537002063; 1747873779; 1955562222; 2024104815; 2227730452; 2361852424;
    2428436474; 2756734187; 3204031479; 3329325298 ].

Record state : Type := mkState {
  sa : Z; sb : Z; sc : Z; sd : Z; se : Z; sf : Z; sg : Z; sh : Z
}.

Definition H0 : state :=
  mkState 1779033703 3144134277 1013904242 2773480762
          1359893119 2600822924 528734635 1541459225.

(** The message followed by the bit 1, zeros up to 56 modulo 64 bytes, and
    the length in bits as a 64-bit big-endian integer. *)
Definition be64 (n : Z) : list Z :=
  (fun i => Z.shiftr n (8 * (7 - i)) mod 256) <$> seqZ 0 8.

Definition pad (msg : list Z) : list Z :=
  let len := Z.of_nat (length msg) in
  msg ++ [128] ++ replicate (Z.to_nat ((55 - len) mod 64)) 0 ++ be64 (8 * len).

(** Big-endian 32-bit words. *)
Fixpoint words (bytes : list Z) : list Z :=
  match bytes with
  | b0 :: b1 :: b2 :: b3 :: rest =>
      (b0 * 16777216 + b1 * 65536 + b2 * 256 + b3) :: words rest
  | _ => []
  end.

(** The message schedule, latest word first: [n] more words after those
    of [r]. *)
Fixpoint extend (n : nat) (r : list Z) : list Z :=
  match n with
  | O => r
  | S n' =>
      let w := w32 (sigma1 (nth 1 r 0) + nth 6 r 0 + sigma0 (nth 14 r 0) + nth 15 r 0) in
      extend n' (w :: r)
  end.

Definition schedule (block : list Z) : list Z := rev (extend 48 (rev block)).

Definition round (s : state) (kw : Z * Z) : state :=
  let t1 := w32 (sh s + Sigma1 (se s) + ch (se s) (sf s) (sg s) + kw.1 + kw.2) in
  let t2 := w32 (Sigma0 (sa s) + maj (sa s) (sb s) (sc s)) in
  mkState (w32 (t1 + t2)) (sa s) (sb s) (sc s) (w32 (sd s + t1)) (se s) (sf s) (sg s).

Definition add_state (s t : state) : state :=
  mkState (w32 (sa s + sa t)) (w32 (sb s + sb t)) (w32 (sc s + sc t)) (w32 (sd s + sd t))
          (w32 (se s + se t)) (w32 (sf s + sf t)) (w32 (sg s + sg t)) (w32 (sh s + sh t)).

Definition compress (s : state) (block : list Z) : state :=
  add_state s (foldl round s (zip K (schedule block))).

(** The blocks of sixteen words. *)
Fixpoint blocks (n : nat) (ws : list Z) : list (list Z) :=
  match n with
  | O => []
  | S n' =>
      match ws with
      | [] => []
      | _ => take 16 ws :: blocks n' (drop 16 ws)
      end
  end.

Definition digest (msg : list Z) : state :=
  let ws := words (pad msg) in
  foldl compress H0 (blocks (length ws) ws).

Definition hex_digit (n : Z) : ascii :=
  match n mod 16 with
  | 0 => "0" | 1 => "1" | 2 => "2" | 3 => "3" | 4 => "4" | 5 => "5" | 6 => "6" | 7 => "7"
  | 8 => "8" | 9 => "9" | 10 => "a" | 11 => "b" | 12 => "c" | 13 => "d" | 14 => "e"
  | _ => "f"
  end%char.

Definition word_hex (w : Z) (rest : string) : string :=
  String (hex_digit (Z.shiftr w 28)) (String (hex_digit (Z.shiftr w 24))
  (String (hex_digit (Z.shiftr w 20)) (String (hex_digit (Z.shiftr w 16))
  (String (hex_digit (Z.shiftr w 12)) (String (hex_digit (Z.shiftr w 8))
  (String (hex_digit (Z.shiftr w 4)) (String (hex_digit w) rest))))))).

(** The bytes of a string (a [str] is kept as its UTF-8 encoding). *)
Definition encode (s : string) : list Z :=
  (fun c => Z.of_N (N_of_ascii c)) <$> list_ascii_of_string s.

Definition hexdigest (s : string) : string :=
  let d := digest (encode s) in
  word_hex (sa d) (word_hex (sb d) (word_hex (sc d) (word_hex (sd d)
    (word_hex (se d) (word_hex (sf d) (word_hex (sg d) (word_hex (sh d) ""))))))).

End Sha256.

(** ** Accounts and the login history of lightCal.py *)

Module Accounts.

Definition hash_password (password : string) : string := Sha256.hexdigest password.

Definition verify_password (password hashed : string) : bool :=
  String.eqb (hash_password password) hashed.

(** The documents of [users], as [create_user] writes them and
    [show_profile] updates them. *)
Record profile : Type := mkProfile {
  city : string;
  area : string;
  age : Z;
  phone : string;
  full_name : string;
  occupation : string;
  household_size : Z
}.

Record user : Type := mkUser {
  user_id : N;
  username : string;
  email : string;
  password : string;
  created_at : Z;
  user_profile : profile;
  updated_at : option Z
}.

(** The documents of [data_collection], as [authenticate_user] writes
    them. *)
Record login : Type := mkLogin {
  login_id : N;
  login_username : string;
  login_time : Z;
  login_date : string;
  session_id : string;
  ip_address : string;
  user_agent : string
}.

#[global] Instance profile_eq_dec : EqDecision profile.
Proof. solve_decision. Defined.

#[global] Instance user_eq_dec : EqDecision user.
Proof. solve_decision. Defined.

#[global] Instance login_eq_dec : EqDecision login.
Proof. solve_decision. Defined.

(** The two collections behind the connection, the next ObjectId, and for
    each coming operation whether it will fail. *)
Record store : Type := mkStore {
  users : list user;
  data_collection : list login;
  next_id : N;
  failing : list bool
}.

#[global] Instance store_eq_dec : EqDecision store.
Proof. solve_decision. Defined.

(** The process state: the global [db] handle ([None] when the connection
    could not be set up) and the messages written to the page. *)
Record site : Type := mkSite {
  connection : option store;
  shown : list string
}.

#[global] Instance site_eq_dec : EqDecision site.
Proof. solve_decision. Defined.

Definition users_of (w : site) : list user :=
  match connection w with
  | Some s => users s
  | None => []
  end.

Definition logins_of (w : site) : list login :=
  match connection w with
  | Some s => data_collection s
  | None => []
  end.

(** [st.error], [st.warning], [st.success]: a message on the page. *)
Definition show_error (msg : string) (w : site) : site :=
  mkSite (connection w) (shown w ++ [msg]).

Definition creating_error : string := "Error creating user".
Definition login_error : string := "Error storing login data".
Definition history_error : string := "Error retrieving login data".

(** Each operation is one round trip; a failed one changes nothing. *)
Definition attempt {A} (run : store -> outcome A * store) (s : store) : outcome A * store :=
  match failing s with
  | true :: rest =>
      (Raises PyMongoError, mkStore (users s) (data_collection s) (next_id s) rest)
  | _ =>
      let '(r, s') := run s in
      (r, mkStore (users s') (data_collection s') (next_id s') (tail (failing s)))
  end.

(** [users_collection.find_one({"username": name})] *)
Definition find_user (name : string) : store -> outcome (option user) * store :=
  attempt (fun s => (Returns (snd <$> list_find (fun u => username u = name) (users s)), s)).

(** [users_collection.insert_one(doc)]: the driver adds a fresh [_id]; the
    server refuses a duplicate. *)
Definition insert_user (doc : N -> user) : store -> outcome unit * store :=
  attempt (fun s =>
    if existsb (fun u => N.eqb (user_id u) (next_id s)) (users s) then
      (Raises PyMongoError,
       mkStore (users s) (data_collection s) (N.succ (next_id s)) (failing s))
    else
      (Returns tt,
       mkStore (users s ++ [doc (next_id s)]) (data_collection s)
               (N.succ (next_id s)) (failing s))).

(** [data_collection.insert_one(doc)] *)
Definition insert_login (doc : N -> login) : store -> outcome unit * store :=
  attempt (fun s =>
    if existsb (fun l => N.eqb (login_id l) (next_id s)) (data_collection s) then
      (Raises PyMongoError,
       mkStore (users s) (data_collection s) (N.succ (next_id s)) (failing s))
    else
      (Returns tt,
       mkStore (users s) (data_collection s ++ [doc (next_id s)])
               (N.succ (next_id s)) (failing s))).

(** [l1] is not older than [l2]. *)
Definition newer (l1 l2 : login) : Prop := login_time l2 <= login_time l1.

#[global] Instance newer_dec l1 l2 : Decision (newer l1 l2).
Proof. unfold newer. apply _. Defined.

(** [data_collection.find({"username": name}).sort("login_time", -1).limit(10)] *)
Definition find_logins (name : string) : store -> outcome (list login) * store :=
  attempt (fun s =>
    (Returns (take 10 (merge_sort newer
                (filter (fun l => login_username l = name) (data_collection s)))), s)).

Definition new_profile : profile := mkProfile "" "" 0 "" "" "" 1.

(** The document [create_user] inserts, under the [_id] the driver gives
    it; [now] is the clock read for [created_at]. *)
Definition user_data (name mail pass : string) (now : datetime) (i : N) : user :=
  mkUser i name mail (hash_password pass) (to_bson now) new_profile None.

Definition create_user (name mail pass : string) (now : datetime) (w : site) :
    outcome bool * site :=
  match connection w with
  | None => (Returns false, w)
  | Some s =>
      match find_user name s with
      | (Raises e, s1) => (Raises e, mkSite (Some s1) (shown w))
      | (Returns (Some _), s1) => (Returns false, mkSite (Some s1) (shown w))
      | (Returns None, s1) =>
          match insert_user (user_data name mail pass now) s1 with
          | (Returns _, s2) => (Returns true, mkSite (Some s2) (shown w))
          | (Raises _, s2) =>
              (Returns false, show_error creating_error (mkSite (Some s2) (shown w)))
          end
      end
  end.

(** The document [authenticate_user] inserts: [time_clock] and
    [date_clock] are the clocks read for [login_time] and [login_date],
    [session] the text of the clock read for [session_id]. *)
Definition login_data (name : string) (time_clock date_clock : datetime) (session : string)
    (i : N) : login :=
  mkLogin i name (to_bson time_clock) (strftime_Ymd date_clock) session
          "localhost" "Streamlit App".

Definition authenticate_user (name pass : string) (time_clock date_clock : datetime)
    (session : string) (w : site) : outcome (option user) * site :=
  match connection w with
  | None => (Returns None, w)
  | Some s =>
      match find_user name s with
      | (Raises e, s1) => (Raises e, mkSite (Some s1) (shown w))
      | (Returns (Some u), s1) =>
          if verify_password pass (password u) then
            match insert_login (login_data name time_clock date_clock session) s1 with
            | (Returns _, s2) => (Returns (Some u), mkSite (Some s2) (shown w))
            | (Raises _, s2) =>
                (Returns (Some u), show_error login_error (mkSite (Some s2) (shown w)))
            end
          else (Returns None, mkSite (Some s1) (shown w))
      | (Returns None, s1) => (Returns None, mkSite (Some s1) (shown w))
      end
  end.

Definition get_user_login_data (name : string) (w : site) : list login * site :=
  match connection w with
  | None => ([], w)
  | Some s =>
      match find_logins name s with
      | (Returns data, s1) => (data, mkSite (Some s1) (shown w))
      | (Raises _, s1) => ([], show_error history_error (mkSite (Some s1) (shown w)))
      end
  end.

(** What the visitor has done on the login page: pressed Login, pressed
    Sign Up, or neither, with the text of the inputs of that form. *)
Inductive pressed : Type :=
| Login (name pass : string)
| SignUp (new_username new_email new_password confirm_password : string)
| Neither.

(** The truth value of a [str]. *)
Definition filled (text : string) : bool := negb (String.eqb text "").

(** [show_login_page] without the layout: the two forms.  [session] is
    [st.session_state.user]; the run ends after [st.rerun()]. *)
Definition show_login_page (p : pressed) (now time_clock date_clock : datetime)
    (session_text : string) (w : site) (session : option user) :
    outcome unit * site * option user :=
  match p with
  | Login name pass =>
      if filled name && filled pass then
        match authenticate_user name pass time_clock date_clock session_text w with
        | (Raises e, w1) => (Raises e, w1, session)
        | (Returns (Some u), w1) =>
            (Returns tt, show_error "Login successful!" w1, Some u)
        | (Returns None, w1) =>
            (Returns tt, show_error "Invalid username or password" w1, session)
        end
      else (Returns tt, show_error "Please fill in all fields" w, session)
  | SignUp name mail pass confirm =>
      if filled name && filled mail && filled pass && filled confirm then
        if String.eqb pass confirm then
          match create_user name mail pass now w with
          | (Raises e, w1) => (Raises e, w1, session)
          | (Returns true, w1) =>
              (Returns tt, show_error "Account created successfully! Please login." w1,
               session)
          | (Returns false, w1) =>
              (Returns tt, show_error "Username already exists or database error" w1,
               session)
          end
        else (Returns tt, show_error "Passwords do not match" w, session)
      else (Returns tt, show_error "Please fill in all fields" w, session)
  | Neither => (Returns tt, w, session)
  end.

(** The store answers the next operation (or there is no connection). *)
Definition reachable (w : site) : bool :=
  match connection w with
  | Some s => match failing s with true :: _ => false | _ => true end
  | None => true
  end.

(** No two users share a username. *)
Definition unique_names (w : site) : Prop := NoDup (username <$> users_of w).

(** A site with nobody signed up, the sign-up of ann and her first
    login. *)
Definition empty_site : site := mkSite (Some (mkStore [] [] 0 [])) [].

Definition signed_up : site :=
  (create_user "ann" "ann@example.org" "correct horse" Example.morning empty_site).2.

Definition logged_in : site :=
  (authenticate_user "ann" "correct horse" Example.noon Example.noon "1713960000.0"
     signed_up).2.

(** The same site some days on: thirteen logins of ann, stored out of
    time order, and two of bob among them, one the newest of all.  Each
    visit is given by the hours since noon of the first day. *)
Definition visit (name : string) (hours : Z) (i : N) : login :=
  login_data name (Example.noon + hours * 3600000000) (Example.noon + hours * 3600000000)
             "1713960000.0" i.

Definition visits : list (string * Z) :=
  [ ("ann", 5); ("ann", 1); ("bob", 20); ("ann", 9); ("ann", 3); ("ann", 13);
    ("ann", 7); ("ann", 2); ("bob", 4); ("ann", 11); ("ann", 6); ("ann", 12);
    ("ann", 8); ("ann", 4); ("ann", 10) ]%string.

Definition busy : site :=
  mkSite (Some (mkStore (users_of signed_up)
                        (imap (fun i v => visit v.1 v.2 (N.of_nat i + 1)) visits)
                        16 []))
         [].

Definition cut_off (w : site) : site :=
  mkSite ((fun s => mkStore (users s) (data_collection s) (next_id s) [true]) <$> connection w)
         (shown w).

End Accounts.

(** ** More of the ledger's days *)

Module Sample.

(** A smaller household than [Example.home], kind by kind. *)
Definition fewer : appliances :=
  [ ("lights", 3); ("fans", 2); ("tvs", 0); ("ac", 1); ("fridge", 1);
    ("washing_machine", 0) ]%string.

(** A mapping with a kind the table has no rate for. *)
Definition with_heater : appliances :=
  [ ("lights", 2); ("heater", 4); ("fans", 1) ]%string.

(** The evening's submission when the store cannot be reached. *)
Definition offline : world := Example.unreachable Example.after_morning.

Definition after_offline : world :=
  (submit "ann" (Example.entry Example.flat Example.evening) offline).2.

(** The morning's submission, made a second time. *)
Definition after_repeat : world :=
  (submit "ann" (Example.entry Example.home Example.morning) Example.after_morning).2.

(** The form submitted when the store cannot be reached. *)
Definition after_failed_form : world :=
  (show_energy_input_form "ann" false Example.home_form Example.morning Example.morning
     (Example.unreachable Example.fresh)).2.

Definition three_entries : list submission :=
  [ Example.entry Example.home Example.morning;
    Example.entry Example.flat Example.evening;
    Example.entry Example.flat Example.next_morning ].

(** Bob's first entry, on ann's second day, and ann's entry of that day
    made again at noon. *)
Definition with_bob : world :=
  (submit "bob" (Example.entry Example.home Example.next_morning) Example.after_two_days).2.

Definition with_bob_updated : world :=
  (submit "ann" (Example.entry Example.home Example.next_noon) with_bob).2.

(** One light, five lights. *)
Definition one_light : appliances := [ ("lights"%string, 1) ].
Definition five_lights : appliances := [ ("lights"%string, 5) ].


End Sample.

(** * Properties *)

(** ** The store *)

Section store.

Implicit Types (c : collection) (d : document) (q : query) (s : server).

Lemma today_query_day username today :
  today_query username today = day_query username (strftime_Ymd today).
Proof. reflexivity. Qed.

Lemma holds_is_str d k v :
  holds d (k, Is (VStr v)) = true <-> d !! k = Some (VStr v).
Proof.
  unfold holds; simpl.
  destruct (d !! k) as [[]|]; simpl; try (split; [discriminate | congruence]).
  rewrite String.eqb_eq. split; congruence.
Qed.

Lemma matches_day_query username date d :
  matches (day_query username date) d = true <->
  d !! "username"%string = Some (VStr username) /\ d !! "date"%string = Some (VStr date).
Proof.
  unfold matches, day_query. cbn [forallb].
  rewrite andb_true_r, andb_true_iff, !holds_is_str. done.
Qed.

Lemma matches_oid n d :
  matches [("_id"%string, Is (VOid n))] d = true <-> oid_of d = Some n.
Proof.
  unfold matches, holds, oid_of. cbn [forallb fst snd].
  rewrite andb_true_r.
  destruct (d !! "_id"%string) as [[]|]; simpl; try (split; [discriminate | congruence]).
  rewrite N.eqb_eq. split; congruence.
Qed.

Lemma set_fields_lookup fields d k :
  set_fields fields d !! k =
  match (list_to_map fields : document) !! k with
  | Some v => Some v
  | None => d !! k
  end.
Proof.
  unfold set_fields. rewrite lookup_union.
  destruct (_ !! k), (d !! k); reflexivity.
Qed.

Lemma round_trip_inv {A} (run : collection -> N -> outcome A * collection * N) s r s' :
  round_trip run s = (r, s') ->
  (r = Raises PyMongoError /\ docs s' = docs s /\ next_oid s' = next_oid s) \/
  run (docs s) (next_oid s) = (r, docs s', next_oid s').
Proof.
  unfold round_trip. destruct (faults s) as [|[] rest].
  - destruct (run _ _) as [[r0 c0] n0]. intros [= <- <-]. by right.
  - intros [= <- <-]. by left.
  - destruct (run _ _) as [[r0 c0] n0]. intros [= <- <-]. by right.
Qed.

(** With unique ObjectIds, updating by the [_id] of a document of the
    collection rewrites that very document. *)
Lemma update_first_by_id c i d fields idv :
  well_keyed c ->
  c !! i = Some d ->
  d !! "_id"%string = Some idv ->
  update_first [("_id"%string, Is idv)] fields c = <[i := set_fields fields d]> c.
Proof.
  intros [Hk Hnd] Hi Hid.
  assert (exists n, idv = VOid n /\ oid_of d = Some n) as (n & -> & Hn).
  { rewrite Forall_lookup in Hk. destruct (Hk _ _ Hi) as [n Hn].
    exists n. unfold oid_of in Hn. rewrite Hid in Hn.
    unfold oid_of. rewrite Hid. destruct idv; try discriminate.
    by simplify_eq. }
  unfold update_first, find_first.
  assert (list_find (fun d0 => matches [("_id"%string, Is (VOid n))] d0) c = Some (i, d)) as ->; [|done].
  apply list_find_Some. split_and!; [done | by apply Is_true_true, matches_oid |].
  intros j y Hj Hlt Hy%Is_true_true%matches_oid.
  assert ((oid_of <$> c) !! j = Some (Some n)) as H1 by (by rewrite list_lookup_fmap, Hj; simpl; f_equal).
  assert ((oid_of <$> c) !! i = Some (Some n)) as H2 by (by rewrite list_lookup_fmap, Hi; simpl; f_equal).
  pose proof (NoDup_lookup _ _ _ _ Hnd H1 H2). lia.
Qed.

Lemma upsert_inv username data today s r s' :
  upsert username data today s = (r, s') ->
  ((exists e, r = Raises e) /\ docs s' = docs s) \/
  (r = Returns tt /\ encodable data = true /\
   exists i existing idv,
     find_first (today_query username today) (docs s) = Some (i, existing) /\
     existing !! "_id"%string = Some idv /\
     docs s' = update_first [("_id"%string, Is idv)] data (docs s)) \/
  (r = Returns tt /\ encodable data = true /\
   find_first (today_query username today) (docs s) = None /\
   existsb (has_oid (next_oid s)) (docs s) = false /\
   docs s' = docs s ++ [<["_id"%string := VOid (next_oid s)]> (list_to_map data)]).
Proof.
  unfold upsert.
  destruct (find_one _ s) as [r1 s1] eqn:Hfind.
  apply round_trip_inv in Hfind as [(-> & Hd & Hn) | Hfind].
  { intros [= <- <-]. left. eauto. }
  injection Hfind as <- Hd Hn.
  destruct (find_first _ (docs s)) as [[i existing]|] eqn:Hff; simpl.
  - destruct (existing !! "_id"%string) as [idv|] eqn:Hid.
    + intros Hup. apply round_trip_inv in Hup as [(-> & Hd' & _) | Hup].
      { left. split; [eauto | congruence]. }
      destruct (encodable data) eqn:Henc.
      * injection Hup as <- Hd'. right. left. split_and!; [done..|].
        exists i, existing, idv. split_and!; [done..|]. by rewrite Hd.
      * injection Hup as <- Hd'. left. split; [eauto | congruence].
    + intros [= <- <-]. left. split; [eauto | congruence].
  - intros Hin. apply round_trip_inv in Hin as [(-> & Hd' & _) | Hin].
    { left. split; [eauto | congruence]. }
    destruct (encodable data) eqn:Henc.
    + destruct (existsb _ (docs s1)) eqn:Hex.
      * injection Hin as <- Hd'. left. split; [eauto | congruence].
      * injection Hin as <- Hd' _. right. right.
        rewrite Hd, Hn. split_and!; done.
    + injection Hin as <- Hd'. left. split; [eauto | congruence].
Qed.

Ltac in_data := unfold consumption_data; apply list_elem_of_In; simpl; tauto.

Lemma data_keys_fst username a e cst today :
  (consumption_data username a e cst today).*1 = data_keys.
Proof. reflexivity. Qed.

Lemma data_keys_NoDup : NoDup data_keys.
Proof. compute_done. Qed.

Lemma data_lookup username a e cst today k v :
  (k, v) ∈ consumption_data username a e cst today ->
  (list_to_map (consumption_data username a e cst today) : document) !! k = Some v.
Proof.
  apply elem_of_list_to_map_1. rewrite data_keys_fst. apply data_keys_NoDup.
Qed.

Lemma data_lookup_other username a e cst today k :
  k ∉ data_keys ->
  (list_to_map (consumption_data username a e cst today) : document) !! k = None.
Proof.
  intros Hk. apply not_elem_of_list_to_map_1. by rewrite data_keys_fst.
Qed.

Lemma save_true username a e cst today w w' :
  save_consumption_data username a e cst today w = (true, w') ->
  exists s s',
    db w = Some s /\ db w' = Some s' /\ page w' = page w /\
    upsert username (consumption_data username a e cst today) today s = (Returns tt, s').
Proof.
  unfold save_consumption_data. destruct (db w) as [s|]; [|discriminate].
  destruct (upsert _ _ _ s) as [[[]|err] s'] eqn:Hup; [|discriminate].
  intros [= <-]. by exists s, s'.
Qed.

Lemma save_false username a e cst today w w' :
  save_consumption_data username a e cst today w = (false, w') ->
  consumption w' = consumption w.
Proof.
  unfold save_consumption_data, consumption. destruct (db w) as [s|] eqn:Hdb.
  - destruct (upsert _ _ _ s) as [[[]|err] s'] eqn:Hup; [discriminate|].
    intros [= <-]. simpl.
    apply upsert_inv in Hup as [[_ Hd] | [(? & _) | (? & _)]]; [done | discriminate..].
  - intros [= <-]. by rewrite Hdb.
Qed.

Lemma oid_of_set_fields username a e cst today d :
  oid_of (set_fields (consumption_data username a e cst today) d) = oid_of d.
Proof.
  unfold oid_of. rewrite set_fields_lookup, data_lookup_other; [done|].
  compute_done.
Qed.

Lemma data_username username a e cst today :
  (list_to_map (consumption_data username a e cst today) : document) !! "username"%string
  = Some (VStr username).
Proof. apply data_lookup. in_data. Qed.

Lemma data_date username a e cst today :
  (list_to_map (consumption_data username a e cst today) : document) !! "date"%string
  = Some (VStr (strftime_Ymd today)).
Proof. apply data_lookup. in_data. Qed.

Lemma matches_day_set_fields username a e cst today d :
  matches (day_query username (strftime_Ymd today))
    (set_fields (consumption_data username a e cst today) d) = true.
Proof.
  apply matches_day_query.
  by rewrite !set_fields_lookup, data_username, data_date.
Qed.

Lemma matches_day_new username a e cst today (n : N) :
  matches (day_query username (strftime_Ymd today))
    (<["_id"%string := VOid n]> (list_to_map (consumption_data username a e cst today))) = true.
Proof.
  apply matches_day_query.
  rewrite !lookup_insert_ne by done.
  by rewrite data_username, data_date.
Qed.

Lemma written_fields username a e cst today c r k v :
  written (consumption_data username a e cst today) c r ->
  (k, v) ∈ consumption_data username a e cst today ->
  r !! k = Some v.
Proof.
  intros [(existing & _ & ->) | (n & ->)] Hkv.
  - by rewrite set_fields_lookup, (data_lookup _ _ _ _ _ _ _ Hkv).
  - rewrite lookup_insert_ne; [by apply data_lookup|].
    intros <-. apply (list_elem_of_fmap_2 fst) in Hkv. simpl in Hkv.
    revert Hkv. compute_done.
Qed.

Lemma filter_none_nil {A} (P : A -> Prop) `{!forall x, Decision (P x)} (l : list A) :
  Forall (fun x => ~ P x) l -> filter P l = [].
Proof.
  induction 1 as [|x l Hx _ IH]; [done|]. by rewrite filter_cons_False.
Qed.

Lemma filter_at_most_one {A} (P : A -> Prop) `{!forall x, Decision (P x)} (l1 l2 : list A) x :
  P x -> (length (filter P (l1 ++ x :: l2)) <= 1)%nat ->
  filter P l1 = [] /\ filter P l2 = [].
Proof.
  intros Hx. rewrite filter_app, filter_cons_True, length_app by done. simpl.
  intros Hle. split; apply nil_length_inv; lia.
Qed.

(** The upsert keeps the collection well keyed and the user's day with
    at most one record; when it succeeds that record carries the new
    data. *)
Lemma save_keeps_ledger username a e cst today w b w' :
  well_keyed (consumption w) ->
  (length (records_for username (strftime_Ymd today) (consumption w)) <= 1)%nat ->
  save_consumption_data username a e cst today w = (b, w') ->
  well_keyed (consumption w') /\
  (length (records_for username (strftime_Ymd today) (consumption w')) <= 1)%nat /\
  (b = true ->
   exists r, records_for username (strftime_Ymd today) (consumption w') = [r] /\
     written (consumption_data username a e cst today) (consumption w) r).
Proof.
  intros Hwk Hone Hsave. destruct b; cycle 1.
  { apply save_false in Hsave. rewrite Hsave. split_and!; [done..|discriminate]. }
  apply save_true in Hsave as (s & s' & Hdb & Hdb' & _ & Hup).
  unfold consumption in *. rewrite Hdb in Hwk, Hone. rewrite Hdb'.
  set (data := consumption_data username a e cst today) in *.
  apply upsert_inv in Hup as [[[? ?] _] | [(_ & _ & Hup) | (_ & _ & Hup)]]; [discriminate|..].
  - destruct Hup as (i & existing & idv & Hff & Hid & ->).
    apply list_find_Some in Hff as (Hi & Hm & _).
    rewrite (update_first_by_id _ i existing) by done.
    set (updated := set_fields data existing).
    assert (Hm' : matches (day_query username (strftime_Ymd today)) updated)
      by apply Is_true_true, matches_day_set_fields.
    assert (Hfilter : records_for username (strftime_Ymd today) (<[i:=updated]> (docs s)) = [updated]).
    { unfold records_for in *.
      rewrite insert_take_drop by (by eapply lookup_lt_Some).
      rewrite <- (take_drop_middle _ _ _ Hi) in Hone.
      apply filter_at_most_one in Hone as [H1 H2]; [|done].
      by rewrite filter_app, filter_cons_True, H1, H2. }
    destruct Hwk as [Hk Hnd]. split_and!.
    + split.
      * apply Forall_insert; [done|]. unfold updated, data.
        rewrite oid_of_set_fields. rewrite Forall_lookup in Hk. by eapply Hk.
      * rewrite list_fmap_insert. unfold updated, data. rewrite oid_of_set_fields.
        rewrite list_insert_id; [done|]. by rewrite list_lookup_fmap, Hi.
    + by rewrite Hfilter.
    + intros _. exists updated. split; [done|]. left. exists existing.
      rewrite Hdb. split; [|done]. by eapply list_elem_of_lookup_2.
  - destruct Hup as (Hff & Hfresh & ->).
    apply list_find_None in Hff.
    set (new := <["_id"%string := VOid (next_oid s)]> (list_to_map data)).
    assert (Hfilter : records_for username (strftime_Ymd today) (docs s ++ [new]) = [new]).
    { unfold records_for. rewrite filter_app, (filter_none_nil _ (docs s)) by done.
      apply (filter_singleton_True _ new []). apply Is_true_true, matches_day_new. }
    assert (Hoid : oid_of new = Some (next_oid s)).
    { unfold oid_of, new. by rewrite lookup_insert_eq. }
    destruct Hwk as [Hk Hnd]. split_and!.
    + split.
      * apply Forall_app. split; [done|]. apply Forall_singleton. by rewrite Hoid.
      * rewrite fmap_app. apply NoDup_app. split_and!; [done| |apply NoDup_singleton].
        intros o Ho. simpl. rewrite Hoid. intros ->%list_elem_of_singleton.
        apply list_elem_of_fmap in Ho as (d & Hd & Hin).
        assert (existsb (has_oid (next_oid s)) (docs s) = true) as Hex; [|congruence].
        apply existsb_exists. exists d. split; [by apply list_elem_of_In|].
        unfold has_oid. unfold oid_of in Hd. destruct (d !! "_id"%string) as [[]|]; try discriminate.
        apply N.eqb_eq. congruence.
    + by rewrite Hfilter.
    + intros _. exists new. split; [done|]. right. by exists (next_oid s).
Qed.

End store.

(** ** Retrieval *)

Section retrieval.

Implicit Types (c : collection) (d : document) (s : server) (w : world).

#[local] Instance date_le_total k : Total (date_le k).
Proof. intros d1 d2. unfold date_le. lia. Qed.

#[local] Instance date_le_trans k : Transitive (date_le k).
Proof. intros d1 d2 d3. unfold date_le. lia. Qed.

Lemma matches_range_query username start d :
  matches (range_query username start) d = true <->
  d !! "username"%string = Some (VStr username) /\
  exists ms, d !! "timestamp"%string = Some (VDate ms) /\ to_bson start <= ms.
Proof.
  unfold matches, range_query. cbn [forallb].
  rewrite andb_true_r, andb_true_iff, holds_is_str.
  apply and_iff_compat_l. unfold holds; simpl.
  destruct (d !! "timestamp"%string) as [[]|]; simpl;
    try (split; [discriminate | by intros (? & [=] & _)]).
  rewrite Z.leb_le. split; [eauto | by intros (? & [= <-] & ?)].
Qed.

Lemma window_elem_of username start c d :
  d ∈ window username start c <->
  d ∈ c /\ d !! "username"%string = Some (VStr username) /\
  exists ms, d !! "timestamp"%string = Some (VDate ms) /\ to_bson start <= ms.
Proof.
  unfold window. rewrite merge_sort_Permutation, list_elem_of_filter.
  rewrite Is_true_true, matches_range_query. tauto.
Qed.

Lemma window_sorted username start c :
  StronglySorted (date_le "timestamp") (window username start c).
Proof. apply Sorted_StronglySorted; [apply _|]. apply Sorted_merge_sort, _. Qed.

(** The four ways [get_user_consumption_data] ends. *)
Lemma get_inv username days now w r w' :
  get_user_consumption_data username days now w = (r, w') ->
  (db w = None /\ r = Returns [] /\ w' = w) \/
  (exists e, start_of now days = Raises e /\ r = Raises e /\ w' = w) \/
  (exists s start,
     db w = Some s /\ start_of now days = Returns start /\
     consumption w' = consumption w /\
     ((head (faults s) = Some true /\ r = Returns [] /\
       page w' = page w ++ [retrieval_error]) \/
      (head (faults s) <> Some true /\ r = Returns (window username start (docs s)) /\
       page w' = page w))).
Proof.
  unfold get_user_consumption_data. destruct (db w) as [s|] eqn:Hdb.
  2:{ intros [= <- <-]. by left. }
  destruct (start_of now days) as [start|e] eqn:Hstart.
  2:{ intros [= <- <-]. right. left. by exists e. }
  intros Hget. right. right. exists s, start. split_and!; [done..| |].
  - unfold consumption. rewrite Hdb. revert Hget.
    unfold find_sorted, round_trip. destruct (faults s) as [|[] rest]; by intros [= <- <-].
  - revert Hget. unfold find_sorted, round_trip.
    destruct (faults s) as [|[] rest]; intros [= <- <-]; simpl; [right|left|right]; done.
Qed.

Lemma start_of_zero now : in_range now = true -> start_of now 0 = Returns now.
Proof.
  intros Hnow. unfold start_of, timedelta_days, Datetime.sub. simpl.
  by rewrite Z.sub_0_r, Hnow.
Qed.

Lemma answering_head w :
  answering w = true -> forall s, db w = Some s -> head (faults s) <> Some true.
Proof.
  unfold answering. intros Ha s Hdb. rewrite Hdb in Ha.
  by destruct (faults s) as [|[] rest].
Qed.

Lemma get_returns username days now start w :
  start_of now days = Returns start ->
  (forall s, db w = Some s -> head (faults s) <> Some true) ->
  exists w',
    get_user_consumption_data username days now w
      = (Returns (window username start (consumption w)), w') /\
    consumption w' = consumption w /\ page w' = page w.
Proof.
  intros Hstart Hok.
  destruct (get_user_consumption_data username days now w) as [r w'] eqn:Hget.
  exists w'. apply get_inv in Hget
    as [(Hdb & -> & ->)|[(e & He & _)|(s & st & Hdb & Hst & Hc & [(Hf & _)|(_ & -> & Hp)])]].
  - unfold consumption. rewrite Hdb. done.
  - congruence.
  - by destruct (Hok s Hdb).
  - unfold consumption at 1. rewrite Hdb. rewrite Hstart in Hst. injection Hst as <-. done.
Qed.

Lemma answering_fault w s :
  db w = Some s -> (answering w = false <-> head (faults s) = Some true).
Proof.
  intros Hdb. unfold answering. rewrite Hdb. by destruct (faults s) as [|[] rest].
Qed.

(** What the range query asks of a record, field by field. *)
Lemma since_matches username start d :
  matches (range_query username start) d = true <-> since username (to_bson start) d.
Proof.
  rewrite matches_range_query. unfold since. split.
  - intros (Hu & ms & -> & Hle). done.
  - intros [Hu Hts]. split; [done|].
    destruct (d !! "timestamp"%string) as [[| | |ms|]|]; try done. by exists ms.
Qed.

Lemma window_since username start c :
  window username start c ≡ₚ filter (since username (to_bson start)) c.
Proof.
  unfold window. rewrite merge_sort_Permutation.
  erewrite list_filter_iff; [done|]. intros d. rewrite Is_true_true. apply since_matches.
Qed.

End retrieval.

(** ** The upsert *)

Ltac in_data := unfold consumption_data; apply list_elem_of_In; simpl; tauto.

Section upsert.

Lemma submit_all_keeps_ledger username date xs : forall w,
  well_keyed (consumption w) ->
  (length (records_for username date (consumption w)) <= 1)%nat ->
  Forall (fun x => strftime_Ymd (sub_clock x) = date) xs ->
  well_keyed (consumption (submit_all username xs w)) /\
  (length (records_for username date (consumption (submit_all username xs w))) <= 1)%nat.
Proof.
  induction xs as [|x xs IH]; intros w Hwk Hone Hday; [done|].
  apply Forall_cons in Hday as [<- Hday]. simpl.
  destruct (submit username x w) as [b w'] eqn:Hsub.
  destruct (save_keeps_ledger _ _ _ _ _ _ _ _ Hwk Hone Hsub) as (Hwk' & Hone' & _).
  by apply IH.
Qed.

End upsert.

(** C1. For every username and every sequence of submissions made on the
    same calendar day, after each call of [save_consumption_data] at most
    one consumption record exists for the (username, date) pair; and after
    two calls on that day (both reported as saved) exactly one record exists
    for the pair, holding the appliances, energy and cost of the second
    call.  The collection the calls start from is well keyed (every document
    has its own ObjectId) and has at most one record for the pair. *)
Theorem save_one_record_per_day username date w :
  well_keyed (consumption w) ->
  (length (records_for username date (consumption w)) <= 1)%nat ->
  (forall xs,
     Forall (fun x => strftime_Ymd (sub_clock x) = date) xs ->
     (length (records_for username date (consumption (submit_all username xs w))) <= 1)%nat) /\
  (forall x1 x2 w1 w2,
     strftime_Ymd (sub_clock x1) = date ->
     strftime_Ymd (sub_clock x2) = date ->
     submit username x1 w = (true, w1) ->
     submit username x2 w1 = (true, w2) ->
     exists r,
       records_for username date (consumption w2) = [r] /\
       r !! "appliances"%string = Some (VDoc (sub_appliances x2)) /\
       r !! "total_energy_kwh"%string = Some (VNum (PyNum.round2 (sub_energy x2))) /\
       r !! "estimated_cost"%string = Some (VNum (PyNum.round2 (sub_cost x2)))).
Proof.
  intros Hwk Hone. split.
  - intros xs Hday. by apply submit_all_keeps_ledger.
  - intros x1 x2 w1 w2 <- Hday Hs1 Hs2.
    destruct (save_keeps_ledger _ _ _ _ _ _ _ _ Hwk Hone Hs1) as (Hwk1 & Hone1 & _).
    rewrite <- Hday in Hone1 |- *.
    destruct (save_keeps_ledger _ _ _ _ _ _ _ _ Hwk1 Hone1 Hs2) as (_ & _ & Hr).
    destruct (Hr eq_refl) as (r & Hrec & Hfields).
    exists r. split_and!; [done|eapply written_fields; [done|]..]; in_data.
Qed.

Lemma save_one_record_per_day_witness :
  (length (records_for "ann" "2024-04-24"
     (consumption (submit_all "ann"
        [Example.entry Example.home Example.morning; Example.entry Example.flat Example.evening]
        Example.fresh))) <= 1)%nat /\
  exists r,
    records_for "ann" "2024-04-24" (consumption Example.after_evening) = [r] /\
    r !! "appliances"%string = Some (VDoc Example.flat) /\
    r !! "total_energy_kwh"%string = Some (VNum (PyNum.round2 (Example.priced Example.flat).1)) /\
    r !! "estimated_cost"%string = Some (VNum (PyNum.round2 (Example.priced Example.flat).2)).
Proof.
  assert (H1 : well_keyed (consumption Example.fresh)) by compute_done.
  assert (H2 : (length (records_for "ann" "2024-04-24" (consumption Example.fresh)) <= 1)%nat)
    by compute_done.
  destruct (save_one_record_per_day "ann" "2024-04-24" Example.fresh H1 H2) as [Hseq Htwo].
  split.
  - apply Hseq. repeat constructor.
  - apply (Htwo (Example.entry Example.home Example.morning)
             (Example.entry Example.flat Example.evening)
             Example.after_morning Example.after_evening); compute_done.
Defined.

(** C9. When a submission is saved for a (username, date) pair that already
    has a record, the existing document is updated where it stands: the
    collection changes at that position only, the document keeps its [_id],
    every field of the new data takes the new value, and every field that
    the new data does not name is left as it was. *)
Theorem save_updates_in_place username a e cst today w w' i existing :
  well_keyed (consumption w) ->
  find_first (today_query username today) (consumption w) = Some (i, existing) ->
  save_consumption_data username a e cst today w = (true, w') ->
  exists updated,
    consumption w' = <[i := updated]> (consumption w) /\
    updated !! "_id"%string = existing !! "_id"%string /\
    (forall k v, (k, v) ∈ consumption_data username a e cst today -> updated !! k = Some v) /\
    (forall k, k ∉ data_keys -> updated !! k = existing !! k).
Proof.
  intros Hwk Hff Hsave.
  apply save_true in Hsave as (s & s' & Hdb & Hdb' & _ & Hup).
  unfold consumption in *. rewrite Hdb in Hwk, Hff. rewrite Hdb'.
  apply upsert_inv in Hup as [[[? ?] _] | [(_ & _ & Hup) | (_ & _ & Hup)]]; [discriminate|..].
  - destruct Hup as (i' & existing' & idv & Hff' & Hid & ->).
    rewrite Hff in Hff'. injection Hff' as <- <-.
    apply list_find_Some in Hff as (Hi & _ & _).
    rewrite (update_first_by_id _ i existing) by done.
    exists (set_fields (consumption_data username a e cst today) existing).
    rewrite Hdb. split_and!; [done|..].
    + rewrite set_fields_lookup, data_lookup_other; [done|compute_done].
    + intros k v Hkv. by rewrite set_fields_lookup, (data_lookup _ _ _ _ _ _ _ Hkv).
    + intros k Hk. by rewrite set_fields_lookup, data_lookup_other.
  - destruct Hup as (Hnone & _). rewrite Hff in Hnone. discriminate.
Qed.

Lemma save_updates_in_place_witness :
  exists updated,
    consumption Example.after_evening = <[0%nat := updated]> (consumption Example.after_morning) /\
    updated !! "_id"%string = Example.morning_record !! "_id"%string /\
    (forall k v,
       (k, v) ∈ consumption_data "ann" Example.flat (Example.priced Example.flat).1
                  (Example.priced Example.flat).2 Example.evening ->
       updated !! k = Some v) /\
    (forall k, k ∉ data_keys -> updated !! k = Example.morning_record !! k).
Proof.
  apply (save_updates_in_place "ann" Example.flat (Example.priced Example.flat).1
           (Example.priced Example.flat).2 Example.evening
           Example.after_morning Example.after_evening 0 Example.morning_record);
    compute_done.
Defined.

(** ** Reading a window *)

(** C3, as stated, fails: [get_user_consumption_data] with [days = 0] does
    not return today's record.  The record saved at 10:00 is in the ledger
    for the day, and the call made at noon of the same day returns the empty
    list. *)
Lemma get_zero_days_misses_today :
  strftime_Ymd Example.noon = "2024-04-24"%string /\
  records_for "ann" "2024-04-24" (consumption Example.after_morning) = [Example.morning_record] /\
  (get_user_consumption_data "ann" 0 Example.noon Example.after_morning).1 = Returns [].
Proof. split_and!; compute_done. Qed.

(** C3, amended.  With [days = 0] the call returns (it does not raise) and
    leaves the collection as it is.  On a store that answers, what it
    returns is exactly the records of the user whose timestamp is not
    earlier than the instant of the call, to the millisecond, each once and
    oldest first: not today's record as such, since a record saved earlier
    in the day is left out.  So when every record of the user was saved
    before that instant, today's included, the result is empty; it is empty
    too when the store does not answer. *)
Theorem get_zero_days username now w :
  in_range now = true ->
  exists l w',
    get_user_consumption_data username 0 now w = (Returns l, w') /\
    consumption w' = consumption w /\
    (answering w = true ->
     l ≡ₚ filter (since username (to_bson now)) (consumption w) /\
     StronglySorted (date_le "timestamp") l) /\
    (answering w = false -> l = []) /\
    ((forall d, d ∈ consumption w -> d !! "username"%string = Some (VStr username) ->
        date_of d "timestamp" < to_bson now) ->
     l = []).
Proof.
  intros Hnow.
  destruct (get_user_consumption_data username 0 now w) as [r w'] eqn:Hget.
  apply get_inv in Hget as [(Hdb & -> & ->) | [(e & He & _) | (s & start & Hdb & Hstart & Hc & Hget)]].
  - exists [], w. unfold consumption, answering. rewrite Hdb.
    split_and!; [done..| |done|done]. intros _. split; [done|constructor].
  - rewrite start_of_zero in He by done. discriminate.
  - rewrite start_of_zero in Hstart by done. injection Hstart as <-.
    destruct Hget as [(Hf & -> & _) | (Hf & -> & _)].
    + exists [], w'. split_and!; [done..| |done|done].
      intros Ha. by destruct (answering_head _ Ha s Hdb).
    + exists (window username now (docs s)), w'.
      assert (Hdocs : consumption w = docs s) by (unfold consumption; by rewrite Hdb).
      rewrite Hdocs. split_and!; [done|congruence| | |].
      * intros _. split; [apply window_since|apply window_sorted].
      * intros Ha. by apply (answering_fault _ _ Hdb) in Ha.
      * intros Hold. destruct (window username now (docs s)) as [|d l] eqn:Hw; [done|].
        assert (d ∈ window username now (docs s)) as Hd by (rewrite Hw; by left).
        apply window_elem_of in Hd as (Hd & Hu & ms & Hts & Hle).
        specialize (Hold d Hd Hu). unfold date_of in Hold. rewrite Hts in Hold. lia.
Qed.

Lemma get_zero_days_witness :
  exists l w',
    get_user_consumption_data "ann" 0 Example.morning Example.after_two_days
      = (Returns l, w') /\
    length l = 2%nat /\
    answering Example.after_two_days = true /\
    consumption w' = consumption Example.after_two_days /\
    (answering Example.after_two_days = true ->
     l ≡ₚ filter (since "ann" (to_bson Example.morning)) (consumption Example.after_two_days) /\
     StronglySorted (date_le "timestamp") l) /\
    (answering Example.after_two_days = false -> l = []) /\
    ((forall d, d ∈ consumption Example.after_two_days ->
        d !! "username"%string = Some (VStr "ann") ->
        date_of d "timestamp" < to_bson Example.morning) ->
     l = []).
Proof.
  destruct (get_zero_days "ann" Example.morning Example.after_two_days)
    as (l & w' & Hget & Hrest); [reflexivity|].
  exists l, w'. split; [done|]. split; [|split; [compute_done|done]].
  assert (Hl : (get_user_consumption_data "ann" 0 Example.morning Example.after_two_days).1
               = Returns (consumption Example.after_two_days)) by compute_done.
  rewrite Hget in Hl. injection Hl as ->. reflexivity.
Defined.

(** C6, as stated, fails: a data-access failure is not reported as an error
    distinct from the empty result.  With a record of the user in the window
    and the store unreachable, the call returns the empty list, the very
    value it returns for a user without records. *)
Lemma get_failure_returns_empty :
  (get_user_consumption_data "ann" 14 Example.evening (Example.unreachable Example.after_morning)).1
    = Returns [] /\
  (get_user_consumption_data "ann" 14 Example.evening Example.fresh).1 = Returns [] /\
  (get_user_consumption_data "ann" 14 Example.evening Example.after_morning).1
    = Returns [Example.morning_record].
Proof. split_and!; compute_done. Qed.

(** C6, amended.  Whenever the start of the window can be computed the call
    returns a list and never signals an error, and the collection is left
    as it was.  The list is empty when no record of the user falls in the
    window; it is empty as well when the store cannot be reached, in which
    case an error message is written to the page, and when there is no
    connection at all, in which case nothing is written.  The returned value
    alone therefore does not tell a failure from an empty window. *)
Theorem get_never_signals_failure username days now start w :
  start_of now days = Returns start ->
  exists l w',
    get_user_consumption_data username days now w = (Returns l, w') /\
    consumption w' = consumption w /\
    (db w = None -> l = [] /\ w' = w) /\
    (forall s, db w = Some s -> head (faults s) = Some true ->
       l = [] /\ page w' = page w ++ [retrieval_error]) /\
    (forall s, db w = Some s -> head (faults s) <> Some true ->
       page w' = page w /\
       ((forall d, d ∈ consumption w -> matches (range_query username start) d = false) ->
        l = [])).
Proof.
  intros Hstart.
  destruct (get_user_consumption_data username days now w) as [r w'] eqn:Hget.
  apply get_inv in Hget as [(Hdb & -> & ->) | [(e & He & _) | (s & start' & Hdb & Hstart' & Hc & Hget)]].
  - exists [], w. split_and!; [done..| |]; intros s Hs; congruence.
  - congruence.
  - rewrite Hstart in Hstart'. injection Hstart' as <-.
    destruct Hget as [(Hf & -> & Hp) | (Hf & -> & Hp)].
    + exists [], w'. split_and!; [done..|congruence| |].
      * intros s0 Hs0 _. done.
      * intros s0 Hs0 Hnf. congruence.
    + exists (window username start (docs s)), w'. split_and!; [done..|congruence| |].
      * intros s0 Hs0 Hf0. congruence.
      * intros s0 Hs0 _. split; [done|]. intros Hnone.
        unfold window. rewrite filter_none_nil; [done|].
        apply Forall_forall. intros d Hd. rewrite Is_true_true.
        unfold consumption in Hnone. rewrite Hdb in Hnone. rewrite Hnone; done.
Qed.

Lemma get_never_signals_failure_witness :
  let w := Example.unreachable Example.after_morning in
  exists l w',
    get_user_consumption_data "ann" 14 Example.evening w = (Returns l, w') /\
    consumption w' = consumption w /\
    (db w = None -> l = [] /\ w' = w) /\
    (forall s, db w = Some s -> head (faults s) = Some true ->
       l = [] /\ page w' = page w ++ [retrieval_error]) /\
    (forall s, db w = Some s -> head (faults s) <> Some true ->
       page w' = page w /\
       ((forall d, d ∈ consumption w ->
           matches (range_query "ann" (Example.evening - 14 * us_per_day)) d = false) ->
        l = [])).
Proof.
  apply (get_never_signals_failure "ann" 14 Example.evening
           (Example.evening - 14 * us_per_day)
           (Example.unreachable Example.after_morning)).
  reflexivity.
Defined.

(** ** The energy model *)

Section energy.

Implicit Types (a : appliances) (total : number).

Lemma of_int_cases n : of_int n = Raises OverflowError \/ exists f, of_int n = Returns f.
Proof. unfold of_int. destruct (round_int n); eauto. Qed.

Lemma accumulate_unknown k c a total :
  energy_rates !! k = None ->
  accumulate ((k, c) :: a) total = accumulate a total.
Proof. intros Hk. simpl. by rewrite Hk. Qed.

Lemma accumulate_overflow k c a total rate :
  energy_rates !! k = Some rate ->
  of_int c = Raises OverflowError ->
  accumulate ((k, c) :: a) total = Raises OverflowError.
Proof. intros Hk Hc. simpl. rewrite Hk. unfold mul, to_float. by rewrite Hc. Qed.

Lemma accumulate_known k c a total rate f :
  energy_rates !! k = Some rate ->
  of_int c = Returns f ->
  running total ->
  exists g,
    add total (PFloat (fmul f rate)) = Returns (PFloat g) /\
    accumulate ((k, c) :: a) total = accumulate a (PFloat g).
Proof.
  intros Hk Hc Hrun. simpl. rewrite Hk. unfold mul, to_float. rewrite Hc. simpl.
  destruct Hrun as [-> | [g ->]]; simpl; eauto.
Qed.

Lemma accumulate_returns a : forall total,
  running total ->
  Forall (fun kc => known kc -> convertible kc) a ->
  exists v, accumulate a total = Returns v /\ running v.
Proof.
  induction a as [|[k c] a IH]; intros total Hrun Hconv; [by exists total|].
  apply Forall_cons in Hconv as [Hc Hconv].
  destruct (energy_rates !! k) as [rate|] eqn:Hk.
  - destruct Hc as [f Hf]; [by unfold known; simpl; rewrite Hk|]. simpl in Hf.
    destruct (accumulate_known k c a total rate f) as (g & _ & ->); [done..|].
    apply IH; [right; eauto | done].
  - rewrite accumulate_unknown by done. by apply IH.
Qed.

Lemma accumulate_raises a : forall total e,
  running total ->
  accumulate a total = Raises e ->
  e = OverflowError /\
  Exists (fun kc => known kc /\ of_int kc.2 = Raises OverflowError) a.
Proof.
  induction a as [|[k c] a IH]; intros total e Hrun; [done|].
  destruct (energy_rates !! k) as [rate|] eqn:Hk.
  - destruct (of_int_cases c) as [Hc | [f Hf]].
    + rewrite (accumulate_overflow k c a total rate) by done. intros [= <-].
      split; [done|]. apply Exists_cons_hd. split; [|done].
      unfold known. simpl. by rewrite Hk.
    + destruct (accumulate_known k c a total rate f) as (g & _ & ->); [done..|].
      intros [-> Hex]%IH; [|right; eauto]. split; [done|]. by apply Exists_cons_tl.
  - rewrite accumulate_unknown by done.
    intros [-> Hex]%IH; [|done]. split; [done|]. by apply Exists_cons_tl.
Qed.

End energy.

(** C2, as stated, fails: a negative count is not rejected, and a
    non-negative count can make the function fail.  One light less than none
    yields -0.2 kWh, and a count of 2^1024 raises [OverflowError]; no
    InvalidInput error is raised anywhere. *)
Lemma negative_count_is_accepted :
  calculate_energy_consumption [("lights"%string, -1)] = Returns (PFloat Example.minus_0_2) /\
  calculate_energy_consumption [("lights"%string, 2 ^ 1024)] = Raises OverflowError.
Proof. split; compute_done. Qed.

(** C2, amended.  [calculate_energy_consumption] is a function of the
    mapping alone.  It returns a value whenever every count of a known kind
    can be converted to a float, whatever its sign; when it fails, the error
    is [OverflowError] and some count of a known kind is too large to
    convert.  Negative counts are not rejected. *)
Theorem calculate_fails_only_on_overflow a :
  (Forall (fun kc => known kc -> convertible kc) a ->
   exists v, calculate_energy_consumption a = Returns v) /\
  (forall e, calculate_energy_consumption a = Raises e ->
     e = OverflowError /\
     Exists (fun kc => known kc /\ of_int kc.2 = Raises OverflowError) a).
Proof.
  split.
  - intros Hconv. destruct (accumulate_returns a (PInt 0)) as (v & Hv & _); [by left|done|].
    by exists v.
  - intros e. apply accumulate_raises. by left.
Qed.

(** C8.  For the example mapping, to the two decimals of the ledger, the
    energy is 7.8 kWh and the cost at tariff 8 is 62.4: the function yields
    the double 7.800000000000001, the form multiplies it by 8 to
    62.400000000000006, and [round(_, 2)] of the two, which is what the
    record saved for the mapping holds, is 7.8 and 62.4. *)
Theorem example_energy_and_cost :
  calculate_energy_consumption Example.home = Returns (PFloat Example.above_7_8) /\
  mul (PFloat Example.above_7_8) rate_per_unit = Returns (PFloat Example.above_62_4) /\
  PyNum.round2 (PFloat Example.above_7_8) = PFloat (literal 78 10) /\
  PyNum.round2 (PFloat Example.above_62_4) = PFloat (literal 624 10) /\
  Example.morning_record !! "total_energy_kwh"%string = Some (VNum (PFloat (literal 78 10))) /\
  Example.morning_record !! "estimated_cost"%string = Some (VNum (PFloat (literal 624 10))).
Proof. split_and!; compute_done. Qed.

(** ** The input form *)

Section form.

Lemma same_eq x y : same x y = true <-> x = y.
Proof.
  destruct x as [a|a| |a m e], y as [b|b| |b n f]; simpl;
    rewrite ?andb_true_iff, ?Bool.eqb_true_iff, ?Pos.eqb_eq, ?Z.eqb_eq;
    split; try congruence; try discriminate; try tauto.
  - by intros [[-> ->] ->].
  - by intros [= -> -> ->].
Qed.

Lemma dedupe_elem x l : x ∈ l -> x ∈ dedupe l.
Proof.
  induction l as [|y l IH]; [done|]. simpl.
  intros [->|Hx]%elem_of_cons.
  - destruct (existsb (same y) (dedupe l)) eqn:Hex; [|by left].
    apply existsb_exists in Hex as (z & Hz & ->%same_eq). by apply list_elem_of_In.
  - destruct (existsb _ _); [by apply IH | right; by apply IH].
Qed.

Lemma after_kind_elem rate bound totals t c :
  t ∈ totals -> 0 <= c <= bound ->
  fadd t (fmul (round_int c) rate) ∈ after_kind rate bound totals.
Proof.
  intros Ht Hc. apply dedupe_elem, list_elem_of_bind. exists t. split; [|done].
  apply list_elem_of_bind. exists c. split; [by left|].
  apply elem_of_seqZ. lia.
Qed.

Lemma small_of_int c : 0 <= c <= 50 -> of_int c = Returns (round_int c).
Proof.
  assert (H : Forall (fun c => of_int c = Returns (round_int c)) (seqZ 0 51)) by compute_done.
  intros Hc. rewrite Forall_forall in H. apply H, elem_of_seqZ. lia.
Qed.

(** One step of the loop, on a total the form can have reached. *)
Lemma kind_step k rate bound c rest totals total t :
  energy_rates !! k = Some rate ->
  0 <= c <= bound -> bound <= 50 ->
  t ∈ totals ->
  total = PFloat t \/ (total = PInt 0 /\ t = S754_zero false) ->
  exists t',
    accumulate ((k, c) :: rest) total = accumulate rest (PFloat t') /\
    t' ∈ after_kind rate bound totals.
Proof.
  intros Hk Hc Hb Ht Htotal.
  exists (fadd t (fmul (round_int c) rate)). split; [|by apply after_kind_elem].
  simpl. rewrite Hk. unfold mul, to_float. rewrite small_of_int by lia. simpl.
  by destruct Htotal as [-> | [-> ->]].
Qed.

Lemma form_total f :
  widgets f ->
  exists e,
    calculate_energy_consumption (form_appliances f) = Returns (PFloat e) /\
    e ∈ form_totals.
Proof.
  intros (Hl & Hf & Ht & Ha & Hr & Hw). unfold number_input in *.
  assert (0 <= ac_count f <= 10) by (unfold ac_count; destruct (has_ac f); lia).
  assert (0 <= fridge_count f <= 5) by (unfold fridge_count; destruct (has_fridge f); lia).
  assert (0 <= wm_count f <= 5) by (unfold wm_count; destruct (has_wm f); lia).
  unfold calculate_energy_consumption, form_appliances, form_totals.
  edestruct (kind_step "lights" (rate_of "lights") 50 (lights f)) as (t1 & -> & Hin1);
    [reflexivity|done|lia|by left|right; done|].
  edestruct (kind_step "fans" (rate_of "fans") 20 (fans f)) as (t2 & -> & Hin2);
    [reflexivity|done|lia|exact Hin1|by left|].
  edestruct (kind_step "tvs" (rate_of "tvs") 10 (tvs f)) as (t3 & -> & Hin3);
    [reflexivity|done|lia|exact Hin2|by left|].
  edestruct (kind_step "ac" (rate_of "ac") 10 (ac_count f)) as (t4 & -> & Hin4);
    [reflexivity|done|lia|exact Hin3|by left|].
  edestruct (kind_step "fridge" (rate_of "fridge") 5 (fridge_count f)) as (t5 & -> & Hin5);
    [reflexivity|done|lia|exact Hin4|by left|].
  edestruct (kind_step "washing_machine" (rate_of "washing_machine") 5 (wm_count f))
    as (t6 & -> & Hin6); [reflexivity|done|lia|exact Hin5|by left|].
  by exists t6.
Qed.

Lemma form_totals_agree : forallb cost_agrees form_totals = true.
Proof. vm_compute. reflexivity. Qed.

Lemma mul_tariff x :
  mul (PFloat x) rate_per_unit = Returns (PFloat (fmul x (round_int 8))).
Proof.
  unfold mul, rate_per_unit, to_float. by rewrite small_of_int by lia.
Qed.

Lemma find_one_docs q s r s' : find_one q s = (r, s') -> docs s' = docs s.
Proof. intros [(_ & ? & _) | [= _ ? _]]%round_trip_inv; done. Qed.

(** Either the form leaves the collection alone, or it has called
    [save_consumption_data] with its mapping, the total and the cost, and
    the call has reported success. *)
Lemma form_inv username compact f now today w res w' :
  show_energy_input_form username compact f now today w = (res, w') ->
  consumption w' = consumption w \/
  exists e c w2 w3,
    calculate_energy_consumption (form_appliances f) = Returns e /\
    mul e rate_per_unit = Returns c /\
    gt0 e = true /\
    consumption w2 = consumption w /\
    save_consumption_data username (form_appliances f) e c today w2 = (true, w3) /\
    consumption w' = consumption w3.
Proof.
  unfold show_energy_input_form.
  set (looked_up := match db w with Some s => _ | None => _ end).
  assert (Hlook : consumption looked_up.2 = consumption w).
  { unfold looked_up, consumption. destruct (db w) as [s|] eqn:Hdb; simpl; [|by rewrite Hdb].
    destruct (find_one _ s) as [r s'] eqn:Hfind. simpl. by eapply find_one_docs. }
  destruct looked_up as [[existing_data|err] w1]; simpl in Hlook; [|intros [= _ <-]; by left].
  set (w2 := if _ && _ then st_message _ w1 else w1).
  assert (Hw2 : consumption w2 = consumption w).
  { unfold w2. by destruct (_ && _). }
  destruct (calculate_energy_consumption (form_appliances f)) as [e|err] eqn:He; simpl;
    [|intros [= _ <-]; by left].
  destruct (mul e rate_per_unit) as [c|err] eqn:Hc; simpl; [|intros [= _ <-]; by left].
  destruct (submit_button f); [|intros [= _ <-]; by left].
  destruct (gt0 e) eqn:Hgt; [|intros [= _ <-]; by left].
  destruct (save_consumption_data _ _ _ _ _ w2) as [[] w3] eqn:Hsave; intros [= _ <-].
  - right. by exists e, c, w2, w3.
  - left. apply save_false in Hsave. unfold st_error, consumption in *. simpl. congruence.
Qed.

End form.

(** C4, as stated, fails beyond the counts the form accepts: the stored
    cost is rounded from the unrounded total times the tariff, and with
    enough lights that is not the stored energy times the tariff, rounded.
    For 100000000000002 lights the record holds 20000000000000.4 kWh and
    160000000000003.22, while 20000000000000.4 times 8 rounds to
    160000000000003.2. *)
Lemma stored_cost_differs_for_huge_counts :
  consumption Example.after_stadium = [Example.stadium_record] /\
  Example.stadium_record !! "total_energy_kwh"%string
    = Some (VNum (PFloat Example.stadium_energy)) /\
  Example.stadium_record !! "estimated_cost"%string
    = Some (VNum (PFloat Example.stadium_cost)) /\
  (x ← mul (PFloat Example.stadium_energy) rate_per_unit; Returns (PyNum.round2 x))
    = Returns (PFloat Example.stadium_energy_times_8) /\
  PyNum.eqb (PFloat Example.stadium_cost) (PFloat Example.stadium_energy_times_8) = false.
Proof. split_and!; compute_done. Qed.

(** C4, amended.  For the counts the widgets of the form accept (at most
    50 lights, 20 fans, 10 TVs, 10 air conditioners, 5 refrigerators and 5
    washing machines), when the form changes the collection the record of
    the user's day holds an energy and a cost such that the cost is the
    stored energy times the tariff 8, rounded to two decimals.  The stored
    energy and the stored cost are each rounded from the unrounded total. *)
Theorem form_cost_is_stored_energy_times_tariff username compact f now today w res w' :
  widgets f ->
  well_keyed (consumption w) ->
  (length (records_for username (strftime_Ymd today) (consumption w)) <= 1)%nat ->
  show_energy_input_form username compact f now today w = (res, w') ->
  consumption w' <> consumption w ->
  exists r total energy cost,
    calculate_energy_consumption (form_appliances f) = Returns total /\
    energy = PyNum.round2 total /\
    (x ← mul total rate_per_unit; Returns (PyNum.round2 x)) = Returns cost /\
    records_for username (strftime_Ymd today) (consumption w') = [r] /\
    r !! "total_energy_kwh"%string = Some (VNum energy) /\
    r !! "estimated_cost"%string = Some (VNum cost) /\
    (x ← mul energy rate_per_unit; Returns (PyNum.round2 x)) = Returns cost.
Proof.
  intros Hwid Hwk Hone Hform Hchanged.
  apply form_inv in Hform as [? | (e & c & w2 & w3 & He & Hc & _ & Hw2 & Hsave & ->)]; [done|].
  destruct (form_total f Hwid) as (t & Ht & Hin).
  rewrite Ht in He. injection He as <-.
  assert (Hagree : cost_agrees t = true).
  { exact (proj1 (forallb_forall _ _) form_totals_agree t (proj1 (list_elem_of_In _ _) Hin)). }
  apply bool_decide_eq_true in Hagree.
  assert (c = PFloat (fmul t (round_int 8))) as ->.
  { rewrite mul_tariff in Hc. by injection Hc as <-. }
  rewrite <- Hw2 in Hwk, Hone.
  destruct (save_keeps_ledger _ _ _ _ _ _ _ _ Hwk Hone Hsave) as (_ & _ & Hr).
  destruct (Hr eq_refl) as (r & Hrec & Hwritten).
  exists r, (PFloat t), (PFloat (PyFloat.round2 t)), (PFloat (PyFloat.round2 (fmul t (round_int 8)))).
  split_and!; [done|done|by rewrite mul_tariff|done| | |].
  - eapply written_fields; [done|in_data].
  - eapply written_fields; [done|in_data].
  - rewrite mul_tariff.
    change (Returns (PFloat (PyFloat.round2 (fmul (PyFloat.round2 t) (round_int 8))))
            = Returns (PFloat (PyFloat.round2 (fmul t (round_int 8))))).
    by rewrite <- Hagree.
Qed.

Lemma form_cost_is_stored_energy_times_tariff_witness :
  exists r total energy cost,
    calculate_energy_consumption (form_appliances Example.home_form) = Returns total /\
    energy = PyNum.round2 total /\
    (x ← mul total rate_per_unit; Returns (PyNum.round2 x)) = Returns cost /\
    records_for "ann" (strftime_Ymd Example.morning) (consumption Example.after_form) = [r] /\
    r !! "total_energy_kwh"%string = Some (VNum energy) /\
    r !! "estimated_cost"%string = Some (VNum cost) /\
    (x ← mul energy rate_per_unit; Returns (PyNum.round2 x)) = Returns cost.
Proof.
  apply (form_cost_is_stored_energy_times_tariff "ann" false Example.home_form
           Example.morning Example.morning Example.fresh
           (show_energy_input_form "ann" false Example.home_form
              Example.morning Example.morning Example.fresh).1
           Example.after_form).
  - unfold widgets, number_input. simpl. lia.
  - compute_done.
  - compute_done.
  - compute_done.
  - compute_done.
Defined.

(** ** The calendar *)

Section calendar.

Lemma all_from_spec f p : forall lo k,
  all_from f p lo = true -> lo <= k < lo + Zpos p -> f k = true.
Proof.
  induction p as [q IH|q IH|]; intros lo k; simpl.
  - rewrite !andb_true_iff. intros [[H0 H1] H2] Hk.
    destruct (decide (k = lo)) as [->|]; [done|].
    destruct (decide (k < lo + 1 + Zpos q)).
    + apply (IH (lo + 1)); [done|lia].
    + apply (IH (lo + 1 + Zpos q)); [done|lia].
  - rewrite andb_true_iff. intros [H1 H2] Hk.
    destruct (decide (k < lo + Zpos q)).
    + apply (IH lo); [done|lia].
    + apply (IH (lo + Zpos q)); [done|lia].
  - intros H Hk. by replace k with lo by lia.
Qed.

Lemma cycle_checked : all_from cycle_day_ok 146097 0 = true.
Proof. vm_compute. reflexivity. Qed.

Lemma cycle_day r : 0 <= r < DI400Y -> cycle_day_ok r = true.
Proof.
  intros Hr. apply (all_from_spec _ 146097 0); [apply cycle_checked|].
  unfold DI400Y in Hr. lia.
Qed.

(** The calendar repeats every 400 years. *)
Lemma ord2ymd_period n :
  ord2ymd n =
  let '(y, m, d) := ord2ymd ((n - 1) mod DI400Y + 1) in
  (y + 400 * ((n - 1) / DI400Y), m, d).
Proof.
  assert (Hr : 0 <= (n - 1) mod DI400Y < DI400Y) by (apply Z.mod_pos_bound; done).
  unfold ord2ymd.
  replace ((n - 1) mod DI400Y + 1 - 1) with ((n - 1) mod DI400Y) by lia.
  rewrite (Z.div_small ((n - 1) mod DI400Y) DI400Y) by done.
  rewrite (Z.mod_small ((n - 1) mod DI400Y) DI400Y) by done.
  cbv zeta.
  repeat match goal with
  | |- context [if ?b then _ else _] => destruct b
  end; f_equal; try f_equal; lia.
Qed.

Lemma ymd_key_period n :
  ymd_key n = ymd_key ((n - 1) mod DI400Y + 1) + 4000000 * ((n - 1) / DI400Y).
Proof.
  unfold ymd_key. rewrite (ord2ymd_period n).
  destruct (ord2ymd ((n - 1) mod DI400Y + 1)) as [[y m] d]. lia.
Qed.

Lemma cycle_bounds r :
  0 <= r < DI400Y ->
  1 <= (ord2ymd (r + 1)).1.1 <= 400 /\
  1 <= (ord2ymd (r + 1)).1.2 <= 12 /\
  1 <= (ord2ymd (r + 1)).2 <= 31.
Proof.
  intros Hr%cycle_day. unfold cycle_day_ok in Hr.
  destruct (ord2ymd (r + 1)) as [[y m] d]. simpl.
  rewrite !andb_true_iff, !Z.leb_le in Hr. lia.
Qed.

Lemma cycle_step r : 0 <= r < DI400Y - 1 -> ymd_key (r + 1) < ymd_key (r + 2).
Proof.
  intros Hr. assert (Hok : cycle_day_ok r = true) by (apply cycle_day; lia).
  unfold cycle_day_ok in Hok. unfold ymd_key at 1.
  destruct (ord2ymd (r + 1)) as [[y m] d].
  rewrite !andb_true_iff, orb_true_iff, Z.eqb_eq, Z.ltb_lt in Hok. lia.
Qed.

Lemma ymd_key_cycle_range r :
  0 <= r < DI400Y -> 10101 <= ymd_key (r + 1) <= 4001231.
Proof.
  intros Hr%cycle_bounds. unfold ymd_key.
  destruct (ord2ymd (r + 1)) as [[y m] d]. simpl in Hr. lia.
Qed.

Lemma ymd_key_succ n : ymd_key n < ymd_key (n + 1).
Proof.
  rewrite (ymd_key_period n), (ymd_key_period (n + 1)).
  replace (n + 1 - 1) with n by lia.
  assert (Hr : 0 <= (n - 1) mod DI400Y < DI400Y) by (apply Z.mod_pos_bound; done).
  pose proof (Z.div_mod (n - 1) DI400Y ltac:(done)) as Hdm.
  set (q := (n - 1) / DI400Y) in *. set (r := (n - 1) mod DI400Y) in *.
  destruct (decide (r < DI400Y - 1)) as [Hlt|Hlast].
  - assert (n / DI400Y = q) as ->
      by (symmetry; apply (Z.div_unique n DI400Y q (r + 1)); lia).
    assert (n mod DI400Y = r + 1) as ->
      by (symmetry; apply (Z.mod_unique n DI400Y q (r + 1)); lia).
    pose proof (cycle_step r ltac:(lia)). replace (r + 1 + 1) with (r + 2) by lia. lia.
  - assert (n / DI400Y = q + 1) as ->
      by (symmetry; apply (Z.div_unique n DI400Y (q + 1) 0); unfold DI400Y in *; lia).
    assert (n mod DI400Y = 0) as ->
      by (symmetry; apply (Z.mod_unique n DI400Y (q + 1) 0); unfold DI400Y in *; lia).
    pose proof (ymd_key_cycle_range r Hr). pose proof (ymd_key_cycle_range 0 ltac:(done)).
    simpl in *. lia.
Qed.

Lemma ymd_key_lt n1 n2 : n1 < n2 -> ymd_key n1 < ymd_key n2.
Proof.
  intros Hlt. replace n2 with (n1 + 1 + Z.of_nat (Z.to_nat (n2 - n1 - 1))) by lia.
  induction (Z.to_nat (n2 - n1 - 1)) as [|k IH].
  - rewrite Z.add_0_r. apply ymd_key_succ.
  - etrans; [exact IH|]. replace (n1 + 1 + Z.of_nat (S k)) with (n1 + 1 + Z.of_nat k + 1) by lia.
    apply ymd_key_succ.
Qed.

Lemma ymd_key_le n1 n2 : n1 <= n2 -> ymd_key n1 <= ymd_key n2.
Proof.
  intros Hle. destruct (decide (n1 = n2)) as [->|]; [done|].
  apply Z.lt_le_incl, ymd_key_lt. lia.
Qed.

(** Years have four digits, months and days two. *)
Lemma ymd_bounds n :
  1 <= n <= MAXORDINAL ->
  1 <= (ord2ymd n).1.1 <= 9999 /\ 1 <= (ord2ymd n).1.2 <= 12 /\ 1 <= (ord2ymd n).2 <= 31.
Proof.
  intros Hn.
  assert (Hr : 0 <= (n - 1) mod DI400Y < DI400Y) by (apply Z.mod_pos_bound; done).
  assert (Hq : 0 <= (n - 1) / DI400Y) by (apply Z.div_pos; [lia|done]).
  pose proof (cycle_bounds _ Hr) as Hc.
  pose proof (ymd_key_le n MAXORDINAL ltac:(lia)) as Hmax.
  assert (ymd_key MAXORDINAL = 99991231) as Hlast by (vm_compute; reflexivity).
  rewrite Hlast in Hmax. unfold ymd_key in Hmax.
  rewrite (ord2ymd_period n) in Hmax |- *.
  destruct (ord2ymd ((n - 1) mod DI400Y + 1)) as [[y m] d]. simpl in *. lia.
Qed.

Lemma digit_compare a b :
  Ascii.compare (digit a) (digit b) = (a mod 10 ?= b mod 10).
Proof.
  unfold digit.
  pose proof (Z.mod_pos_bound a 10 ltac:(lia)) as Ha.
  pose proof (Z.mod_pos_bound b 10 ltac:(lia)) as Hb.
  revert Ha Hb. generalize (a mod 10) (b mod 10). intros x y Hx Hy.
  assert (Ex : x = 0 \/ x = 1 \/ x = 2 \/ x = 3 \/ x = 4 \/ x = 5 \/ x = 6 \/ x = 7
               \/ x = 8 \/ x = 9) by lia.
  assert (Ey : y = 0 \/ y = 1 \/ y = 2 \/ y = 3 \/ y = 4 \/ y = 5 \/ y = 6 \/ y = 7
               \/ y = 8 \/ y = 9) by lia.
  clear Hx Hy.
  repeat (destruct Ex as [-> | Ex]); try subst x;
    repeat (destruct Ey as [-> | Ey]); try subst y; reflexivity.
Qed.

Lemma pad2_compare a b s t :
  String.compare (pad2 a s) (pad2 b t) =
  match a mod 100 ?= b mod 100 with
  | Eq => String.compare s t
  | c => c
  end.
Proof.
  unfold pad2. cbn [String.compare]. rewrite !digit_compare.
  destruct (Z.compare_spec ((a / 10) mod 10) ((b / 10) mod 10)),
           (Z.compare_spec (a mod 10) (b mod 10)),
           (Z.compare_spec (a mod 100) (b mod 100));
    try reflexivity; exfalso; Z.div_mod_to_equations; lia.
Qed.

Lemma pad4_compare a b s t :
  String.compare (pad4 a s) (pad4 b t) =
  match a mod 10000 ?= b mod 10000 with
  | Eq => String.compare s t
  | c => c
  end.
Proof.
  unfold pad4. cbn [String.compare]. rewrite !digit_compare, pad2_compare.
  destruct (Z.compare_spec ((a / 1000) mod 10) ((b / 1000) mod 10)),
           (Z.compare_spec ((a / 100) mod 10) ((b / 100) mod 10)),
           (Z.compare_spec (a mod 100) (b mod 100)),
           (Z.compare_spec (a mod 10000) (b mod 10000));
    try reflexivity; exfalso; Z.div_mod_to_equations; lia.
Qed.

(** ISO dates compare as strings the way their days compare. *)
Lemma isoformat_compare n1 n2 :
  1 <= n1 <= MAXORDINAL -> 1 <= n2 <= MAXORDINAL ->
  String.compare (isoformat n1) (isoformat n2) = (ymd_key n1 ?= ymd_key n2).
Proof.
  intros H1%ymd_bounds H2%ymd_bounds. unfold isoformat, ymd_key.
  destruct (ord2ymd n1) as [[y1 m1] d1], (ord2ymd n2) as [[y2 m2] d2]. simpl in H1, H2.
  rewrite pad4_compare. cbn [String.compare].
  change (Ascii.compare "-"%char "-"%char) with Eq. cbv iota.
  rewrite pad2_compare. cbn [String.compare].
  change (Ascii.compare "-"%char "-"%char) with Eq. cbv iota.
  rewrite pad2_compare. cbn [String.compare].
  rewrite !(Z.mod_small _ 10000), !(Z.mod_small _ 100) by lia.
  destruct (Z.compare_spec y1 y2), (Z.compare_spec m1 m2), (Z.compare_spec d1 d2);
    symmetry; first [apply Z.compare_eq_iff | apply Z.compare_lt_iff | apply Z.compare_gt_iff];
    lia.
Qed.

Lemma isoformat_le n1 n2 :
  1 <= n1 -> n1 <= n2 -> n2 <= MAXORDINAL ->
  String.leb (isoformat n1) (isoformat n2) = true.
Proof.
  intros H1 Hle H2. unfold String.leb.
  rewrite isoformat_compare by lia.
  pose proof (ymd_key_le n1 n2 Hle).
  destruct (Z.compare_spec (ymd_key n1) (ymd_key n2)); [done..|lia].
Qed.

End calendar.

(** ** The date key *)

Section date_key.

Lemma digit_inj a b : digit a = digit b -> a mod 10 = b mod 10.
Proof.
  intros Heq. pose proof (digit_compare a b) as Hc. rewrite Heq in Hc.
  rewrite (digit_compare b b), Z.compare_refl in Hc. symmetry in Hc.
  by apply Z.compare_eq_iff in Hc.
Qed.

Lemma digit_not_dash n : digit n <> "-"%char.
Proof.
  unfold digit. pose proof (Z.mod_pos_bound n 10 ltac:(lia)) as Hn.
  revert Hn. generalize (n mod 10). intros x Hx.
  assert (Ex : x = 0 \/ x = 1 \/ x = 2 \/ x = 3 \/ x = 4 \/ x = 5 \/ x = 6 \/ x = 7
               \/ x = 8 \/ x = 9) by lia.
  clear Hx. repeat (destruct Ex as [-> | Ex]); try subst x; discriminate.
Qed.

Lemma pad2_inj a b s t : pad2 a s = pad2 b t -> a mod 100 = b mod 100 /\ s = t.
Proof.
  unfold pad2. intros [= H1%digit_inj H2%digit_inj ->]. split; [|done].
  Z.div_mod_to_equations. lia.
Qed.

Lemma pad4_inj a b s t : pad4 a s = pad4 b t -> a mod 10000 = b mod 10000 /\ s = t.
Proof.
  unfold pad4, pad2. intros [= H1%digit_inj H2%digit_inj H3%digit_inj H4%digit_inj ->].
  split; [|done].
  Z.div_mod_to_equations. lia.
Qed.

(** The text of the year, followed by a dash, tells the year. *)
Lemma decimal_year_inj y1 y2 r1 r2 :
  1 <= y1 <= 9999 -> 1 <= y2 <= 9999 ->
  decimal_year y1 (String "-" r1) = decimal_year y2 (String "-" r2) ->
  y1 = y2 /\ r1 = r2.
Proof.
  intros H1 H2. unfold decimal_year, pad4, pad2.
  destruct (Z.ltb_spec y1 10), (Z.ltb_spec y1 100), (Z.ltb_spec y1 1000),
           (Z.ltb_spec y2 10), (Z.ltb_spec y2 100), (Z.ltb_spec y2 1000);
    try lia; intros Heq; injection Heq as Heq; intros;
    repeat match goal with
      | H : digit _ = "-"%char |- _ => by destruct (digit_not_dash _ H)
      | H : "-"%char = digit _ |- _ => symmetry in H; by destruct (digit_not_dash _ H)
      | H : String _ _ = String _ _ |- _ => injection H as H; intros
      | H : digit _ = digit _ |- _ => apply digit_inj in H
      end; subst; (split; [|done]); Z.div_mod_to_equations; lia.
Qed.

Lemma ordinal_range t : in_range t = true -> 1 <= toordinal t <= MAXORDINAL.
Proof.
  unfold in_range, toordinal. intros [H0%Z.leb_le H1%Z.ltb_lt]%andb_true_iff.
  pose proof (Z.div_pos t us_per_day H0 ltac:(done)).
  pose proof (Z.div_lt_upper_bound t us_per_day MAXORDINAL ltac:(done) ltac:(lia)). lia.
Qed.

(** Different days have different date keys, in all the years 1 to 9999. *)
Lemma strftime_Ymd_inj t1 t2 :
  in_range t1 = true -> in_range t2 = true ->
  strftime_Ymd t1 = strftime_Ymd t2 -> toordinal t1 = toordinal t2.
Proof.
  intros Ho1%ordinal_range Ho2%ordinal_range. unfold strftime_Ymd.
  pose proof (ymd_bounds _ Ho1) as Hb1. pose proof (ymd_bounds _ Ho2) as Hb2.
  assert (Hk : ymd_key (toordinal t1) = ymd_key (toordinal t2) ->
               toordinal t1 = toordinal t2).
  { intros Hk. destruct (Z.lt_trichotomy (toordinal t1) (toordinal t2)) as [Hlt|[?|Hgt]];
      [|done|].
    - pose proof (ymd_key_lt _ _ Hlt). lia.
    - pose proof (ymd_key_lt _ _ Hgt). lia. }
  unfold ymd_key in Hk.
  destruct (ord2ymd (toordinal t1)) as [[y1 m1] d1], (ord2ymd (toordinal t2)) as [[y2 m2] d2].
  cbn [fst snd] in Hb1, Hb2.
  intros [-> Hrest]%decimal_year_inj; [|lia..].
  apply pad2_inj in Hrest as [Hm Hrest].
  assert (Hday : pad2 d1 "" = pad2 d2 "") by congruence.
  apply pad2_inj in Hday as [Hd _].
  rewrite !Z.mod_small in Hm, Hd by lia. subst. by apply Hk.
Qed.

Lemma year_from_1000 n :
  Y1000 <= n <= MAXORDINAL -> 1000 <= (ord2ymd n).1.1 <= 9999.
Proof.
  intros Hn. assert (Hr : 1 <= n <= MAXORDINAL) by (unfold Y1000 in Hn; lia).
  pose proof (ymd_bounds n Hr) as Hb.
  pose proof (ymd_key_le Y1000 n ltac:(lia)) as Hk.
  assert (Hfirst : ymd_key Y1000 = 10000101) by (vm_compute; reflexivity).
  rewrite Hfirst in Hk. unfold ymd_key in Hk.
  destruct (ord2ymd n) as [[y m] d]. cbn [fst snd] in *. lia.
Qed.

(** From the year 1000 on the date key is the ISO date. *)
Lemma strftime_Ymd_iso t :
  Y1000 <= toordinal t <= MAXORDINAL -> strftime_Ymd t = isoformat (toordinal t).
Proof.
  intros Hy%year_from_1000. unfold strftime_Ymd, isoformat.
  destruct (ord2ymd (toordinal t)) as [[y m] d]. cbn [fst snd] in Hy.
  unfold decimal_year.
  destruct (Z.ltb_spec y 10), (Z.ltb_spec y 100), (Z.ltb_spec y 1000); (done || lia).
Qed.

(** New Year's Day of 999: the key has nine characters. *)
Lemma strftime_Ymd_of_999 :
  ord2ymd (Y1000 - 365) = (999, 1, 1) /\
  strftime_Ymd ((Y1000 - 365 - 1) * us_per_day) = "999-01-01"%string.
Proof. split; compute_done. Qed.

Lemma strftime_Ymd_not_empty t : strftime_Ymd t <> ""%string.
Proof.
  unfold strftime_Ymd, decimal_year. destruct (ord2ymd _) as [[y m] d].
  by destruct (y <? 10), (y <? 100), (y <? 1000).
Qed.

End date_key.

(** ** The shape of a record *)

(** C7, as stated, fails: the record that the upsert persists has more
    fields than the listed ones.  The record of the morning's submission
    carries a [timestamp] and an [_id] besides them. *)
Lemma saved_record_has_more_fields :
  consumption Example.after_morning = [Example.morning_record] /\
  Example.morning_record !! "timestamp"%string = Some (VDate (to_bson Example.morning)) /\
  Example.morning_record !! "_id"%string = Some (VOid 0) /\
  ("timestamp"%string ∉ listed_keys) /\ ("_id"%string ∉ listed_keys).
Proof. split_and!; compute_done. Qed.

(** C7, amended.  In a collection whose documents have no fields beyond
    those of a record, the record the upsert leaves for the user's day has
    exactly the fields [_id], [username], [date], [day_of_week],
    [timestamp], [appliances], [total_energy_kwh] and [estimated_cost]: an
    ObjectId, the user's name, the date key [strftime("%Y-%m-%d")] of the
    call (the ten characters YYYY-MM-DD from the year 1000 on; the year is
    not padded before), the name of the day, the instant of the call as a
    BSON date, the mapping passed by the caller, and the energy and cost
    rounded to two decimals.  The mapping the input form passes has the six
    appliance kinds as its keys. *)
Theorem saved_record_shape username a e cst today w w' :
  well_keyed (consumption w) ->
  (length (records_for username (strftime_Ymd today) (consumption w)) <= 1)%nat ->
  Forall (fun d => dom d ⊆ record_keys) (consumption w) ->
  save_consumption_data username a e cst today w = (true, w') ->
  (exists r,
     records_for username (strftime_Ymd today) (consumption w') = [r] /\
     dom r = record_keys /\
     is_Some (oid_of r) /\
     r !! "username"%string = Some (VStr username) /\
     r !! "date"%string = Some (VStr (strftime_Ymd today)) /\
     (Y1000 <= toordinal today <= MAXORDINAL ->
      strftime_Ymd today = isoformat (toordinal today) /\
      String.length (strftime_Ymd today) = 10%nat) /\
     r !! "day_of_week"%string = Some (VStr (strftime_A today)) /\
     r !! "timestamp"%string = Some (VDate (to_bson today)) /\
     r !! "appliances"%string = Some (VDoc a) /\
     r !! "total_energy_kwh"%string = Some (VNum (PyNum.round2 e)) /\
     r !! "estimated_cost"%string = Some (VNum (PyNum.round2 cst))) /\
  (forall f, (form_appliances f).*1 = kinds).
Proof.
  intros Hwk Hone Hdom Hsave. split; [|done].
  destruct (save_keeps_ledger _ _ _ _ _ _ _ _ Hwk Hone Hsave) as ([Hk' _] & _ & Hr).
  destruct (Hr eq_refl) as (r & Hrec & Hw).
  exists r. split_and!; [done| | | |eapply written_fields; [done|in_data]
    | |eapply written_fields; [done|in_data]..].
  - assert (Hdata : dom (list_to_map (consumption_data username a e cst today) : document)
                    = list_to_set data_keys).
    { by rewrite dom_list_to_map_L, data_keys_fst. }
    destruct Hw as [(existing & Hin & ->) | (n & ->)].
    + unfold set_fields. rewrite dom_union_L, Hdata.
      rewrite Forall_forall in Hdom. specialize (Hdom _ Hin).
      assert (oid_of existing <> None) as Hid.
      { destruct Hwk as [Hk _]. rewrite Forall_forall in Hk.
        destruct (Hk _ Hin) as [? ->]. done. }
      assert ("_id"%string ∈ dom existing).
      { apply elem_of_dom. unfold oid_of in Hid. destruct (existing !! "_id"%string); done. }
      unfold record_keys, data_keys in *. set_solver.
    + rewrite dom_insert_L, Hdata. unfold record_keys, data_keys. set_solver.
  - assert (r ∈ consumption w') as Hin.
    { assert (r ∈ records_for username (strftime_Ymd today) (consumption w')) as H
        by (rewrite Hrec; by left).
      by apply list_elem_of_filter in H as [_ ?]. }
    rewrite Forall_forall in Hk'. by apply Hk'.
  - eapply written_fields; [done|in_data].
  - intros Hyear. rewrite strftime_Ymd_iso by done. split; [done|].
    unfold isoformat. by destruct (ord2ymd _) as [[y m] d].
Qed.

Lemma saved_record_shape_witness :
  Y1000 <= toordinal Example.morning <= MAXORDINAL /\
  strftime_Ymd Example.morning = "2024-04-24"%string /\
  (exists r,
     records_for "ann" (strftime_Ymd Example.morning) (consumption Example.after_morning) = [r] /\
     dom r = record_keys /\
     is_Some (oid_of r) /\
     r !! "username"%string = Some (VStr "ann") /\
     r !! "date"%string = Some (VStr (strftime_Ymd Example.morning)) /\
     (Y1000 <= toordinal Example.morning <= MAXORDINAL ->
      strftime_Ymd Example.morning = isoformat (toordinal Example.morning) /\
      String.length (strftime_Ymd Example.morning) = 10%nat) /\
     r !! "day_of_week"%string = Some (VStr (strftime_A Example.morning)) /\
     r !! "timestamp"%string = Some (VDate (to_bson Example.morning)) /\
     r !! "appliances"%string = Some (VDoc Example.home) /\
     r !! "total_energy_kwh"%string = Some (VNum (PyNum.round2 (Example.priced Example.home).1)) /\
     r !! "estimated_cost"%string = Some (VNum (PyNum.round2 (Example.priced Example.home).2))) /\
  (forall f, (form_appliances f).*1 = kinds).
Proof.
  split; [compute_done|]. split; [compute_done|].
  apply (saved_record_shape "ann" Example.home (Example.priced Example.home).1
           (Example.priced Example.home).2 Example.morning Example.fresh Example.after_morning);
    compute_done.
Defined.



(** ** The order of a window *)

Section order.

Implicit Types (c : collection) (d : document) (w : world).

Lemma StronglySorted_weaken {A} (R1 R2 : relation A) (l : list A) :
  (forall x y, x ∈ l -> y ∈ l -> R1 x y -> R2 x y) ->
  StronglySorted R1 l -> StronglySorted R2 l.
Proof.
  intros Hsub Hs. induction Hs as [|x l Hs IH Hx]; constructor.
  - apply IH. intros y z Hy Hz. apply Hsub; by right.
  - rewrite Forall_forall in Hx |- *. intros y Hy.
    apply Hsub; [by left | by right | by apply Hx].
Qed.

Lemma NoDup_fmap_eq {A B} (f : A -> B) (l : list A) x y :
  NoDup (f <$> l) -> x ∈ l -> y ∈ l -> f x = f y -> x = y.
Proof.
  intros Hnd [i Hi]%list_elem_of_lookup [j Hj]%list_elem_of_lookup Hf.
  assert ((f <$> l) !! i = Some (f x)) as H1 by (by rewrite list_lookup_fmap, Hi).
  assert ((f <$> l) !! j = Some (f x)) as H2 by (by rewrite list_lookup_fmap, Hj, Hf).
  pose proof (NoDup_lookup _ _ _ _ Hnd H1 H2) as ->. congruence.
Qed.

Lemma bson_ordinal_mono ms1 ms2 : ms1 <= ms2 -> bson_ordinal ms1 <= bson_ordinal ms2.
Proof.
  intros Hle. unfold bson_ordinal.
  pose proof (Z.div_le_mono ms1 ms2 ms_per_day ltac:(done) Hle). lia.
Qed.

(** The day of the stored timestamp is the day of the clock. *)
Lemma bson_ordinal_to_bson t : bson_ordinal (to_bson t) = toordinal t.
Proof.
  unfold bson_ordinal, to_bson, toordinal.
  rewrite Z.div_div by done. reflexivity.
Qed.

Lemma dated_date d ms :
  dated d -> d !! "timestamp"%string = Some (VDate ms) ->
  date_field d = isoformat (bson_ordinal ms) /\ Y1000 <= bson_ordinal ms <= MAXORDINAL.
Proof.
  unfold dated, date_field. intros Hd Hts. rewrite Hts in Hd.
  destruct Hd as [-> ?]. done.
Qed.

Lemma window_by_date username start c :
  Forall dated c -> StronglySorted by_date (window username start c).
Proof.
  intros Hdated. eapply StronglySorted_weaken; [|apply window_sorted].
  intros x y (Hx & _ & msx & Hxts & _)%window_elem_of (Hy & _ & msy & Hyts & _)%window_elem_of.
  unfold date_le, date_of, by_date. rewrite Hxts, Hyts. intros Hle.
  rewrite Forall_forall in Hdated.
  destruct (dated_date x msx (Hdated _ Hx) Hxts) as [-> Hrx].
  destruct (dated_date y msy (Hdated _ Hy) Hyts) as [-> Hry].
  unfold Y1000 in *. apply isoformat_le; [lia| by apply bson_ordinal_mono | lia].
Qed.

Lemma window_of_permutation username start c1 c2 :
  c1 ≡ₚ c2 -> Forall dated c2 -> one_date_each username c2 ->
  window username start c1 = window username start c2.
Proof.
  intros Hperm Hdated Hone.
  apply (StronglySorted_unique_strong (date_le "timestamp")); [|apply window_sorted..|].
  - intros x y (Hx & Hxu & msx & Hxts & _)%window_elem_of
               (Hy & Hyu & msy & Hyts & _)%window_elem_of.
    rewrite Hperm in Hx.
    unfold date_le, date_of. rewrite Hxts, Hyts. intros H1 H2.
    assert (msx = msy) as -> by lia.
    rewrite Forall_forall in Hdated.
    destruct (dated_date x msy (Hdated _ Hx) Hxts) as [Hdx _].
    destruct (dated_date y msy (Hdated _ Hy) Hyts) as [Hdy _].
    eapply (NoDup_fmap_eq date_field (records_of username c2)); [done| | |congruence];
      by apply list_elem_of_filter.
  - unfold window. rewrite !merge_sort_Permutation. by rewrite Hperm.
Qed.

(** The upsert writes dated records. *)
Lemma save_keeps_dated username a e cst today w b w' :
  well_keyed (consumption w) ->
  Forall dated (consumption w) ->
  Y1000 <= toordinal today <= MAXORDINAL ->
  save_consumption_data username a e cst today w = (b, w') ->
  Forall dated (consumption w').
Proof.
  intros Hwk Hdated Htoday Hsave. destruct b; cycle 1.
  { apply save_false in Hsave. by rewrite Hsave. }
  apply save_true in Hsave as (s & s' & Hdb & Hdb' & _ & Hup).
  unfold consumption in *. rewrite Hdb in Hwk, Hdated. rewrite Hdb'.
  set (data := consumption_data username a e cst today) in *.
  assert (Hnew : forall r, r !! "timestamp"%string = Some (VDate (to_bson today)) ->
                 r !! "date"%string = Some (VStr (strftime_Ymd today)) -> dated r).
  { intros r Hts Hdate. unfold dated. rewrite Hts, Hdate, bson_ordinal_to_bson.
    by rewrite strftime_Ymd_iso. }
  apply upsert_inv in Hup as [[[? ?] _] | [(_ & _ & Hup) | (_ & _ & Hup)]]; [discriminate|..].
  - destruct Hup as (i & existing & idv & Hff & Hid & ->).
    apply list_find_Some in Hff as (Hi & _ & _).
    rewrite (update_first_by_id _ i existing) by done.
    apply Forall_insert; [done|]. apply Hnew.
    + rewrite set_fields_lookup. unfold data. erewrite data_lookup; [done|in_data].
    + rewrite set_fields_lookup. unfold data. by rewrite data_date.
  - destruct Hup as (_ & _ & ->). apply Forall_app. split; [done|].
    apply Forall_singleton, Hnew.
    + rewrite lookup_insert_ne by done. unfold data. apply data_lookup. in_data.
    + rewrite lookup_insert_ne by done. unfold data. by rewrite data_date.
Qed.

End order.

(** C5. For every username and number of days, the list that
    [get_user_consumption_data] returns is in non-decreasing order of the
    records' dates, and the order does not depend on the order in which the
    records lie in the collection: over any rearrangement of the documents
    the call returns the same list.  The records are those the upsert
    writes, whose date is the day of their timestamp, and for the second
    part the records of the user have pairwise different dates. *)
Theorem get_sorted_by_date username days now w l w' :
  Forall dated (consumption w) ->
  get_user_consumption_data username days now w = (Returns l, w') ->
  StronglySorted by_date l /\
  (forall c,
     c ≡ₚ consumption w ->
     one_date_each username (consumption w) ->
     (get_user_consumption_data username days now (with_docs c w)).1 = Returns l).
Proof.
  intros Hdated Hget.
  apply get_inv in Hget as [(Hdb & [= ->] & ->) | [(e & _ & ? & _) | (s & start & Hdb & Hstart & _ & Hget)]].
  - split; [constructor|]. intros c _ _.
    unfold get_user_consumption_data, with_docs. simpl. by rewrite Hdb.
  - discriminate.
  - unfold consumption in *. rewrite Hdb in Hdated |- *.
    destruct Hget as [(Hf & [= ->] & _) | (Hf & [= ->] & _)].
    + split; [constructor|]. intros c _ _.
      unfold get_user_consumption_data, with_docs. simpl. rewrite Hdb, Hstart. simpl.
      unfold find_sorted, round_trip. simpl.
      destruct (faults s) as [|[] rest]; simpl in *; congruence.
    + split; [by apply window_by_date|]. intros c Hperm Hone.
      unfold get_user_consumption_data, with_docs. simpl. rewrite Hdb, Hstart. simpl.
      unfold find_sorted, round_trip. simpl.
      destruct (faults s) as [|[] rest]; simpl in *; try congruence;
        f_equal; by apply window_of_permutation.
Qed.

Lemma get_sorted_by_date_witness :
  StronglySorted by_date Example.fortnight /\
  (forall c,
     c ≡ₚ consumption Example.after_two_days ->
     one_date_each "ann" (consumption Example.after_two_days) ->
     (get_user_consumption_data "ann" 14 Example.next_noon
        (with_docs c Example.after_two_days)).1 = Returns Example.fortnight).
Proof.
  apply (get_sorted_by_date "ann" 14 Example.next_noon Example.after_two_days
           Example.fortnight Example.after_two_days); compute_done.
Defined.

(** The first day of the year 1000 and the two dates of the fortnight. *)
Example first_padded_day :
  isoformat Y1000 = "1000-01-01"%string /\
  date_field <$> Example.fortnight = ["2024-04-24"; "2024-04-25"]%string.
Proof. split; compute_done. Qed.
Section half_even.

Lemma dhe_cases n d :
  0 < d ->
  (div_half_even n d = n / d \/ div_half_even n d = n / d + 1) /\
  (2 * (n mod d) < d -> div_half_even n d = n / d) /\
  (d < 2 * (n mod d) -> div_half_even n d = n / d + 1).
Proof.
  intros Hd. unfold div_half_even.
  destruct (Z.compare_spec (2 * (n mod d)) d); destruct (Z.even (n / d)); split_and!; auto; lia.
Qed.

Lemma dhe_exact k d : 0 < d -> div_half_even (k * d) d = k.
Proof.
  intros Hd. unfold div_half_even.
  rewrite Z.mod_mul, Z.div_mul by lia. rewrite Z.mul_0_r.
  destruct (Z.compare_spec 0 d); [exfalso; lia|reflexivity|exfalso; lia].
Qed.

Lemma dhe_mono n1 n2 d : 0 < d -> n1 <= n2 -> div_half_even n1 d <= div_half_even n2 d.
Proof.
  intros Hd Hle.
  pose proof (Z.div_le_mono n1 n2 d Hd Hle) as Hq.
  destruct (dhe_cases n1 d Hd) as (H1 & H1a & H1b).
  destruct (dhe_cases n2 d Hd) as (H2 & H2a & H2b).
  destruct (decide (n1 / d = n2 / d)) as [Heq|Hne]; [|lia].
  assert (n1 mod d <= n2 mod d).
  { rewrite (Z.mod_eq n1 d), (Z.mod_eq n2 d), Heq by lia. lia. }
  unfold div_half_even. rewrite Heq.
  destruct (Z.compare_spec (2 * (n1 mod d)) d), (Z.compare_spec (2 * (n2 mod d)) d);
    destruct (Z.even (n2 / d)); lia.
Qed.

Lemma dhe_scale n d c : 0 < d -> 0 < c -> div_half_even (n * c) (d * c) = div_half_even n d.
Proof.
  intros Hd Hc. unfold div_half_even.
  rewrite Z.div_mul_cancel_r by lia.
  rewrite Z.mul_mod_distr_r by lia.
  replace (2 * (n mod d * c)) with (2 * (n mod d) * c) by lia.
  destruct (Z.compare_spec (2 * (n mod d) * c) (d * c)),
           (Z.compare_spec (2 * (n mod d)) d); try reflexivity; exfalso; nia.
Qed.

Lemma dhe_le n d k : 0 < d -> n <= k * d -> div_half_even n d <= k.
Proof.
  intros Hd Hle. rewrite <- (dhe_exact k d Hd). by apply dhe_mono.
Qed.

Lemma dhe_ge n d k : 0 < d -> k * d <= n -> k <= div_half_even n d.
Proof.
  intros Hd Hle. rewrite <- (dhe_exact k d Hd). by apply dhe_mono.
Qed.

Lemma dhe_one n : div_half_even n 1 = n.
Proof. rewrite <- (dhe_exact n 1) at 2 by lia. by rewrite Z.mul_1_r. Qed.

End half_even.

Section digits.

Lemma digits2_size p : digits2_pos p = Pos.size p.
Proof. induction p as [p IH|p IH|]; simpl; by rewrite ?IH. Qed.

Lemma Zdigits2_log2 p : Zpos (digits2_pos p) = Z.log2 (Zpos p) + 1.
Proof.
  rewrite digits2_size. destruct p as [p|p|]; simpl; [| |done];
    rewrite Pos2Z.inj_succ; lia.
Qed.

Lemma log2_bounds K : 0 < K -> 2 ^ Z.log2 K <= K < 2 ^ (Z.log2 K + 1).
Proof. intros HK. pose proof (Z.log2_spec K HK). by rewrite <- Z.add_1_r in *. Qed.

Lemma log2_shift K k : 0 < K -> 0 <= k -> Z.log2 (K * 2 ^ k) = Z.log2 K + k.
Proof.
  intros HK Hk. rewrite Z.log2_mul_pow2 by lia. lia.
Qed.

End digits.

Section shifting.

Lemma shr_1_div2 m r s :
  0 <= m ->
  shr_1 (Build_shr_record m r s) = Build_shr_record (m / 2) (Z.odd m) (r || s).
Proof.
  intros Hm. rewrite <- Z.div2_div. destruct m as [|[p|p|]|]; done.
Qed.

Lemma shifted_step m0 k mrs :
  0 <= m0 -> 0 <= k -> shifted m0 k mrs -> shifted m0 (k + 1) (shr_1 mrs).
Proof.
  intros Hm0 Hk. destruct mrs as [m r s]. unfold shifted at 1.
  cbn [shr_m shr_r shr_s]. intros (-> & Hr & Hs).
  assert (Hp : 0 < 2 ^ k) by (apply Z.pow_pos_nonneg; lia).
  rewrite shr_1_div2 by (apply Z.div_pos; lia).
  unfold shifted. cbn [shr_m shr_r shr_s].
  rewrite Z.pow_add_r, Z.pow_1_r by lia.
  rewrite Z.div_div by lia.
  rewrite (Z.rem_mul_r m0 (2 ^ k) 2) by lia.
  pose proof (Z.mod_pos_bound m0 (2 ^ k) Hp) as Hrem.
  set (rem := m0 mod 2 ^ k) in *. set (Q := m0 / 2 ^ k) in *.
  pose proof (Z.bit0_mod Q) as Hbit. rewrite Z.bit0_odd in Hbit.
  rewrite orb_true_iff, Hr, Hs.
  destruct (Z.odd Q); simpl in Hbit; rewrite <- Hbit.
  - split_and!; [done| |]; split; try lia; done.
  - split_and!; [done| |]; split; try lia; discriminate.
Qed.

Lemma shifted_iter m0 (k : nat) :
  0 <= m0 -> shifted m0 (Z.of_nat k) (Nat.iter k shr_1 (Build_shr_record m0 false false)).
Proof.
  intros Hm0. induction k as [|k IH].
  - unfold shifted. simpl. rewrite Z.div_1_r, Z.mod_1_r.
    split_and!; [done|split|split]; try lia; try discriminate.
  - rewrite Nat2Z.inj_succ, <- Z.add_1_r. simpl. apply shifted_step; [done|lia|done].
Qed.

Lemma iter_pos_nat {A} (f : A -> A) p : forall x,
  SpecFloat.iter_pos f p x = Nat.iter (Pos.to_nat p) f x.
Proof.
  induction p as [p IH|p IH|]; intros x; cbn [SpecFloat.iter_pos].
  - rewrite !IH, Pos2Nat.inj_xI.
    replace (S (2 * Pos.to_nat p)) with (Pos.to_nat p + (Pos.to_nat p + 1))%nat by lia.
    by rewrite !Nat.iter_add.
  - rewrite !IH, Pos2Nat.inj_xO.
    replace (2 * Pos.to_nat p)%nat with (Pos.to_nat p + Pos.to_nat p)%nat by lia.
    by rewrite Nat.iter_add.
  - reflexivity.
Qed.

Lemma shifted_pos m0 p :
  0 <= m0 -> shifted m0 (Zpos p) (SpecFloat.iter_pos shr_1 p (Build_shr_record m0 false false)).
Proof.
  intros Hm0. rewrite iter_pos_nat, <- (positive_nat_Z p). by apply shifted_iter.
Qed.

Lemma shifted_round m0 k mrs :
  0 <= k -> shifted m0 k mrs ->
  round_nearest_even (shr_m mrs) (loc_of_shr_record mrs) = div_half_even m0 (2 ^ k).
Proof.
  intros Hk (Hm & Hr & Hs). unfold div_half_even. rewrite <- Hm.
  assert (Hp : 0 < 2 ^ k) by (apply Z.pow_pos_nonneg; lia).
  pose proof (Z.mod_pos_bound m0 (2 ^ k) Hp) as Hrem.
  destruct mrs as [m r s]. simpl in *.
  destruct (Z.compare_spec (2 * (m0 mod 2 ^ k)) (2 ^ k)) as [Heq|Hlt|Hgt].
  - assert (r = true) as -> by (apply Hr; lia).
    assert (s = false) as -> by (destruct s; [|done]; destruct Hs as [Hs _]; destruct (Hs eq_refl); lia).
    reflexivity.
  - assert (r = false) as -> by (destruct r; [|done]; destruct Hr as [Hr _]; specialize (Hr eq_refl); lia).
    by destruct s.
  - assert (r = true) as -> by (apply Hr; lia).
    assert (s = true) as -> by (apply Hs; lia).
    reflexivity.
Qed.

End shifting.

Section rounding.

Lemma fexp_fx x : fexp prec emax x = fx x.
Proof. reflexivity. Qed.

Lemma fx_ge x : -1074 <= fx x.
Proof. unfold fx. lia. Qed.

Lemma shr_fexp_shift M e :
  0 <= M -> e <= fx (Zdigits2 M + e) ->
  exists mrs,
    shr_fexp prec emax M e loc_Exact = (mrs, fx (Zdigits2 M + e)) /\
    shifted M (fx (Zdigits2 M + e) - e) mrs.
Proof.
  intros HM Hle. unfold shr_fexp, shr. rewrite fexp_fx. cbn [shr_record_of_loc].
  destruct (fx (Zdigits2 M + e) - e) as [|p|p] eqn:Hn; [| |lia].
  - exists (Build_shr_record M false false). split; [f_equal; lia|].
    apply (shifted_iter M 0 HM).
  - exists (SpecFloat.iter_pos shr_1 p (Build_shr_record M false false)).
    split; [f_equal; lia|]. by apply shifted_pos.
Qed.

Lemma shr_fexp_id M e :
  fx (Zdigits2 M + e) <= e ->
  shr_fexp prec emax M e loc_Exact = (Build_shr_record M false false, e).
Proof.
  intros Hle. unfold shr_fexp, shr. rewrite fexp_fx. cbn [shr_record_of_loc].
  destruct (fx (Zdigits2 M + e) - e) as [|p|p] eqn:Hn; [done|lia|done].
Qed.

Lemma digits_le_53 qm : Zpos qm < 2 ^ 53 -> Zpos (digits2_pos qm) <= 53.
Proof.
  intros Hq. rewrite Zdigits2_log2.
  assert (Z.log2 (Zpos qm) < 53) by (apply Z.log2_lt_pow2; lia). lia.
Qed.

Lemma mantissa_bound M n :
  0 <= n -> Zpos (digits2_pos M) - 53 <= n ->
  0 <= div_half_even (Zpos M) (2 ^ n) <= 2 ^ 53.
Proof.
  intros Hn Hd.
  assert (Hp : 0 < 2 ^ n) by (apply Z.pow_pos_nonneg; lia).
  split.
  - apply dhe_ge; [done|lia].
  - apply dhe_le; [done|].
    pose proof (log2_bounds (Zpos M) ltac:(lia)) as [_ Hub].
    rewrite <- Zdigits2_log2 in Hub.
    rewrite <- Z.pow_add_r by lia.
    assert (2 ^ Zpos (digits2_pos M) <= 2 ^ (53 + n)) by (apply Z.pow_le_mono_r; lia).
    lia.
Qed.

Lemma bra_spec M e :
  e <= fx (Zpos (digits2_pos M) + e) ->
  binary_round_aux prec emax false (Zpos M) e loc_Exact =
  packed (div_half_even (Zpos M) (2 ^ (fx (Zpos (digits2_pos M) + e) - e)))
         (fx (Zpos (digits2_pos M) + e)).
Proof.
  intros Hle. unfold binary_round_aux.
  destruct (shr_fexp_shift (Zpos M) e) as (mrs & Hshr & Hsh); [lia|done|].
  cbn [Zdigits2] in Hshr, Hsh. rewrite Hshr.
  set (f := fx (Zpos (digits2_pos M) + e)) in *.
  rewrite (shifted_round _ (f - e) mrs) by (done || lia).
  assert (Hf : -1074 <= f) by apply fx_ge.
  pose proof (mantissa_bound M (f - e) ltac:(lia) ltac:(unfold f, fx; lia)) as Hq.
  destruct (div_half_even (Zpos M) (2 ^ (f - e))) as [|qm|qm] eqn:Eq; [| |lia].
  - rewrite shr_fexp_id by (unfold fx; simpl; lia). reflexivity.
  - unfold packed. destruct (Z.ltb_spec (Zpos qm) (2 ^ 53)) as [Hlt|Hge].
    + pose proof (digits_le_53 qm Hlt).
      rewrite shr_fexp_id by (unfold fx; cbn [Zdigits2]; lia). reflexivity.
    + assert (qm = 9007199254740992%positive) as -> by lia.
      change (shr_fexp prec emax 9007199254740992 f loc_Exact)
        with (shr (Build_shr_record 9007199254740992 false false) f (fx (54 + f) - f)).
      replace (fx (54 + f) - f) with 1 by (unfold fx; lia).
      reflexivity.
Qed.

Lemma rnd_kept K : rnd K = Z.min TOP (kept K * 2 ^ dropped K).
Proof. reflexivity. Qed.

Lemma pow2_pos n : 0 <= n -> 0 < 2 ^ n.
Proof. intros. apply Z.pow_pos_nonneg; lia. Qed.

Lemma kept_bounds K :
  0 < K ->
  0 <= kept K <= 2 ^ 53 /\ (dropped K = 0 \/ 2 ^ 52 <= kept K).
Proof.
  intros HK. pose proof (log2_bounds K HK) as [Hlo Hhi].
  pose proof (Z.log2_nonneg K) as Hl.
  assert (Hb : 0 <= dropped K) by (unfold dropped; lia).
  pose proof (pow2_pos _ Hb) as Hp.
  unfold kept. split_and!.
  - apply dhe_ge; [done|lia].
  - apply dhe_le; [done|]. rewrite <- Z.pow_add_r by lia.
    assert (2 ^ (Z.log2 K + 1) <= 2 ^ (53 + dropped K))
      by (apply Z.pow_le_mono_r; unfold dropped; lia).
    lia.
  - destruct (decide (dropped K = 0)) as [|Hne]; [by left|right].
    apply dhe_ge; [done|]. rewrite <- Z.pow_add_r by lia.
    replace (52 + dropped K) with (Z.log2 K) by (unfold dropped in *; lia). done.
Qed.

Lemma iter_xO M d : Zpos (Pos.iter xO M d) = Zpos M * 2 ^ Zpos d.
Proof.
  induction d as [|d IH] using Pos.peano_ind.
  - simpl. lia.
  - rewrite Pos.iter_succ, Pos2Z.inj_xO, IH, Pos2Z.inj_succ, Z.pow_succ_r by lia. lia.
Qed.

Lemma packed_good q f :
  0 <= q <= 2 ^ 53 -> -1074 <= f -> (f = -1074 \/ 2 ^ 52 <= q) -> good (packed q f).
Proof.
  intros Hq Hf Hn. unfold packed. destruct q as [|qm|qm]; [done| |done].
  destruct (Z.ltb_spec (Zpos qm) (2 ^ 53)) as [Hlt|Hge].
  - destruct (Z.leb_spec f 971) as [Hle|Hgt]; [|done]. simpl.
    unfold bounded, canonical_mantissa. rewrite fexp_fx.
    apply andb_true_iff. split; [apply Z.eqb_eq | apply Z.leb_le; done].
    pose proof (digits_le_53 qm Hlt).
    destruct Hn as [->|Hn]; [unfold fx; lia|].
    assert (Z.log2 (Zpos qm) = 52) by (apply Z.log2_unique; lia).
    rewrite Zdigits2_log2. unfold fx. lia.
  - destruct (Z.leb_spec (f + 1) 971) as [Hle|Hgt]; [|done]. simpl.
    unfold bounded, canonical_mantissa. rewrite fexp_fx.
    apply andb_true_iff. split; [apply Z.eqb_eq | apply Z.leb_le; done].
    change (Zpos (digits2_pos 4503599627370496)) with 53. unfold fx. lia.
Qed.

Lemma packed_pos q f :
  0 <= q <= 2 ^ 53 -> -1074 <= f -> (f = -1074 \/ 2 ^ 52 <= q) ->
  pos (packed q f) = Z.min TOP (q * 2 ^ (f + 1074)).
Proof.
  intros Hq Hf Hn. unfold packed.
  assert (Hp : 0 < 2 ^ (f + 1074)) by (apply pow2_pos; lia).
  assert (Htop : 0 < TOP) by done.
  destruct q as [|qm|qm]; [simpl; lia| |lia].
  destruct (Z.ltb_spec (Zpos qm) (2 ^ 53)) as [Hlt|Hge].
  - destruct (Z.leb_spec f 971) as [Hle|Hgt]; cbn [pos].
    + symmetry. apply Z.min_r.
      assert (2 ^ (f + 1074) <= 2 ^ 2045) by (apply Z.pow_le_mono_r; lia).
      change TOP with (2 ^ 53 * 2 ^ 2045).
      apply Z.mul_le_mono_nonneg; lia.
    + symmetry. apply Z.min_l.
      destruct Hn as [->|Hn]; [lia|].
      assert (2 ^ 2046 <= 2 ^ (f + 1074)) by (apply Z.pow_le_mono_r; lia).
      change TOP with (2 ^ 52 * 2 ^ 2046).
      apply Z.mul_le_mono_nonneg; lia.
  - assert (Zpos qm = 2 ^ 53) as Hqm by lia. rewrite Hqm.
    destruct (Z.leb_spec (f + 1) 971) as [Hle|Hgt]; cbn [pos].
    + replace (f + 1 + 1074) with (1 + (f + 1074)) by lia.
      rewrite Z.pow_add_r by lia.
      change (Zpos 4503599627370496 * (2 ^ 1 * 2 ^ (f + 1074)))
        with (2 ^ 52 * (2 * 2 ^ (f + 1074))).
      replace (2 ^ 52 * (2 * 2 ^ (f + 1074))) with (2 ^ 53 * 2 ^ (f + 1074))
        by (change (2 ^ 53) with (2 ^ 52 * 2); lia).
      symmetry. apply Z.min_r.
      assert (2 ^ (f + 1074) <= 2 ^ 2045) by (apply Z.pow_le_mono_r; lia).
      change TOP with (2 ^ 53 * 2 ^ 2045).
      apply Z.mul_le_mono_nonneg; lia.
    + symmetry. apply Z.min_l.
      assert (2 ^ 2045 <= 2 ^ (f + 1074)) by (apply Z.pow_le_mono_r; lia).
      change TOP with (2 ^ 53 * 2 ^ 2045).
      apply Z.mul_le_mono_nonneg; lia.
Qed.

Lemma dropped_scaled M e :
  -1074 <= e ->
  dropped (Zpos M * 2 ^ (e + 1074)) = fx (Zpos (digits2_pos M) + e) + 1074.
Proof.
  intros He. unfold dropped. rewrite log2_shift by lia.
  rewrite Zdigits2_log2. unfold fx. lia.
Qed.

(** Rounding the mantissa [M] at exponent [e] is rounding the integer
    [M * 2^(e+1074)] of the grid. *)
Lemma binary_round_spec M e :
  -1074 <= e ->
  binary_round prec emax false M e =
  packed (kept (Zpos M * 2 ^ (e + 1074))) (dropped (Zpos M * 2 ^ (e + 1074)) - 1074).
Proof.
  intros He. rewrite dropped_scaled by done. unfold kept. rewrite dropped_scaled by done.
  unfold binary_round, shl_align. rewrite fexp_fx.
  set (f := fx (Zpos (digits2_pos M) + e)).
  assert (Hf : -1074 <= f) by apply fx_ge.
  replace (f + 1074 - 1074) with f by lia.
  destruct (f - e) as [|p|p] eqn:Hn.
  - rewrite bra_spec by (fold f; lia). fold f. f_equal.
    replace (f - e) with 0 by lia. replace (f + 1074) with (e + 1074) by lia.
    rewrite dhe_one, dhe_exact; [done|apply pow2_pos; lia].
  - rewrite bra_spec by (fold f; lia). fold f. f_equal.
    replace (f + 1074) with ((f - e) + (e + 1074)) by lia.
    rewrite (Z.pow_add_r 2 (f - e) (e + 1074)) by lia.
    rewrite dhe_scale; [done|apply pow2_pos; lia..].
  - assert (Hd : Zpos (digits2_pos (Pos.iter xO M p)) = Zpos (digits2_pos M) + Zpos p).
    { rewrite !Zdigits2_log2, iter_xO, log2_shift by lia. lia. }
    assert (Hfix : fx (Zpos (digits2_pos (Pos.iter xO M p)) + f) = f).
    { rewrite Hd. replace (Zpos (digits2_pos M) + Zpos p + f) with (Zpos (digits2_pos M) + e) by lia.
      done. }
    rewrite bra_spec by (rewrite Hfix; lia). rewrite Hfix. f_equal.
    replace (f - f) with 0 by lia. rewrite dhe_one, iter_xO.
    replace (e + 1074) with (Zpos p + (f + 1074)) by lia.
    rewrite (Z.pow_add_r 2 (Zpos p) (f + 1074)), Z.mul_assoc by lia.
    rewrite dhe_exact; [done|apply pow2_pos; lia].
Qed.

Lemma binary_round_good M e :
  -1074 <= e ->
  good (binary_round prec emax false M e) /\
  pos (binary_round prec emax false M e) = rnd (Zpos M * 2 ^ (e + 1074)).
Proof.
  intros He. rewrite binary_round_spec by done.
  set (K := Zpos M * 2 ^ (e + 1074)).
  assert (HK : 0 < K) by (pose proof (pow2_pos (e + 1074)); unfold K; lia).
  destruct (kept_bounds K HK) as [Hq Hn].
  assert (0 <= dropped K) by (unfold dropped; lia).
  split.
  - apply packed_good; [done|lia|]. destruct Hn; [left; lia|by right].
  - rewrite packed_pos; [|done|lia|destruct Hn; [left; lia|by right]].
    replace (dropped K - 1074 + 1074) with (dropped K) by lia. by rewrite rnd_kept.
Qed.

End rounding.

Section grid.

Lemma dropped_nonneg K : 0 <= dropped K.
Proof. unfold dropped. lia. Qed.

Lemma dropped_mono K1 K2 : K1 <= K2 -> dropped K1 <= dropped K2.
Proof.
  intros Hle. unfold dropped. pose proof (Z.log2_le_mono K1 K2 Hle). lia.
Qed.

Lemma rnd_zero : rnd 0 = 0.
Proof. reflexivity. Qed.

Lemma rnd_le_top K : rnd K <= TOP.
Proof. unfold rnd. lia. Qed.

(** What is kept of [K], put back in place, lies between the powers of two
    around [K]. *)
Lemma kept_between K :
  0 < K ->
  2 ^ Z.log2 K <= kept K * 2 ^ dropped K <= 2 ^ (Z.log2 K + 1).
Proof.
  intros HK. pose proof (log2_bounds K HK) as [Hlo Hhi].
  pose proof (Z.log2_nonneg K) as Hl. pose proof (dropped_nonneg K) as Hb.
  pose proof (pow2_pos _ Hb) as Hp.
  assert (Hbl : dropped K <= Z.log2 K) by (unfold dropped; lia).
  split.
  - replace (Z.log2 K) with ((Z.log2 K - dropped K) + dropped K) at 1 by lia.
    rewrite Z.pow_add_r by lia.
    apply Z.mul_le_mono_nonneg_r; [lia|].
    apply dhe_ge; [done|]. rewrite <- Z.pow_add_r by lia.
    replace (Z.log2 K - dropped K + dropped K) with (Z.log2 K) by lia. done.
  - replace (Z.log2 K + 1) with ((Z.log2 K + 1 - dropped K) + dropped K) at 1 by lia.
    rewrite Z.pow_add_r by lia.
    apply Z.mul_le_mono_nonneg_r; [lia|].
    apply dhe_le; [done|]. rewrite <- Z.pow_add_r by lia.
    replace (Z.log2 K + 1 - dropped K + dropped K) with (Z.log2 K + 1) by lia. lia.
Qed.

(** Rounding to the nearest double keeps the order. *)
Lemma rnd_mono K1 K2 : 0 <= K1 -> K1 <= K2 -> rnd K1 <= rnd K2.
Proof.
  intros H0 Hle.
  destruct (decide (K1 = 0)) as [->|Hne].
  { rewrite rnd_zero. unfold rnd.
    assert (0 <= div_half_even K2 (2 ^ dropped K2)).
    { apply dhe_ge; [apply pow2_pos, dropped_nonneg|lia]. }
    pose proof (pow2_pos _ (dropped_nonneg K2)). fold (dropped K2).
    assert (0 < TOP) by done. nia. }
  assert (HK1 : 0 < K1) by lia. assert (HK2 : 0 < K2) by lia.
  rewrite !rnd_kept. apply Z.min_le_compat_l.
  pose proof (dropped_mono K1 K2 Hle) as Hb.
  destruct (decide (dropped K1 = dropped K2)) as [Heq|Hlt].
  - unfold kept. rewrite Heq.
    apply Z.mul_le_mono_nonneg_r; [pose proof (pow2_pos _ (dropped_nonneg K2)); lia|].
    apply dhe_mono; [apply pow2_pos, dropped_nonneg|done].
  - pose proof (kept_between K1 HK1) as [_ Hup].
    pose proof (kept_between K2 HK2) as [Hlow _].
    assert (Z.log2 K1 + 1 <= Z.log2 K2).
    { pose proof (Z.log2_le_mono K1 K2 Hle). unfold dropped in *. lia. }
    assert (2 ^ (Z.log2 K1 + 1) <= 2 ^ Z.log2 K2) by (apply Z.pow_le_mono_r; lia).
    lia.
Qed.

Lemma rnd_small K : 0 <= K < 2 ^ 53 -> rnd K = K.
Proof.
  intros [H0 Hlt]. destruct (decide (K = 0)) as [->|]; [done|].
  assert (Z.log2 K < 53) by (apply Z.log2_lt_pow2; lia).
  unfold rnd. replace (Z.max (Z.log2 K + 1 - 53) 0) with 0 by lia.
  rewrite Z.pow_0_r, dhe_one, Z.mul_1_r.
  apply Z.min_r. assert (2 ^ 53 <= TOP) by done. lia.
Qed.

Lemma rnd_pos K : 0 < K -> 0 < rnd K.
Proof.
  intros HK. pose proof (rnd_mono 1 K ltac:(lia) ltac:(lia)) as H.
  rewrite (rnd_small 1) in H by done. lia.
Qed.

End grid.

Section float_order.

Lemma bounded_facts m e :
  bounded prec emax m e = true ->
  -1074 <= e <= 971 /\ Zpos m < 2 ^ 53 /\ (e = -1074 \/ 2 ^ 52 <= Zpos m).
Proof.
  unfold bounded, canonical_mantissa. rewrite fexp_fx, andb_true_iff, Z.eqb_eq, Z.leb_le.
  rewrite Zdigits2_log2. intros [Hc He]. change (emax - prec) with 971 in He.
  pose proof (log2_bounds (Zpos m) ltac:(lia)) as [Hlo Hhi].
  pose proof (Z.log2_nonneg (Zpos m)).
  unfold fx in Hc.
  assert (Hd : Z.log2 (Zpos m) + 1 <= 53) by lia.
  assert (2 ^ (Z.log2 (Zpos m) + 1) <= 2 ^ 53) by (apply Z.pow_le_mono_r; lia).
  split_and!; [lia..|].
  destruct (decide (e = -1074)) as [|Hne]; [by left|right].
  assert (Z.log2 (Zpos m) = 52) as Hl by lia. by rewrite Hl in Hlo.
Qed.

Lemma pos_finite m e :
  bounded prec emax m e = true ->
  0 < Zpos m * 2 ^ (e + 1074) < TOP.
Proof.
  intros (He & Hm & _)%bounded_facts.
  pose proof (pow2_pos (e + 1074) ltac:(lia)) as Hp.
  assert (2 ^ (e + 1074) <= 2 ^ 2045) by (apply Z.pow_le_mono_r; lia).
  split; [lia|]. change TOP with (2 ^ 53 * 2 ^ 2045).
  assert (Zpos m * 2 ^ (e + 1074) <= (2 ^ 53 - 1) * 2 ^ 2045)
    by (apply Z.mul_le_mono_nonneg; lia).
  assert ((2 ^ 53 - 1) * 2 ^ 2045 < 2 ^ 53 * 2 ^ 2045)
    by (apply Z.mul_lt_mono_pos_r; [apply pow2_pos|]; lia).
  lia.
Qed.

Lemma TOP_pos : 0 < TOP.
Proof. apply pow2_pos. lia. Qed.

Lemma pos_range x : good x -> 0 <= pos x <= TOP.
Proof.
  pose proof TOP_pos.
  destruct x as [[]|[]| |[] m e]; cbn [pos good]; try done.
  all: try (intros _; lia).
  intros H'%pos_finite. lia.
Qed.

(** On non-negative doubles the comparison is that of their places on the
    grid. *)
Lemma compare_good x y :
  good x -> good y -> SFcompare x y = Some (pos x ?= pos y).
Proof.
  pose proof TOP_pos.
  destruct x as [[]|[]| |[] m1 e1], y as [[]|[]| |[] m2 e2];
    cbn [pos good SFcompare]; try done.
  1-4: intros H1 H2; try apply pos_finite in H1; try apply pos_finite in H2;
    f_equal; symmetry; (apply Z.compare_lt_iff || apply Z.compare_gt_iff); lia.
  intros H1 H2. f_equal.
    pose proof (bounded_facts _ _ H1) as (He1 & Hm1 & Hn1).
    pose proof (bounded_facts _ _ H2) as (He2 & Hm2 & Hn2).
    destruct (Z.compare_spec e1 e2) as [->|Hlt|Hgt].
    + rewrite Pos.compare_cont_spec. simpl.
      pose proof (pow2_pos (e2 + 1074) ltac:(lia)).
      change (m1 ?= m2)%positive with (Zpos m1 ?= Zpos m2).
      destruct (Z.compare_spec (Zpos m1) (Zpos m2)) as [Hc|Hc|Hc]; symmetry;
        [apply Z.compare_eq_iff|apply Z.compare_lt_iff|apply Z.compare_gt_iff]; nia.
    + symmetry. apply Z.compare_lt_iff.
      destruct Hn2 as [->|Hn2]; [lia|].
      pose proof (pow2_pos (e1 + 1074) ltac:(lia)).
      assert (2 * 2 ^ (e1 + 1074) <= 2 ^ (e2 + 1074)).
      { replace (e2 + 1074) with (1 + (e2 - 1 + 1074)) by lia.
        rewrite (Z.pow_add_r 2 1 (e2 - 1 + 1074)) by lia. change (2 ^ 1) with 2.
        assert (2 ^ (e1 + 1074) <= 2 ^ (e2 - 1 + 1074)) by (apply Z.pow_le_mono_r; lia).
        lia. }
      change (2 ^ 53) with (2 * 2 ^ 52) in Hm1. nia.
    + symmetry. apply Z.compare_gt_iff.
      destruct Hn1 as [->|Hn1]; [lia|].
      pose proof (pow2_pos (e2 + 1074) ltac:(lia)).
      assert (2 * 2 ^ (e2 + 1074) <= 2 ^ (e1 + 1074)).
      { replace (e1 + 1074) with (1 + (e1 - 1 + 1074)) by lia.
        rewrite (Z.pow_add_r 2 1 (e1 - 1 + 1074)) by lia. change (2 ^ 1) with 2.
        assert (2 ^ (e2 + 1074) <= 2 ^ (e1 - 1 + 1074)) by (apply Z.pow_le_mono_r; lia).
        lia. }
      change (2 ^ 53) with (2 * 2 ^ 52) in Hm2. nia.
Qed.

Lemma fle_good x y : good x -> good y -> (SFleb x y = true <-> pos x <= pos y).
Proof.
  intros Hx Hy. unfold SFleb. rewrite compare_good by done.
  destruct (Z.compare_spec (pos x) (pos y)); split; (done || lia).
Qed.

Lemma flt_good x y : good x -> good y -> (SFltb x y = true <-> pos x < pos y).
Proof.
  intros Hx Hy. unfold SFltb. rewrite compare_good by done.
  destruct (Z.compare_spec (pos x) (pos y)); split; (done || lia).
Qed.

End float_order.

Section operations.

Lemma whole_good x : whole x -> good x.
Proof. destruct x as [[]|[]| |[] m e]; cbn [whole good]; tauto. Qed.

Lemma rnd_top : rnd TOP = TOP.
Proof. vm_compute. reflexivity. Qed.

Lemma rnd_above K : TOP <= K -> rnd K = TOP.
Proof.
  intros HK. pose proof TOP_pos.
  pose proof (rnd_mono TOP K ltac:(lia) HK) as Hm. rewrite rnd_top in Hm.
  pose proof (rnd_le_top K). lia.
Qed.

(** A double is its own rounding. *)
Lemma rnd_fix x : good x -> rnd (pos x) = pos x.
Proof.
  destruct x as [[]|[]| |[] m e]; cbn [pos good]; intros Hb;
    try (exfalso; exact Hb).
  - apply rnd_zero.
  - apply rnd_top.
  - pose proof (pos_finite _ _ Hb) as Hlt.
    pose proof (bounded_facts _ _ Hb) as (He & Hm & Hn).
    rewrite rnd_kept. unfold kept. rewrite dropped_scaled by lia.
    assert (Hc : fx (Zpos (digits2_pos m) + e) = e).
    { unfold bounded, canonical_mantissa in Hb. rewrite fexp_fx in Hb.
      apply andb_true_iff in Hb as [Hc _]. by apply Z.eqb_eq in Hc. }
    rewrite Hc, dhe_exact by (apply pow2_pos; lia). lia.
Qed.

Lemma round_int_good c :
  0 <= c -> good (round_int c) /\ pos (round_int c) = rnd (c * 2 ^ 1074).
Proof.
  intros Hc. destruct c as [|M|M]; [done| |lia].
  apply (binary_round_good M 0). lia.
Qed.

Lemma round_int_whole c :
  0 <= c -> round_int c = S754_infinity false \/ whole (round_int c).
Proof.
  intros Hc. pose proof (round_int_good c Hc) as [Hg _].
  destruct c as [|M|M]; [by right| |lia].
  unfold round_int, binary_normalize in *.
  rewrite binary_round_spec in * by lia.
  set (K := Zpos M * 2 ^ (0 + 1074)) in *.
  assert (Hd : 1022 <= dropped K).
  { unfold dropped, K. rewrite log2_shift by lia.
    pose proof (Z.log2_nonneg (Zpos M)). lia. }
  revert Hg. unfold packed.
  destruct (kept K) as [|q|q]; [by right| |by right].
  destruct (Zpos q <? 2 ^ 53).
  - destruct (dropped K - 1074 <=? 971); [|by left].
    intros Hg. right. split; [done|lia].
  - destruct (dropped K - 1074 + 1 <=? 971); [|by left].
    intros Hg. right. split; [done|lia].
Qed.

Lemma shl_align_value m e ez :
  ez <= e -> Zpos (fst (shl_align m e ez)) = Zpos m * 2 ^ (e - ez).
Proof.
  intros Hle. unfold shl_align.
  destruct (ez - e) as [|d|d] eqn:Hd; [|lia|]; cbn [fst].
  - replace (e - ez) with 0 by lia. lia.
  - rewrite iter_xO. do 2 f_equal. lia.
Qed.

(** The sum of two non-negative doubles is the rounding of the sum of
    their places. *)
Lemma fadd_good x y :
  good x -> good y ->
  good (fadd x y) /\ pos (fadd x y) = rnd (pos x + pos y).
Proof.
  pose proof TOP_pos as Htop.
  destruct x as [[]|[]| |[] mx ex] eqn:Ex, y as [[]|[]| |[] my ey] eqn:Ey;
    cbn [good]; intros Hx Hy; try (exfalso; exact Hx); try (exfalso; exact Hy).
  - split; [done|]. unfold fadd. cbn [SFadd pos]. by rewrite Z.add_0_l, rnd_zero.
  - split; [done|]. unfold fadd. cbn [SFadd pos]. by rewrite Z.add_0_l, rnd_top.
  - split; [done|]. unfold fadd. cbn [SFadd].
    rewrite <- (rnd_fix (S754_finite false my ey)) at 1 by done.
    cbn [pos]. by rewrite Z.add_0_l.
  - split; [done|]. unfold fadd. cbn [SFadd pos]. by rewrite Z.add_0_r, rnd_top.
  - split; [done|]. unfold fadd. cbn [SFadd pos]. rewrite rnd_above; [done|lia].
  - split; [done|]. unfold fadd. cbn [SFadd pos].
    pose proof (pos_finite _ _ Hy). rewrite rnd_above; [done|lia].
  - split; [done|]. unfold fadd. cbn [SFadd].
    rewrite <- (rnd_fix (S754_finite false mx ex)) at 1 by done.
    cbn [pos]. by rewrite Z.add_0_r.
  - split; [done|]. unfold fadd. cbn [SFadd pos].
    pose proof (pos_finite _ _ Hx). rewrite rnd_above; [done|lia].
  - pose proof (bounded_facts _ _ Hx) as (Hex & _).
    pose proof (bounded_facts _ _ Hy) as (Hey & _).
    unfold fadd. cbn [SFadd cond_Zopp pos].
    set (ez := Z.min ex ey).
    assert (Hz : -1074 <= ez /\ ez <= ex /\ ez <= ey) by (unfold ez; lia).
    set (a := fst (shl_align mx ex ez)). set (b := fst (shl_align my ey ez)).
    change (Zpos a + Zpos b) with (Zpos (a + b)). cbn [binary_normalize].
    destruct (binary_round_good (a + b) ez) as [Hg Hp]; [lia|].
    split; [done|]. rewrite Hp. f_equal.
    rewrite Pos2Z.inj_add. unfold a, b. rewrite !shl_align_value by lia.
    rewrite Z.mul_add_distr_r, <- !Z.mul_assoc.
    rewrite <- !Z.pow_add_r by lia.
    by replace (ex - ez + (ez + 1074)) with (ex + 1074) by lia;
       replace (ey - ez + (ez + 1074)) with (ey + 1074) by lia.
Qed.

(** The product of two non-negative doubles that is not below the grid is
    the rounding of the exact product. *)
Lemma fmul_finite mx ex my ey :
  bounded prec emax mx ex = true -> bounded prec emax my ey = true ->
  -1074 <= ex + ey ->
  good (fmul (S754_finite false mx ex) (S754_finite false my ey)) /\
  pos (fmul (S754_finite false mx ex) (S754_finite false my ey)) =
    rnd (Zpos mx * 2 ^ (ex + 1074) * (Zpos my * 2 ^ (ey + 1074)) / 2 ^ 1074).
Proof.
  intros Hbx Hby He.
  pose proof (bounded_facts _ _ Hbx) as (Hrx & Hmx & Hnx).
  pose proof (bounded_facts _ _ Hby) as (Hry & Hmy & Hny).
  unfold fmul. cbn [SFmul xorb].
  assert (Hal : ex + ey <= fx (Zpos (digits2_pos (mx * my)) + (ex + ey))).
  { rewrite Zdigits2_log2.
    assert (52 <= Z.log2 (Zpos (mx * my))).
    { apply Z.log2_le_pow2; [lia|]. rewrite Pos2Z.inj_mul.
      destruct Hnx as [->|Hnx]; [destruct Hny as [->|Hny]; [lia|]|]; nia. }
    unfold fx. lia. }
  assert (Hbr : binary_round_aux prec emax false (Zpos (mx * my)) (ex + ey) loc_Exact =
                binary_round prec emax false (mx * my) (ex + ey)).
  { unfold binary_round, shl_align. rewrite fexp_fx.
    destruct (fx (Zpos (digits2_pos (mx * my)) + (ex + ey)) - (ex + ey)) eqn:Hd; [done|done|lia]. }
  rewrite Hbr.
  destruct (binary_round_good (mx * my) (ex + ey)) as [Hg Hp]; [lia|].
  split; [done|]. rewrite Hp. f_equal.
  rewrite Pos2Z.inj_mul.
  replace (Zpos mx * 2 ^ (ex + 1074) * (Zpos my * 2 ^ (ey + 1074)))
    with (Zpos mx * Zpos my * 2 ^ (ex + ey + 1074) * 2 ^ 1074).
  - rewrite Z.div_mul; [done|]. pose proof (pow2_pos 1074). lia.
  - rewrite <- !Z.mul_assoc. f_equal.
    rewrite (Z.mul_comm (2 ^ (ex + 1074))), <- !Z.mul_assoc. f_equal.
    rewrite <- !Z.pow_add_r by lia. f_equal. lia.
Qed.

(** The product of a whole double and a normal rate. *)
Lemma fmul_whole x m e :
  whole x -> bounded prec emax m e = true -> -1022 <= e ->
  good (fmul x (S754_finite false m e)) /\
  pos (fmul x (S754_finite false m e)) =
    rnd (pos x * (Zpos m * 2 ^ (e + 1074)) / 2 ^ 1074).
Proof.
  intros Hx Hb He.
  destruct x as [[]|[]| |[] mx ex]; cbn [whole] in Hx; try (exfalso; exact Hx).
  { split; [done|]. unfold fmul. cbn [SFmul xorb pos]. by rewrite Z.mul_0_l. }
  destruct Hx as [Hbx Hex]. cbn [pos]. apply fmul_finite; [done..|lia].
Qed.

(** A whole double that is not zero is at least one. *)
Lemma whole_pos x : whole x -> 0 < pos x -> 2 ^ 1074 <= pos x.
Proof.
  destruct x as [[]|[]| |[] mx ex]; cbn [whole pos]; try tauto; try lia.
  intros [Hb He] _. pose proof (bounded_facts _ _ Hb) as (Hr & Hm & Hn).
  assert (2 ^ 52 <= Zpos mx) by (destruct Hn; [lia|done]).
  assert (2 ^ 1022 <= 2 ^ (ex + 1074)) by (apply Z.pow_le_mono_r; lia).
  change (2 ^ 1074) with (2 ^ 52 * 2 ^ 1022).
  apply Z.mul_le_mono_nonneg; lia.
Qed.

Lemma rnd_pos_iff K : 0 <= K -> (0 < rnd K <-> 0 < K).
Proof.
  intros HK. split.
  - intros Hr. destruct (decide (K = 0)) as [->|]; [by rewrite rnd_zero in Hr|lia].
  - apply rnd_pos.
Qed.

End operations.

(** ** The energy of a mapping, on the grid *)

Section usage.

Lemma rates_normal k r : energy_rates !! k = Some r -> normal_rate r = true.
Proof.
  assert (H : map_Forall (fun _ r => normal_rate r = true) energy_rates) by compute_done.
  apply H.
Qed.

Lemma normal_rate_inv r :
  normal_rate r = true ->
  exists m e, r = S754_finite false m e /\ bounded prec emax m e = true /\ -1022 <= e.
Proof.
  destruct r as [| | |[] m e]; try done. cbn [normal_rate].
  intros [Hb He]%andb_true_iff. exists m, e. split_and!; [done..|lia].
Qed.

Lemma of_int_whole c x :
  0 <= c -> of_int c = Returns x -> whole x /\ pos x = rnd (c * 2 ^ 1074).
Proof.
  intros Hc. unfold of_int.
  pose proof (round_int_whole c Hc) as Hw. pose proof (round_int_good c Hc) as [_ Hp].
  destruct (round_int c) eqn:E; intros [= <-]; try done.
  all: destruct Hw as [Hw|Hw]; [discriminate Hw|done].
Qed.

Lemma whole_below_top x : whole x -> pos x < TOP.
Proof.
  pose proof TOP_pos.
  destruct x as [[]|[]| |[] m e]; cbn [whole pos]; try tauto; try lia.
  intros [Hb _]. pose proof (pos_finite _ _ Hb). lia.
Qed.

Lemma of_int_below c c' x' :
  0 <= c <= c' -> of_int c' = Returns x' ->
  exists x, of_int c = Returns x /\ pos x <= pos x'.
Proof.
  intros [Hc Hle] H'. destruct (of_int_whole c' x') as [Hw' Hp']; [lia|done|].
  pose proof (round_int_good c Hc) as [Hg Hp].
  assert (Hm : rnd (c * 2 ^ 1074) <= rnd (c' * 2 ^ 1074)).
  { pose proof (pow2_pos 1074 ltac:(lia)). apply rnd_mono; nia. }
  pose proof (whole_below_top x' Hw') as Hlt.
  exists (round_int c). split; [|lia].
  unfold of_int. destruct (round_int c) as [|[]| |] eqn:E; try done.
  cbn [pos] in Hp. lia.
Qed.

(** What one known kind adds to the running total. *)
Lemma accumulate_add k c rest total rate x :
  energy_rates !! k = Some rate ->
  of_int c = Returns x ->
  running total ->
  accumulate ((k, c) :: rest) total =
  accumulate rest (PFloat (fadd (as_float total) (fmul x rate))).
Proof.
  intros Hk Hx Hrun. cbn [accumulate]. rewrite Hk.
  unfold mul. cbn [to_float]. rewrite Hx. cbn.
  destruct Hrun as [->|[g ->]]; reflexivity.
Qed.

Lemma level_running t t' : level t t' -> running t /\ running t'.
Proof.
  intros [[-> ->]|(g & g' & -> & -> & _)]; split; (by left) || (right; eauto).
Qed.

Lemma level_as_float t t' :
  level t t' ->
  good (as_float t) /\ good (as_float t') /\ pos (as_float t) <= pos (as_float t').
Proof.
  intros [[-> ->]|(g & g' & -> & -> & Hg & Hg' & Hle)]; cbn [as_float]; [|done].
  split_and!; done.
Qed.

(** The grid place of what one kind adds. *)
Lemma step_place g x rate :
  good g -> whole x -> normal_rate rate = true ->
  good (fadd g (fmul x rate)) /\
  pos (fadd g (fmul x rate)) = rnd (pos g + rnd (pos x * pos rate / 2 ^ 1074)).
Proof.
  intros Hg Hx (m & e & -> & Hb & He)%normal_rate_inv.
  destruct (fmul_whole x m e Hx Hb He) as [Hgp Hp].
  destruct (fadd_good g _ Hg Hgp) as [Hgs Hs].
  split; [done|]. rewrite Hs, Hp. reflexivity.
Qed.

Lemma rate_place rate : normal_rate rate = true -> 0 < pos rate < TOP.
Proof.
  intros (m & e & -> & Hb & He)%normal_rate_inv. cbn [pos]. by apply pos_finite.
Qed.

Lemma accumulate_level a a' :
  no_less a a' -> natural a ->
  forall t t' v',
    level t t' -> accumulate a' t' = Returns v' ->
    exists v, accumulate a t = Returns v /\ level v v'.
Proof.
  induction 1 as [|[k c] [k' c'] a a' [Hk Hc] Hrest IH]; intros Hnat t t' v' Hl Hacc.
  { cbn in Hacc. injection Hacc as <-. exists t. by split. }
  cbn [fst snd] in Hk, Hc. subst k'.
  apply Forall_cons in Hnat as [Hc0 Hnat]. cbn [snd] in Hc0.
  destruct (energy_rates !! k) as [rate|] eqn:Hrate.
  2:{ rewrite accumulate_unknown in Hacc |- * by done. by apply (IH Hnat t t'). }
  destruct (level_running _ _ Hl) as [Hr Hr'].
  destruct (of_int_cases c') as [Hov|[x' Hx']].
  { rewrite (accumulate_overflow _ _ _ _ _ Hrate Hov) in Hacc. discriminate. }
  destruct (of_int_below c c' x' ltac:(lia) Hx') as (x & Hx & Hxx).
  rewrite (accumulate_add _ _ _ _ _ _ Hrate Hx' Hr') in Hacc.
  rewrite (accumulate_add _ _ _ _ _ _ Hrate Hx Hr).
  refine (IH Hnat _ _ _ _ Hacc).
  right. eexists _, _. split_and!; [done|done|..].
  - destruct (level_as_float _ _ Hl) as (Hg & _).
    destruct (of_int_whole c x Hc0 Hx) as [Hw _].
    apply (step_place _ _ _ Hg Hw (rates_normal _ _ Hrate)).
  - destruct (level_as_float _ _ Hl) as (_ & Hg' & _).
    destruct (of_int_whole c' x' ltac:(lia) Hx') as [Hw' _].
    apply (step_place _ _ _ Hg' Hw' (rates_normal _ _ Hrate)).
  - destruct (level_as_float _ _ Hl) as (Hg & Hg' & Hle).
    destruct (of_int_whole c x Hc0 Hx) as [Hw _].
    destruct (of_int_whole c' x' ltac:(lia) Hx') as [Hw' _].
    pose proof (rates_normal _ _ Hrate) as Hn.
    destruct (step_place _ _ _ Hg Hw Hn) as [_ ->].
    destruct (step_place _ _ _ Hg' Hw' Hn) as [_ ->].
    pose proof (rate_place _ Hn) as Hrp.
    pose proof (pos_range _ (whole_good _ Hw)) as Hpx.
    pose proof (pos_range _ Hg) as Hpg.
    pose proof (pow2_pos 1074 ltac:(lia)) as H2.
    assert (Hq : 0 <= pos x * pos rate / 2 ^ 1074) by (apply Z.div_pos; [nia|lia]).
    assert (Hqq : pos x * pos rate / 2 ^ 1074 <= pos x' * pos rate / 2 ^ 1074)
      by (apply Z.div_le_mono; [lia|nia]).
    pose proof (rnd_mono _ _ Hq Hqq) as Hm.
    pose proof (rnd_mono 0 _ ltac:(lia) Hq) as Hm0. rewrite rnd_zero in Hm0.
    apply rnd_mono; lia.
Qed.

Lemma no_less_refl a : no_less a a.
Proof. apply Forall2_same_length_lookup_2; [done|]. intros i x y Hx Hy. naive_solver lia. Qed.

Lemma level_at_most v v' : level v v' -> at_most v v'.
Proof.
  intros [[-> ->]|(g & g' & -> & -> & Hg & Hg' & Hle)]; cbn [at_most]; [lia|].
  by apply fle_good.
Qed.

(** Whether the running total is above zero after a mapping. *)
Lemma accumulate_positive a :
  natural a ->
  forall t v,
    level t t -> accumulate a t = Returns v ->
    level v v /\ (gt0 v = true <-> gt0 t = true \/ Exists in_use a).
Proof.
  induction a as [|[k c] a IH]; intros Hnat t v Hl Hacc.
  { cbn in Hacc. injection Hacc as <-. split; [done|]. rewrite Exists_nil. tauto. }
  apply Forall_cons in Hnat as [Hc0 Hnat]. cbn [snd] in Hc0.
  rewrite Exists_cons. unfold in_use at 1. cbn [fst snd].
  destruct (energy_rates !! k) as [rate|] eqn:Hrate.
  2:{ rewrite accumulate_unknown in Hacc by done.
      destruct (IH Hnat _ _ Hl Hacc) as [Hv Hiff]. split; [done|].
      rewrite Hiff. split; [tauto|]. intros [?|[[[? [=]] _]|?]]; tauto. }
  destruct (level_running _ _ Hl) as [Hr _].
  destruct (of_int_cases c) as [Hov|[x Hx]].
  { rewrite (accumulate_overflow _ _ _ _ _ Hrate Hov) in Hacc. discriminate. }
  rewrite (accumulate_add _ _ _ _ _ _ Hrate Hx Hr) in Hacc.
  destruct (level_as_float _ _ Hl) as (Hg & _).
  destruct (of_int_whole c x Hc0 Hx) as [Hw Hpx].
  pose proof (rates_normal _ _ Hrate) as Hn.
  destruct (step_place _ _ _ Hg Hw Hn) as [Hgs Hps].
  assert (Hl' : level (PFloat (fadd (as_float t) (fmul x rate)))
                      (PFloat (fadd (as_float t) (fmul x rate)))).
  { right. eexists _, _. split_and!; done || lia. }
  destruct (IH Hnat _ _ Hl' Hacc) as [Hv Hiff]. split; [done|].
  rewrite Hiff. clear Hiff IH.
  assert (Hstep : gt0 (PFloat (fadd (as_float t) (fmul x rate))) = true <->
                  gt0 t = true \/ 0 < c).
  { cbn [gt0]. unfold flt. rewrite flt_good by done. cbn [pos]. rewrite Hps.
    pose proof (rate_place _ Hn) as Hrp.
    pose proof (pos_range _ (whole_good _ Hw)) as Hxr.
    pose proof (pos_range _ Hg) as Hpg.
    pose proof (pow2_pos 1074 ltac:(lia)) as H2.
    assert (Hq : 0 <= pos x * pos rate / 2 ^ 1074) by (apply Z.div_pos; [nia|lia]).
    pose proof (rnd_pos_iff _ Hq) as Hq1.
    pose proof (rnd_mono 0 _ ltac:(lia) Hq) as Hm0. rewrite rnd_zero in Hm0.
    rewrite rnd_pos_iff by lia.
    assert (Hxc : 0 < pos x <-> 0 < c).
    { rewrite Hpx. rewrite rnd_pos_iff by nia. nia. }
    assert (Hqx : 0 < pos x * pos rate / 2 ^ 1074 <-> 0 < pos x).
    { split.
      - intros Hpos. destruct (decide (pos x = 0)) as [E|]; [|lia].
        rewrite E, Z.mul_0_l, Z.div_0_l in Hpos; lia.
      - intros Hpos. pose proof (whole_pos _ Hw Hpos).
        apply Z.div_str_pos. nia. }
    assert (Ht : gt0 t = true <-> 0 < pos (as_float t)).
    { destruct Hl as [[-> _]|(g & _ & -> & _)]; cbn [gt0 as_float pos].
      - split; [discriminate|lia].
      - unfold flt. by rewrite flt_good. }
    rewrite Ht. lia. }
  rewrite Hstep. split; [|tauto].
  intros [[?|?]|?]; [tauto| |tauto]. right. left. split; [by eexists|done].
Qed.

Lemma accumulate_filter (P : string * Z -> Prop) `{!forall kc, Decision (P kc)}
    (a : list (string * Z)) :
  (forall kc, is_Some (energy_rates !! kc.1) -> P kc) ->
  forall t, accumulate (filter P a : list (string * Z)) t = accumulate a t.
Proof.
  intros HP. induction a as [|[k c] a IH]; intros t; [done|].
  rewrite filter_cons. destruct (decide (P (k, c))) as [Hp|Hn].
  - cbn [accumulate]. destruct (energy_rates !! k); [|apply IH].
    destruct (mul _ _); [|done]. cbn. destruct (add _ _); [|done]. cbn. apply IH.
  - rewrite IH. symmetry. apply accumulate_unknown.
    destruct (energy_rates !! k) eqn:E; [|done]. destruct Hn. apply HP. cbn [fst]. by rewrite E.
Qed.

End usage.

(** ** What a save changes *)

Section upkeep.

Implicit Types (c : collection) (d : document).

Lemma save_cases username a e cst today w b w' :
  well_keyed (consumption w) ->
  save_consumption_data username a e cst today w = (b, w') ->
  consumption w' = consumption w \/
  (b = true /\
   exists i existing,
     consumption w !! i = Some existing /\
     matches (day_query username (strftime_Ymd today)) existing = true /\
     consumption w' =
       <[i := set_fields (consumption_data username a e cst today) existing]> (consumption w)) \/
  (b = true /\
   Forall (fun d => ~ matches (day_query username (strftime_Ymd today)) d) (consumption w) /\
   exists n,
     consumption w' =
       consumption w ++ [<["_id"%string := VOid n]>
                           (list_to_map (consumption_data username a e cst today))]).
Proof.
  intros Hwk Hsave. destruct b; cycle 1.
  { left. by eapply save_false. }
  apply save_true in Hsave as (s & s' & Hdb & Hdb' & _ & Hup).
  unfold consumption in *. rewrite Hdb in Hwk |- *. rewrite Hdb'.
  apply upsert_inv in Hup as [[[? ?] _] | [(_ & _ & Hup) | (_ & _ & Hup)]]; [discriminate|..].
  - destruct Hup as (i & existing & idv & Hff & Hid & ->).
    rewrite today_query_day in Hff.
    apply list_find_Some in Hff as (Hi & Hm & _).
    right. left. split; [done|]. exists i, existing. split_and!; [done| |].
    + by apply Is_true_true.
    + by apply update_first_by_id.
  - destruct Hup as (Hff & _ & ->). rewrite today_query_day in Hff.
    apply list_find_None in Hff.
    right. right. split; [done|]. split; [done|]. by eexists.
Qed.

Lemma filter_insert_outside {A} (P : A -> Prop) `{!forall x, Decision (P x)} (l : list A) i x y :
  l !! i = Some x -> ~ P x -> ~ P y -> filter P (<[i := y]> l) = filter P l.
Proof.
  revert i. induction l as [|z l IH]; intros [|i] Hi Hx Hy; try done.
  - injection Hi as ->. cbn [insert list_insert]. by rewrite !filter_cons_False.
  - change (<[S i := y]> (z :: l)) with (z :: <[i := y]> l).
    rewrite !(filter_cons _ z). by rewrite (IH i).
Qed.

Lemma fmap_filter_insert {A B} (P : A -> Prop) `{!forall x, Decision (P x)} (f : A -> B)
    (l : list A) i x y :
  l !! i = Some x -> (P x <-> P y) -> f x = f y ->
  f <$> filter P (<[i := y]> l) = f <$> filter P l.
Proof.
  revert i. induction l as [|z l IH]; intros [|i] Hi HP Hf; try done.
  - injection Hi as ->. cbn [insert list_insert]. rewrite !filter_cons.
    destruct (decide (P y)), (decide (P x)); try tauto.
    by rewrite !fmap_cons, Hf.
  - change (<[S i := y]> (z :: l)) with (z :: <[i := y]> l).
    rewrite !(filter_cons _ z). destruct (decide (P z)); rewrite ?fmap_cons, (IH i); done.
Qed.

Lemma filter_one_key {A B} (P : A -> Prop) `{!forall x, Decision (P x)} (f : A -> B)
    (l : list A) k :
  NoDup (f <$> l) -> (forall x, P x -> f x = k) -> (length (filter P l) <= 1)%nat.
Proof.
  intros Hnd Hk. induction l as [|x l IH]; [simpl; lia|].
  rewrite fmap_cons in Hnd. apply NoDup_cons in Hnd as [Hx Hnd].
  rewrite filter_cons. destruct (decide (P x)) as [Hp|]; [|by apply IH].
  rewrite (filter_none_nil P l); [simpl; lia|].
  apply Forall_forall. intros y Hy Hpy. apply Hx.
  apply list_elem_of_fmap. exists y. split; [|done]. by rewrite (Hk x Hp), (Hk y Hpy).
Qed.

Lemma records_for_of username date c :
  records_for username date c =
  filter (fun d => d !! "date"%string = Some (VStr date)) (records_of username c).
Proof.
  unfold records_for, records_of. rewrite list_filter_filter.
  apply list_filter_iff. intros d. rewrite Is_true_true, matches_day_query. tauto.
Qed.

Lemma one_date_each_day username date c :
  one_date_each username c -> (length (records_for username date c) <= 1)%nat.
Proof.
  intros Hone. rewrite records_for_of.
  apply (filter_one_key _ date_field _ date Hone).
  intros d Hd. unfold date_field. by rewrite Hd.
Qed.

Lemma set_fields_username username a e cst today d :
  set_fields (consumption_data username a e cst today) d !! "username"%string
  = Some (VStr username).
Proof. by rewrite set_fields_lookup, data_username. Qed.

Lemma set_fields_date username a e cst today d :
  set_fields (consumption_data username a e cst today) d !! "date"%string
  = Some (VStr (strftime_Ymd today)).
Proof. by rewrite set_fields_lookup, data_date. Qed.

Lemma new_username username a e cst today (n : N) :
  (<["_id"%string := VOid n]> (list_to_map (consumption_data username a e cst today)) : document)
    !! "username"%string = Some (VStr username).
Proof. rewrite lookup_insert_ne by done. apply data_username. Qed.

Lemma new_date username a e cst today (n : N) :
  (<["_id"%string := VOid n]> (list_to_map (consumption_data username a e cst today)) : document)
    !! "date"%string = Some (VStr (strftime_Ymd today)).
Proof. rewrite lookup_insert_ne by done. apply data_date. Qed.

Lemma save_keeps_others username a e cst today w b w' :
  well_keyed (consumption w) ->
  save_consumption_data username a e cst today w = (b, w') ->
  others username (strftime_Ymd today) (consumption w')
  = others username (strftime_Ymd today) (consumption w).
Proof.
  intros Hwk Hsave.
  destruct (save_cases _ _ _ _ _ _ _ _ Hwk Hsave)
    as [->|[(_ & i & existing & Hi & Hm & ->)|(_ & Hnone & n & ->)]]; [done|..].
  - unfold others. apply (filter_insert_outside _ _ i existing); [done|..].
    + rewrite Hm. intros H. by apply H.
    + rewrite matches_day_set_fields. intros H. by apply H.
  - unfold others. rewrite filter_app, filter_cons_False, filter_nil, app_nil_r; [done|].
    rewrite matches_day_new. intros H. by apply H.
Qed.

Lemma save_keeps_dates username a e cst today w b w' other :
  well_keyed (consumption w) ->
  one_date_each other (consumption w) ->
  save_consumption_data username a e cst today w = (b, w') ->
  one_date_each other (consumption w').
Proof.
  intros Hwk Hone Hsave.
  destruct (save_cases _ _ _ _ _ _ _ _ Hwk Hsave)
    as [->|[(_ & i & existing & Hi & Hm & ->)|(_ & Hnone & n & ->)]]; [done|..].
  - apply matches_day_query in Hm as [Hu Hd].
    unfold one_date_each, records_of in *.
    rewrite (fmap_filter_insert _ date_field _ i existing); [done..| |].
    + by rewrite set_fields_username, Hu.
    + unfold date_field. by rewrite set_fields_date, Hd.
  - unfold one_date_each, records_of in *. rewrite filter_app, fmap_app.
    rewrite filter_cons, filter_nil.
    destruct (decide _) as [Hnew|]; [|by rewrite app_nil_r].
    rewrite new_username in Hnew. injection Hnew as ->.
    apply NoDup_app. split_and!; [done| |apply NoDup_singleton].
    intros date Hin ->%list_elem_of_singleton.
    unfold date_field at 1 in Hin. rewrite new_date in Hin.
    apply list_elem_of_fmap in Hin as (d & Hdate & Hd).
    apply list_elem_of_filter in Hd as [Hu Hd].
    rewrite Forall_forall in Hnone. apply (Hnone d Hd).
    apply Is_true_true, matches_day_query. split; [done|].
    unfold date_field in Hdate. pose proof (strftime_Ymd_not_empty today) as Hne.
    destruct (d !! "date"%string) as [[]|]; try done; congruence.
Qed.

Lemma tidy_day username date c :
  tidy c -> well_keyed c /\ (length (records_for username date c) <= 1)%nat.
Proof. intros (Hwk & _ & Hone). split; [done|]. apply one_date_each_day, Hone. Qed.

Lemma save_keeps_tidy username a e cst today w b w' :
  tidy (consumption w) ->
  Y1000 <= toordinal today <= MAXORDINAL ->
  save_consumption_data username a e cst today w = (b, w') ->
  tidy (consumption w').
Proof.
  intros Htidy Htoday Hsave.
  destruct (tidy_day username (strftime_Ymd today) _ Htidy) as [Hwk Hone].
  destruct Htidy as (_ & Hdated & Heach). split_and!.
  - by destruct (save_keeps_ledger _ _ _ _ _ _ _ _ Hwk Hone Hsave).
  - by eapply save_keeps_dated.
  - intros other. by eapply save_keeps_dates.
Qed.

Lemma records_for_others username date username' date' c :
  (username, date) <> (username', date') ->
  records_for username date c = records_for username date (others username' date' c).
Proof.
  intros Hne. unfold records_for, others. rewrite list_filter_filter.
  apply list_filter_iff. intros d. rewrite !Is_true_true, !matches_day_query.
  split; [|tauto]. intros [Hu Hd]. split; [done|]. intros [Hu' Hd']. congruence.
Qed.

Lemma records_of_others username username' date' c :
  username <> username' ->
  records_of username c = records_of username (others username' date' c).
Proof.
  intros Hne. unfold records_of, others. rewrite list_filter_filter.
  apply list_filter_iff. intros d. rewrite !Is_true_true, !matches_day_query.
  split; [|tauto]. intros Hu. split; [done|]. intros [Hu' Hd']. congruence.
Qed.

(** The window start of a number of days. *)
Lemma start_of_inv now days start :
  start_of now days = Returns start -> start = now - days * us_per_day.
Proof.
  unfold start_of, timedelta_days, Datetime.sub.
  destruct (Z.abs days <=? 999999999); [|done]. cbn.
  destruct (in_range _); [|done]. by intros [= <-].
Qed.

Lemma to_bson_mono t1 t2 : t1 <= t2 -> to_bson t1 <= to_bson t2.
Proof. intros Hle. unfold to_bson. by apply Z.div_le_mono. Qed.

End upkeep.

(** ** The type and the floor of the total, and the cost *)

Section cost.

Lemma accumulate_type a : forall t v,
  running t -> accumulate a t = Returns v ->
  (Forall (fun kc => energy_rates !! kc.1 = None) a /\ v = t) \/
  (Exists (fun kc => is_Some (energy_rates !! kc.1)) a /\ exists g, v = PFloat g).
Proof.
  induction a as [|[k c] a IH]; intros t v Hrun Hacc.
  { cbn in Hacc. injection Hacc as <-. left. by split. }
  destruct (energy_rates !! k) as [rate|] eqn:Hrate.
  - right. split; [left; cbn [fst]; by rewrite Hrate|].
    destruct (of_int_cases c) as [Hov|[x Hx]].
    { rewrite (accumulate_overflow _ _ _ _ _ Hrate Hov) in Hacc. discriminate. }
    rewrite (accumulate_add _ _ _ _ _ _ Hrate Hx Hrun) in Hacc.
    destruct (IH _ _ ltac:(right; eauto) Hacc) as [[_ ->]|[_ ?]]; eauto.
  - rewrite accumulate_unknown in Hacc by done.
    destruct (IH _ _ Hrun Hacc) as [[Hall ->]|[Hex Hg]].
    + left. split; [|done]. by constructor.
    + right. split; [by right|done].
Qed.

Lemma rates_floor k r : energy_rates !! k = Some r -> floor <= pos r.
Proof.
  assert (H : map_Forall (fun _ r => (floor <=? pos r) = true) energy_rates)
    by compute_done.
  intros Hk. apply Z.leb_le. by apply (H k).
Qed.

Lemma rnd_floor K : floor <= K -> floor <= rnd K.
Proof.
  intros HK. assert (Hf : rnd floor = floor) by (vm_compute; reflexivity).
  rewrite <- Hf at 1. apply rnd_mono; [|done]. unfold floor. pose proof (pow2_pos 1071). lia.
Qed.

Lemma accumulate_floor a :
  natural a ->
  forall t v,
    level t t -> pos (as_float t) = 0 \/ floor <= pos (as_float t) ->
    accumulate a t = Returns v ->
    pos (as_float v) = 0 \/ floor <= pos (as_float v).
Proof.
  induction a as [|[k c] a IH]; intros Hnat t v Hl Hfl Hacc.
  { cbn in Hacc. by injection Hacc as <-. }
  apply Forall_cons in Hnat as [Hc0 Hnat]. cbn [snd] in Hc0.
  destruct (energy_rates !! k) as [rate|] eqn:Hrate.
  2:{ rewrite accumulate_unknown in Hacc by done. by apply (IH Hnat t). }
  destruct (level_running _ _ Hl) as [Hr _].
  destruct (of_int_cases c) as [Hov|[x Hx]].
  { rewrite (accumulate_overflow _ _ _ _ _ Hrate Hov) in Hacc. discriminate. }
  rewrite (accumulate_add _ _ _ _ _ _ Hrate Hx Hr) in Hacc.
  destruct (level_as_float _ _ Hl) as (Hg & _).
  destruct (of_int_whole c x Hc0 Hx) as [Hw Hpx].
  pose proof (rates_normal _ _ Hrate) as Hn.
  destruct (step_place _ _ _ Hg Hw Hn) as [Hgs Hps].
  refine (IH Hnat _ _ _ _ Hacc).
  { right. eexists _, _. split_and!; done || lia. }
  cbn [as_float]. rewrite Hps.
  pose proof (rates_floor _ _ Hrate) as Hrf.
  pose proof (pos_range _ (whole_good _ Hw)) as Hxr.
  pose proof (pos_range _ Hg) as Hpg.
  pose proof (pow2_pos 1074 ltac:(lia)) as H2.
  assert (Hfp : 0 < floor) by (apply pow2_pos; lia).
  destruct (decide (pos x = 0)) as [E|Hne].
  - rewrite E, Z.mul_0_l, Z.div_0_l, rnd_zero, Z.add_0_r, rnd_fix by (done || lia). done.
  - right. pose proof (whole_pos _ Hw ltac:(lia)) as Hone.
    assert (floor <= pos x * pos rate / 2 ^ 1074).
    { apply Z.div_le_lower_bound; [lia|]. nia. }
    pose proof (rnd_floor _ H). apply rnd_floor. lia.
Qed.

Lemma place_exponent m e N :
  bounded prec emax m e = true -> 2 ^ N <= Zpos m * 2 ^ (e + 1074) -> 0 <= N ->
  N - 1126 <= e.
Proof.
  intros Hb Hle HN. pose proof (bounded_facts _ _ Hb) as (Hr & Hm & _).
  pose proof (pow2_pos (e + 1074) ltac:(lia)) as Hp.
  assert (Hlt : 2 ^ N < 2 ^ (53 + (e + 1074))).
  { rewrite Z.pow_add_r by lia. nia. }
  apply Z.pow_lt_mono_r_iff in Hlt; lia.
Qed.

(** The cost of a total on the grid: eight times its place, rounded. *)
Lemma tariff_place g :
  good g -> pos g = 0 \/ floor <= pos g ->
  good (fmul g (round_int 8)) /\ pos (fmul g (round_int 8)) = rnd (8 * pos g).
Proof.
  pose proof TOP_pos as Htop.
  change (round_int 8) with (S754_finite false 4503599627370496 (-49)).
  destruct g as [[]|[]| |[] m e]; cbn [good]; intros Hg Hfl; try (exfalso; exact Hg).
  - split; [done|]. unfold fmul. cbn [SFmul xorb pos]. by rewrite Z.mul_0_r, rnd_zero.
  - split; [done|]. unfold fmul. cbn [SFmul xorb pos]. rewrite rnd_above; [done|lia].
  - cbn [pos] in Hfl. pose proof (pos_finite _ _ Hg) as Hp.
    destruct Hfl as [Hfl|Hfl]; [lia|].
    pose proof (place_exponent m e 1071 Hg Hfl ltac:(lia)) as He.
    destruct (fmul_finite m e 4503599627370496 (-49) Hg) as [Hgm Hpm];
      [by vm_compute|lia|].
    split; [done|]. rewrite Hpm. f_equal. cbn [pos].
    change (Zpos 4503599627370496 * 2 ^ (-49 + 1074)) with (8 * 2 ^ 1074).
    rewrite Z.mul_assoc, Z.div_mul; [lia|]. pose proof (pow2_pos 1074). lia.
Qed.

Lemma form_natural f : widgets f -> natural (form_appliances f).
Proof.
  intros (Hl & Hf & Ht & Ha & Hr & Hw). unfold number_input in *.
  unfold natural, form_appliances, ac_count, fridge_count, wm_count.
  repeat (apply Forall_cons; split; [cbn [snd]|]); try apply Forall_nil;
    try destruct (has_ac f); try destruct (has_fridge f); try destruct (has_wm f); lia.
Qed.

Lemma natural_level a v :
  natural a -> calculate_energy_consumption a = Returns v -> level v v.
Proof.
  intros Hnat Hv.
  destruct (accumulate_positive a Hnat (PInt 0) v) as [Hl _]; [by left|done|done].
Qed.

End cost.
Example sha_abc :
  Sha256.hexdigest "abc"
  = "ba7816bf8f01cfea414140de5dae2223b00361a396177a9cb410ff61f20015ad"%string.
Proof. vm_compute. reflexivity. Qed.

Example sha_empty :
  Sha256.hexdigest ""
  = "e3b0c44298fc1c149afbf4c8996fb92427ae41e4649b934ca495991b7852b855"%string.
Proof. vm_compute. reflexivity. Qed.

Example sha_two_blocks :
  Sha256.hexdigest "aaaaaaaaaaaaaaaaaaaaaaaaaaaaaaaaaaaaaaaaaaaaaaaaaaaaaaaa"
  = "b35439a4ac6f0948b6d6f9e3c6af0f5f590ce20f1bde7090ef7970686ec6738a"%string.
Proof. vm_compute. reflexivity. Qed.

(** * Adding and raising counts *)







(** * Further properties of the energy model, the ledger and the form *)

(** X1. Raising counts never lowers the energy: for two mappings with the
    same kinds in the same order, no count negative and no count of the
    second below that of the first, when
    [calculate_energy_consumption] returns for the second it returns for
    the first, a total that is not above the second's. *)
Theorem energy_grows_with_counts a a' v' :
  natural a -> no_less a a' ->
  calculate_energy_consumption a' = Returns v' ->
  exists v, calculate_energy_consumption a = Returns v /\ at_most v v'.
Proof.
  intros Hnat Hle Hv'.
  destruct (accumulate_level a a' Hle Hnat (PInt 0) (PInt 0) v') as (v & Hv & Hl);
    [by left|done|].
  exists v. split; [done|]. by apply level_at_most.
Qed.

Lemma energy_grows_with_counts_witness :
  exists v, calculate_energy_consumption Sample.fewer = Returns v /\
    at_most v (PFloat Example.above_7_8).
Proof.
  apply (energy_grows_with_counts Sample.fewer Example.home).
  - unfold natural. compute_done.
  - unfold no_less. compute_done.
  - compute_done.
Defined.

(** X2. With no negative count, the value [calculate_energy_consumption]
    returns is the int [0] when the mapping has no kind of the rate table,
    and otherwise a float that is not below zero (and so not NaN). *)
Theorem energy_is_never_negative a v :
  natural a -> calculate_energy_consumption a = Returns v ->
  (Forall (fun kc => energy_rates !! kc.1 = None) a /\ v = PInt 0) \/
  (Exists (fun kc => is_Some (energy_rates !! kc.1)) a /\
   exists g, v = PFloat g /\ fle (S754_zero false) g = true).
Proof.
  intros Hnat Hv. pose proof (natural_level a v Hnat Hv) as Hl.
  destruct (accumulate_type a (PInt 0) v) as [[Hall ->]|[Hex [g ->]]];
    [by left|done|by left|].
  right. split; [done|]. exists g. split; [done|].
  destruct Hl as [[[=] _]|(g1 & _ & [= <-] & _ & Hg & _)].
  apply (proj2 (fle_good (S754_zero false) g I Hg)). cbn [pos]. by apply pos_range.
Qed.

Lemma energy_is_never_negative_witness :
  (Forall (fun kc => energy_rates !! kc.1 = None) Example.home /\
   PFloat Example.above_7_8 = PInt 0) \/
  (Exists (fun kc => is_Some (energy_rates !! kc.1)) Example.home /\
   exists g, PFloat Example.above_7_8 = PFloat g /\ fle (S754_zero false) g = true).
Proof.
  apply (energy_is_never_negative Example.home (PFloat Example.above_7_8)).
  - unfold natural. compute_done.
  - compute_done.
Defined.

(** X3. With no negative count, the total is above zero exactly when some
    kind of the rate table has a positive count: this is when the form's
    test [total_energy > 0] lets a submission through. *)
Theorem energy_positive_iff_in_use a v :
  natural a -> calculate_energy_consumption a = Returns v ->
  (gt0 v = true <-> Exists in_use a).
Proof.
  intros Hnat Hv.
  destruct (accumulate_positive a Hnat (PInt 0) v) as [_ Hiff]; [by left|done|].
  rewrite Hiff. split; [|by right]. intros [Hz|?]; [discriminate Hz|done].
Qed.

Lemma energy_positive_iff_in_use_witness :
  gt0 (PFloat Example.above_7_8) = true <-> Exists in_use Example.home.
Proof.
  apply (energy_positive_iff_in_use Example.home (PFloat Example.above_7_8)).
  - unfold natural. compute_done.
  - compute_done.
Defined.

(** X4. Kinds that the rate table does not list do not count: dropping
    them from the mapping leaves the result of
    [calculate_energy_consumption] as it is, error or value. *)
Theorem energy_ignores_unknown_kinds (a : appliances) :
  calculate_energy_consumption
    (filter (fun kc => is_Some (energy_rates !! kc.1)) (a : list (string * Z)))
  = calculate_energy_consumption a.
Proof. apply accumulate_filter. auto. Qed.

(** X5. Raising counts never lowers the cost the form computes,
    [calculate_energy_consumption(appliances) * 8]: under the conditions
    of X1, when the cost of the second mapping is computed so is that of
    the first, and it is not above the second's. *)
Theorem cost_grows_with_counts a a' c' :
  natural a -> no_less a a' ->
  (e' ← calculate_energy_consumption a'; mul e' rate_per_unit) = Returns c' ->
  exists c,
    (e ← calculate_energy_consumption a; mul e rate_per_unit) = Returns c /\
    at_most c c'.
Proof.
  intros Hnat Hle Hc'.
  destruct (calculate_energy_consumption a') as [v'|] eqn:Hv'; [|done].
  cbn in Hc'.
  assert (Hnat' : natural a').
  { unfold natural, no_less in *. clear -Hnat Hle.
    induction Hle as [|[k c] [k' c'] a a' [_ Hc] _ IH]; [done|].
    apply Forall_cons in Hnat as [H0 Hnat]. cbn [snd] in *.
    constructor; [cbn [snd]; lia|by apply IH]. }
  destruct (accumulate_level a a' Hle Hnat (PInt 0) (PInt 0) v') as (v & Hv & Hl);
    [by left|done|].
  fold (calculate_energy_consumption a) in Hv. rewrite Hv. cbn.
  pose proof (accumulate_floor a Hnat (PInt 0) v ltac:(by left) ltac:(by left) Hv) as Hf.
  pose proof (accumulate_floor a' Hnat' (PInt 0) v' ltac:(by left) ltac:(by left) Hv') as Hf'.
  destruct Hl as [[-> ->]|(g & g' & -> & -> & Hg & Hg' & Hgg)].
  - injection Hc' as <-. exists (PInt 0). split; [done|]. cbn. lia.
  - rewrite mul_tariff in Hc' |- *. injection Hc' as <-.
    eexists. split; [done|]. cbn [at_most as_float] in *.
    destruct (tariff_place g Hg Hf) as [Hgc Hpc].
    destruct (tariff_place g' Hg' Hf') as [Hgc' Hpc'].
    apply (proj2 (fle_good _ _ Hgc Hgc')). rewrite Hpc, Hpc'.
    pose proof (pos_range _ Hg). apply rnd_mono; lia.
Qed.

Lemma cost_grows_with_counts_witness :
  exists c,
    (e ← calculate_energy_consumption Sample.fewer; mul e rate_per_unit) = Returns c /\
    at_most c (PFloat Example.above_62_4).
Proof.
  apply (cost_grows_with_counts Sample.fewer Example.home).
  - unfold natural. compute_done.
  - unfold no_less. compute_done.
  - compute_done.
Defined.

(** X6. When [save_consumption_data] returns [False] the collection is as
    it was; without a connection nothing at all has changed, and with one
    the only trace is the error message on the page. *)
Theorem failed_save_changes_nothing username a e cst today w w' :
  save_consumption_data username a e cst today w = (false, w') ->
  consumption w' = consumption w /\
  (db w = None -> w' = w) /\
  (is_Some (db w) -> page w' = page w ++ [saving_error]).
Proof.
  intros Hsave. split; [by eapply save_false|].
  revert Hsave. unfold save_consumption_data.
  destruct (db w) as [s|] eqn:Hdb.
  - destruct (upsert _ _ _ s) as [[[]|err] s']; [done|].
    intros [= <-]. split; [done|]. intros _. reflexivity.
  - intros [= <-]. split; [done|]. by intros [? [=]].
Qed.

Lemma failed_save_changes_nothing_witness :
  consumption Sample.after_offline = consumption Sample.offline /\
  (db Sample.offline = None -> Sample.after_offline = Sample.offline) /\
  (is_Some (db Sample.offline) ->
   page Sample.after_offline = page Sample.offline ++ [saving_error]).
Proof.
  apply (failed_save_changes_nothing "ann" Example.flat
           (Example.priced Example.flat).1 (Example.priced Example.flat).2 Example.evening).
  compute_done.
Defined.

(** X7. A save touches the user's record of the day and nothing else: all
    other records stay as they were and in their order; in particular the
    records of every other user, and the user's records of every other
    date. *)
Theorem save_leaves_other_records username a e cst today w b w' :
  well_keyed (consumption w) ->
  save_consumption_data username a e cst today w = (b, w') ->
  others username (strftime_Ymd today) (consumption w')
    = others username (strftime_Ymd today) (consumption w) /\
  (forall other, other <> username ->
     records_of other (consumption w') = records_of other (consumption w)) /\
  (forall date, date <> strftime_Ymd today ->
     records_for username date (consumption w')
       = records_for username date (consumption w)).
Proof.
  intros Hwk Hsave. pose proof (save_keeps_others _ _ _ _ _ _ _ _ Hwk Hsave) as Hkeep.
  split_and!; [done|..].
  - intros other Hne.
    rewrite (records_of_others other username (strftime_Ymd today) (consumption w')) by done.
    rewrite (records_of_others other username (strftime_Ymd today) (consumption w)) by done.
    by rewrite Hkeep.
  - intros date Hne.
    rewrite (records_for_others username date username (strftime_Ymd today) (consumption w'))
      by congruence.
    rewrite (records_for_others username date username (strftime_Ymd today) (consumption w))
      by congruence.
    by rewrite Hkeep.
Qed.

Lemma save_leaves_other_records_witness :
  length (others "ann" (strftime_Ymd Example.next_noon) (consumption Sample.with_bob)) = 2%nat /\
  length (records_of "bob" (consumption Sample.with_bob)) = 1%nat /\
  length (records_for "ann" "2024-04-24" (consumption Sample.with_bob)) = 1%nat /\
  consumption Sample.with_bob_updated <> consumption Sample.with_bob /\
  others "ann" (strftime_Ymd Example.next_noon) (consumption Sample.with_bob_updated)
    = others "ann" (strftime_Ymd Example.next_noon) (consumption Sample.with_bob) /\
  (forall other, other <> "ann"%string ->
     records_of other (consumption Sample.with_bob_updated)
       = records_of other (consumption Sample.with_bob)) /\
  (forall date, date <> strftime_Ymd Example.next_noon ->
     records_for "ann" date (consumption Sample.with_bob_updated)
       = records_for "ann" date (consumption Sample.with_bob)).
Proof.
  split; [compute_done|]. split; [compute_done|]. split; [compute_done|].
  split; [compute_done|].
  apply (save_leaves_other_records "ann" Example.home
           (Example.priced Example.home).1 (Example.priced Example.home).2
           Example.next_noon Sample.with_bob true Sample.with_bob_updated);
    compute_done.
Defined.

(** X8. The date key [today.strftime("%Y-%m-%d")] tells days apart: a save
    made on one day leaves the user's record of any other day (both within
    the years 1 to 9999) as it was. *)
Theorem save_keeps_other_days username a e cst today earlier w b w' :
  well_keyed (consumption w) ->
  in_range today = true -> in_range earlier = true ->
  toordinal earlier <> toordinal today ->
  save_consumption_data username a e cst today w = (b, w') ->
  records_for username (strftime_Ymd earlier) (consumption w')
    = records_for username (strftime_Ymd earlier) (consumption w).
Proof.
  intros Hwk Ht He Hne Hsave.
  assert (Hdate : strftime_Ymd earlier <> strftime_Ymd today).
  { intros Heq. by apply Hne, strftime_Ymd_inj. }
  rewrite (records_for_others username _ username (strftime_Ymd today) (consumption w'))
    by congruence.
  rewrite (records_for_others username _ username (strftime_Ymd today) (consumption w))
    by congruence.
  by rewrite (save_keeps_others _ _ _ _ _ _ _ _ Hwk Hsave).
Qed.

Lemma save_keeps_other_days_witness :
  records_for "ann" (strftime_Ymd Example.morning) (consumption Example.after_two_days)
    = records_for "ann" (strftime_Ymd Example.morning) (consumption Example.after_evening).
Proof.
  apply (save_keeps_other_days "ann" Example.flat
           (Example.priced Example.flat).1 (Example.priced Example.flat).2
           Example.next_morning Example.morning Example.after_evening true);
    compute_done.
Defined.

(** X9. Saving keeps the ledger in good order: when ObjectIds are unique,
    every record is filed under the day of its timestamp and no user has
    two records of one date, the same holds after any sequence of
    submissions made in the years 1000 to 9999, saved or not. *)
Theorem submissions_keep_ledger_tidy username xs : forall w,
  tidy (consumption w) ->
  Forall (fun x => Y1000 <= toordinal (sub_clock x) <= MAXORDINAL) xs ->
  tidy (consumption (submit_all username xs w)).
Proof.
  induction xs as [|x xs IH]; intros w Htidy Hxs; [done|].
  apply Forall_cons in Hxs as [Hx Hxs]. cbn [submit_all foldl].
  apply IH; [|done]. unfold submit.
  destruct (save_consumption_data _ _ _ _ _ w) as [b w1] eqn:Hsave.
  by eapply save_keeps_tidy.
Qed.

Lemma submissions_keep_ledger_tidy_witness :
  tidy (consumption (submit_all "ann" Sample.three_entries Example.fresh)).
Proof.
  apply (submissions_keep_ledger_tidy "ann" Sample.three_entries Example.fresh).
  - split_and!; [compute_done|constructor|intros u; constructor].
  - compute_done.
Defined.

(** X10. What is saved can be read back: after a save that reported
    success, a retrieval whose window starts no later than the clock of
    the save, on a store that answers, lists a record holding every field
    of the saved data. *)
Theorem saved_record_is_listed username a e cst today days now start w w1 :
  well_keyed (consumption w) ->
  (length (records_for username (strftime_Ymd today) (consumption w)) <= 1)%nat ->
  save_consumption_data username a e cst today w = (true, w1) ->
  start_of now days = Returns start -> start <= today ->
  answering w1 = true ->
  exists l w2 r,
    get_user_consumption_data username days now w1 = (Returns l, w2) /\
    r ∈ l /\
    (forall k v, (k, v) ∈ consumption_data username a e cst today -> r !! k = Some v).
Proof.
  intros Hwk Hone Hsave Hstart Hle Hok.
  destruct (save_keeps_ledger _ _ _ _ _ _ _ _ Hwk Hone Hsave) as (_ & _ & Hr).
  destruct (Hr eq_refl) as (r & Hrec & Hwr).
  destruct (get_returns username days now start w1 Hstart (answering_head _ Hok)) as (w2 & Hget & _).
  exists (window username start (consumption w1)), w2, r. split_and!; [done| |].
  - apply window_elem_of.
    assert (Hin : r ∈ records_for username (strftime_Ymd today) (consumption w1))
      by (rewrite Hrec; by left).
    apply list_elem_of_filter in Hin as [_ Hin]. split_and!; [done|..].
    + eapply written_fields; [done|]. in_data.
    + exists (to_bson today). split; [|by apply to_bson_mono].
      eapply written_fields; [done|]. in_data.
  - intros k v Hkv. by eapply written_fields.
Qed.

Lemma saved_record_is_listed_witness :
  exists l w2 r,
    get_user_consumption_data "ann" 14 Example.evening Example.after_morning = (Returns l, w2) /\
    r ∈ l /\
    (forall k v,
       (k, v) ∈ consumption_data "ann" Example.home (Example.priced Example.home).1
                  (Example.priced Example.home).2 Example.morning ->
       r !! k = Some v).
Proof.
  apply (saved_record_is_listed "ann" Example.home (Example.priced Example.home).1
           (Example.priced Example.home).2 Example.morning 14 Example.evening
           (Example.evening - 14 * us_per_day) Example.fresh Example.after_morning);
    compute_done.
Defined.

(** X11. On a store that answers, [get_user_consumption_data] lists each
    record of the user with a timestamp in the window once and nothing
    else: a document is listed exactly when it is in the collection, its
    [username] is the user's and its [timestamp] is a date not before the
    window start, to the millisecond; and the list is a rearrangement of
    those documents of the collection.  The call changes neither the
    collection nor the page. *)
Theorem get_lists_each_record_once username days now start w :
  start_of now days = Returns start ->
  answering w = true ->
  exists l w',
    get_user_consumption_data username days now w = (Returns l, w') /\
    (forall d, d ∈ l <->
       d ∈ consumption w /\ d !! "username"%string = Some (VStr username) /\
       exists ms, d !! "timestamp"%string = Some (VDate ms) /\ to_bson start <= ms) /\
    l ≡ₚ filter (since username (to_bson start)) (consumption w) /\
    consumption w' = consumption w /\ page w' = page w.
Proof.
  intros Hstart Hok.
  destruct (get_returns username days now start w Hstart (answering_head _ Hok)) as (w' & Hget & Hc & Hp).
  eexists _, w'. split_and!; [done| | |done..].
  - intros d. apply window_elem_of.
  - apply window_since.
Qed.

Lemma get_lists_each_record_once_witness :
  length (consumption Sample.with_bob) = 3%nat /\
  length (records_of "ann" (consumption Sample.with_bob)) = 2%nat /\
  length (filter (since "ann" (to_bson Example.next_morning))
            (consumption Sample.with_bob)) = 1%nat /\
  exists l w',
    get_user_consumption_data "ann" 0 Example.next_morning Sample.with_bob
      = (Returns l, w') /\
    (forall d, d ∈ l <->
       d ∈ consumption Sample.with_bob /\ d !! "username"%string = Some (VStr "ann") /\
       exists ms, d !! "timestamp"%string = Some (VDate ms) /\
                  to_bson Example.next_morning <= ms) /\
    l ≡ₚ filter (since "ann" (to_bson Example.next_morning)) (consumption Sample.with_bob) /\
    consumption w' = consumption Sample.with_bob /\
    page w' = page Sample.with_bob.
Proof.
  split; [compute_done|]. split; [compute_done|]. split; [compute_done|].
  apply (get_lists_each_record_once "ann" 0 Example.next_morning
           Example.next_morning Sample.with_bob).
  - compute_done.
  - compute_done.
Defined.

(** X12. A longer window lists at least what a shorter one lists: on a
    store that answers, every record returned for [days1] is returned for
    any [days2 >= days1] at the same instant. *)
Theorem get_window_widens username days1 days2 now start1 start2 w :
  days1 <= days2 ->
  start_of now days1 = Returns start1 ->
  start_of now days2 = Returns start2 ->
  answering w = true ->
  exists l1 l2 w1 w2,
    get_user_consumption_data username days1 now w = (Returns l1, w1) /\
    get_user_consumption_data username days2 now w = (Returns l2, w2) /\
    l1 ⊆ l2.
Proof.
  intros Hdays H1 H2 Hok.
  destruct (get_returns username days1 now start1 w H1 (answering_head _ Hok)) as (w1 & Hget1 & _).
  destruct (get_returns username days2 now start2 w H2 (answering_head _ Hok)) as (w2 & Hget2 & _).
  eexists _, _, w1, w2. split_and!; [done..|].
  apply start_of_inv in H1, H2. subst start1 start2.
  intros d (Hd & Hu & ms & Hts & Hle)%window_elem_of. apply window_elem_of.
  split_and!; [done..|]. exists ms. split; [done|].
  assert (to_bson (now - days2 * us_per_day) <= to_bson (now - days1 * us_per_day)).
  { apply to_bson_mono. unfold us_per_day. lia. }
  lia.
Qed.

Lemma get_window_widens_witness :
  exists l1 l2 w1 w2,
    get_user_consumption_data "ann" 1 Example.next_noon Example.after_two_days
      = (Returns l1, w1) /\
    get_user_consumption_data "ann" 14 Example.next_noon Example.after_two_days
      = (Returns l2, w2) /\
    l1 ⊆ l2.
Proof.
  apply (get_window_widens "ann" 1 14 Example.next_noon
           (Example.next_noon - 1 * us_per_day) (Example.next_noon - 14 * us_per_day)
           Example.after_two_days).
  - lia.
  - compute_done.
  - compute_done.
  - compute_done.
Defined.

(** X13. The window start is computed outside the [try]: with a
    connection, asking for at least as many days as have passed since
    0001-01-01 raises [OverflowError] out of
    [get_user_consumption_data], and nothing is written to the page. *)
Theorem get_raises_before_year_one username days now w :
  is_Some (db w) -> in_range now = true -> toordinal now <= days ->
  get_user_consumption_data username days now w = (Raises OverflowError, w).
Proof.
  intros [s Hdb] Hnow Hdays. unfold get_user_consumption_data. rewrite Hdb.
  assert (Hstart : start_of now days = Raises OverflowError); [|by rewrite Hstart].
  unfold start_of, timedelta_days. destruct (Z.abs days <=? 999999999); [|done].
  cbn. unfold Datetime.sub.
  assert (Hout : in_range (now - days * us_per_day) = false); [|by rewrite Hout].
  unfold in_range, toordinal in *. apply andb_false_iff. left. apply Z.leb_gt.
  apply andb_true_iff in Hnow as [H0%Z.leb_le _].
  assert (now < days * us_per_day); [|lia].
  apply Z.lt_le_trans with ((now / us_per_day + 1) * us_per_day).
  - pose proof (Z.mod_pos_bound now us_per_day ltac:(done)).
    pose proof (Z.div_mod now us_per_day ltac:(done)). lia.
  - apply Z.mul_le_mono_nonneg_r; [done|lia].
Qed.

Lemma get_raises_before_year_one_witness :
  get_user_consumption_data "ann" 1000000 Example.noon Example.after_morning
    = (Raises OverflowError, Example.after_morning).
Proof.
  apply (get_raises_before_year_one "ann" 1000000 Example.noon Example.after_morning).
  - by eexists.
  - compute_done.
  - compute_done.
Defined.

(** X14. With the widgets in their ranges, the form changes the collection
    only when it was submitted and some appliance has a positive count. *)
Theorem form_writes_only_when_in_use username compact f now today w res w' :
  widgets f ->
  show_energy_input_form username compact f now today w = (res, w') ->
  consumption w' <> consumption w ->
  submit_button f = true /\ Exists in_use (form_appliances f).
Proof.
  intros Hwid. unfold show_energy_input_form.
  set (looked_up := match db w with Some s => _ | None => _ end).
  assert (Hlook : consumption looked_up.2 = consumption w).
  { unfold looked_up, consumption. destruct (db w) as [s|] eqn:Hdb; simpl; [|by rewrite Hdb].
    destruct (find_one _ s) as [r s'] eqn:Hfind. simpl. by eapply find_one_docs. }
  destruct looked_up as [[existing_data|err] w1]; simpl in Hlook; [|by intros [= _ <-]].
  set (w2 := if _ && _ then st_message _ w1 else w1).
  assert (Hw2 : consumption w2 = consumption w).
  { unfold w2. by destruct (_ && _). }
  destruct (calculate_energy_consumption (form_appliances f)) as [e|err] eqn:He; simpl;
    [|by intros [= _ <-]].
  destruct (mul e rate_per_unit) as [c|err] eqn:Hc; simpl; [|by intros [= _ <-]].
  destruct (submit_button f); [|by intros [= _ <-]].
  destruct (gt0 e) eqn:Hgt; [|by intros [= _ <-]].
  intros _ _. split; [done|].
  destruct (accumulate_positive _ (form_natural f Hwid) (PInt 0) e) as [_ Hiff];
    [by left|done|].
  apply Hiff in Hgt as [Hz|?]; [discriminate Hz|done].
Qed.

Lemma form_writes_only_when_in_use_witness :
  submit_button Example.home_form = true /\ Exists in_use (form_appliances Example.home_form).
Proof.
  apply (form_writes_only_when_in_use "ann" false Example.home_form Example.morning
           Example.morning Example.fresh (Returns tt) Example.after_form).
  - unfold widgets, number_input. compute_done.
  - compute_done.
  - compute_done.
Defined.

(** X15. With the widgets in their ranges the form raises only when its
    first look-up of today's entry fails: the error is the store's, and
    neither the collection nor the page has changed. *)
Theorem form_fails_only_on_lookup username compact f now today w e w' :
  widgets f ->
  show_energy_input_form username compact f now today w = (Raises e, w') ->
  e = PyMongoError /\
  (exists s, db w = Some s /\ head (faults s) = Some true) /\
  consumption w' = consumption w /\ page w' = page w.
Proof.
  intros Hwid. unfold show_energy_input_form.
  destruct (form_total f Hwid) as (t & Ht & _).
  set (looked_up := match db w with Some s => _ | None => _ end).
  destruct looked_up as [[existing_data|err] w1] eqn:Hlook.
  - set (w2 := if _ && _ then st_message _ w1 else w1).
    destruct (calculate_energy_consumption (form_appliances f)) as [v|err] eqn:He; simpl;
      [|congruence].
    destruct (mul v rate_per_unit) as [c|err] eqn:Hc; simpl.
    + destruct (submit_button f); [|done]. destruct (gt0 v); [|done].
      by destruct (save_consumption_data _ _ _ _ _ w2) as [[] w3].
    + injection Ht as ->. rewrite mul_tariff in Hc. discriminate.
  - intros [= <- <-]. unfold looked_up in Hlook. clear looked_up.
    destruct (db w) as [s|] eqn:Hdb; [|done].
    destruct (find_one _ s) as [r s'] eqn:Hfind. injection Hlook as -> <-.
    unfold find_one, round_trip in Hfind.
    destruct (faults s) as [|[] rest] eqn:Hf; cbn in Hfind; try discriminate.
    injection Hfind as <- <-.
    split_and!; [done| |by unfold consumption; cbn; rewrite Hdb|done].
    exists s. by rewrite Hf.
Qed.

Lemma form_fails_only_on_lookup_witness :
  PyMongoError = PyMongoError /\
  (exists s, db (Example.unreachable Example.fresh) = Some s /\ head (faults s) = Some true) /\
  consumption Sample.after_failed_form = consumption (Example.unreachable Example.fresh) /\
  page Sample.after_failed_form = page (Example.unreachable Example.fresh).
Proof.
  apply (form_fails_only_on_lookup "ann" false Example.home_form Example.morning
           Example.morning (Example.unreachable Example.fresh) PyMongoError
           Sample.after_failed_form).
  - unfold widgets, number_input. compute_done.
  - compute_done.
Defined.

(** X16. Saving the same data again at the same instant changes nothing
    in the collection: the second call finds the record of the first and
    sets it to what it already holds. *)
Theorem saving_again_changes_nothing username a e cst today w w1 b w2 :
  well_keyed (consumption w) ->
  (length (records_for username (strftime_Ymd today) (consumption w)) <= 1)%nat ->
  save_consumption_data username a e cst today w = (true, w1) ->
  save_consumption_data username a e cst today w1 = (b, w2) ->
  consumption w2 = consumption w1.
Proof.
  intros Hwk Hone Hs1 Hs2.
  destruct (save_keeps_ledger _ _ _ _ _ _ _ _ Hwk Hone Hs1) as (Hwk1 & _ & Hr).
  destruct (Hr eq_refl) as (r & Hrec & Hwr).
  assert (Hin : forall d, d ∈ consumption w1 ->
            matches (day_query username (strftime_Ymd today)) d = true -> d = r).
  { intros d Hd Hm.
    assert (d ∈ records_for username (strftime_Ymd today) (consumption w1)) as Hdr.
    { apply list_elem_of_filter. split; [by apply Is_true_true|done]. }
    rewrite Hrec in Hdr. by apply list_elem_of_singleton in Hdr. }
  assert (Hrin : r ∈ consumption w1).
  { assert (r ∈ records_for username (strftime_Ymd today) (consumption w1)) as Hdr
      by (rewrite Hrec; by left).
    by apply list_elem_of_filter in Hdr as [_ ?]. }
  assert (Hrm : matches (day_query username (strftime_Ymd today)) r = true).
  { assert (r ∈ records_for username (strftime_Ymd today) (consumption w1)) as Hdr
      by (rewrite Hrec; by left).
    apply list_elem_of_filter in Hdr as [Hm _]. by apply Is_true_true. }
  destruct (save_cases _ _ _ _ _ _ _ _ Hwk1 Hs2)
    as [->|[(_ & i & existing & Hi & Hm & ->)|(_ & Hnone & _)]]; [done|..].
  - assert (existing = r) as -> by (apply Hin; [by eapply list_elem_of_lookup_2|done]).
    apply list_insert_id. rewrite Hi. f_equal.
    apply map_eq. intros k. rewrite set_fields_lookup.
    destruct (list_to_map _ !! k) as [v|] eqn:Hk; [|done].
    eapply written_fields; [done|]. by apply elem_of_list_to_map_2.
  - rewrite Forall_forall in Hnone. destruct (Hnone r Hrin). by rewrite Hrm.
Qed.

Lemma saving_again_changes_nothing_witness :
  consumption Sample.after_repeat = consumption Example.after_morning.
Proof.
  apply (saving_again_changes_nothing "ann" Example.home (Example.priced Example.home).1
           (Example.priced Example.home).2 Example.morning Example.fresh
           Example.after_morning true Sample.after_repeat);
    compute_done.
Defined.

(** X17. The energy is not additive in binary64: there are mappings with
    the same kinds and no negative count, the energy of whose counts taken
    together is not the sum of their energies.  Six lights give
    1.2000000000000002, one light and five lights 0.2 + 1.0 = 1.2. *)
Theorem energy_is_not_additive :
  exists a b ea eb eab s,
    natural a /\ natural b /\ a.*1 = b.*1 /\
    calculate_energy_consumption a = Returns ea /\
    calculate_energy_consumption b = Returns eb /\
    calculate_energy_consumption (together a b) = Returns eab /\
    add ea eb = Returns s /\
    PyNum.eqb eab s = false /\ at_most s eab.
Proof.
  exists Sample.one_light, Sample.five_lights.
  exists (PFloat (literal 2 10)), (PFloat (round_int 1)).
  exists (PFloat (S754_finite false 5404319552844596 (-52))), (PFloat (literal 12 10)).
  unfold natural. split_and!; compute_done.
Qed.

(** * Accounts: signing up, logging in, the login history *)

Import Accounts.

#[global] Instance newer_trans : Transitive newer.
Proof. unfold newer. intros x y z. lia. Qed.

#[global] Instance newer_total : Total newer.
Proof. unfold newer. intros x y. lia. Qed.

Section accounts.

Implicit Types (s : store) (w : site) (u : user) (l : login).

Lemma attempt_inv {A} (run : store -> outcome A * store) s r s' :
  attempt run s = (r, s') ->
  (head (failing s) = Some true /\ r = Raises PyMongoError /\
   users s' = users s /\ data_collection s' = data_collection s /\ next_id s' = next_id s) \/
  (head (failing s) <> Some true /\
   exists s0, run s = (r, s0) /\
     users s' = users s0 /\ data_collection s' = data_collection s0 /\ next_id s' = next_id s0).
Proof.
  unfold attempt. destruct (failing s) as [|[] rest] eqn:Hf.
  - destruct (run s) as [r0 s0]. intros [= <- <-]. right. split; [done|]. by exists s0.
  - intros [= <- <-]. by left.
  - destruct (run s) as [r0 s0]. intros [= <- <-]. right. split; [done|]. by exists s0.
Qed.

Lemma find_user_inv name s r s' :
  find_user name s = (r, s') ->
  users s' = users s /\ data_collection s' = data_collection s /\ next_id s' = next_id s /\
  ((head (failing s) = Some true /\ r = Raises PyMongoError) \/
   (head (failing s) <> Some true /\
    r = Returns (snd <$> list_find (fun u => username u = name) (users s)))).
Proof.
  intros [(Hf & -> & ? & ? & ?)|(Hf & s0 & [= <- <-] & ? & ? & ?)]%attempt_inv;
    split_and!; auto.
Qed.

Lemma found_user name (us : list user) u :
  snd <$> list_find (fun u => username u = name) us = Some u ->
  u ∈ us /\ username u = name.
Proof.
  destruct (list_find _ us) as [[i u']|] eqn:Hf; [|done]. intros [= <-].
  apply list_find_Some in Hf as (Hi & Hn & _). split; [|done].
  by eapply list_elem_of_lookup_2.
Qed.

Lemma no_user name (us : list user) :
  snd <$> list_find (fun u => username u = name) us = None ->
  Forall (fun u => username u <> name) us.
Proof.
  destruct (list_find _ us) as [[i u']|] eqn:Hf; [done|]. intros _.
  by apply list_find_None in Hf.
Qed.

Lemma find_appended name (us : list user) u :
  Forall (fun u => username u <> name) us -> username u = name ->
  snd <$> list_find (fun u => username u = name) (us ++ [u]) = Some u.
Proof.
  intros Hnone Hu.
  assert (Hf : list_find (fun u => username u = name) (us ++ [u]) = Some (length us, u)).
  { apply list_find_Some. split_and!.
    - by rewrite lookup_app_r, Nat.sub_diag by lia.
    - done.
    - intros j y Hj Hlt. rewrite lookup_app_l in Hj by done.
      rewrite Forall_forall in Hnone. apply Hnone. by eapply list_elem_of_lookup_2. }
  by rewrite Hf.
Qed.

Lemma insert_user_inv doc s r s' :
  insert_user doc s = (r, s') ->
  data_collection s' = data_collection s /\
  ((exists e, r = Raises e) /\ users s' = users s \/
   r = Returns tt /\ users s' = users s ++ [doc (next_id s)]).
Proof.
  intros [(Hf & -> & ? & ? & ?)|(Hf & s0 & Hrun & Hu & Hd & ?)]%attempt_inv.
  { split; [done|]. left. split; [by eexists|done]. }
  destruct (existsb _ (users s)); injection Hrun as <- <-; cbn in *.
  - split; [done|]. left. split; [by eexists|done].
  - split; [done|]. by right.
Qed.

Lemma insert_login_inv doc s r s' :
  insert_login doc s = (r, s') ->
  users s' = users s /\
  ((exists e, r = Raises e) /\ data_collection s' = data_collection s \/
   r = Returns tt /\ data_collection s' = data_collection s ++ [doc (next_id s)]).
Proof.
  intros [(Hf & -> & ? & ? & ?)|(Hf & s0 & Hrun & Hu & Hd & ?)]%attempt_inv.
  { split; [done|]. left. split; [by eexists|done]. }
  destruct (existsb _ (data_collection s)); injection Hrun as <- <-; cbn in *.
  - split; [done|]. left. split; [by eexists|done].
  - split; [done|]. by right.
Qed.

(** What [create_user] can do. *)
Lemma create_user_inv name mail pass now w r w' :
  create_user name mail pass now w = (r, w') ->
  logins_of w' = logins_of w /\
  ((connection w = None /\ r = Returns false /\ w' = w) \/
   (exists s, connection w = Some s /\ head (failing s) = Some true /\
      r = Raises PyMongoError /\ users_of w' = users_of w /\ shown w' = shown w) \/
   (reachable w = true /\ (exists u, u ∈ users_of w /\ username u = name) /\
      r = Returns false /\ users_of w' = users_of w /\ shown w' = shown w) \/
   (reachable w = true /\ Forall (fun u => username u <> name) (users_of w) /\
      r = Returns false /\ users_of w' = users_of w /\
      shown w' = shown w ++ [creating_error]) \/
   (reachable w = true /\ Forall (fun u => username u <> name) (users_of w) /\
      r = Returns true /\ shown w' = shown w /\
      exists i, users_of w' = users_of w ++ [user_data name mail pass now i])).
Proof.
  unfold create_user, users_of, logins_of, reachable.
  destruct (connection w) as [s|] eqn:Hc; [|intros [= <- <-]; rewrite Hc; split; [done|by left]].
  destruct (find_user name s) as [r1 s1] eqn:Hfind.
  apply find_user_inv in Hfind as (Hu1 & Hd1 & Hn1 & [[Hf ->]|[Hf ->]]).
  { intros [= <- <-]. cbn. split; [done|]. right. left. by exists s. }
  assert (Hreach : match failing s with true :: _ => false | _ => true end = true).
  { by destruct (failing s) as [|[] ?]. }
  destruct (snd <$> list_find _ (users s)) as [u|] eqn:Hfound.
  { intros [= <- <-]. cbn. split; [done|]. right. right. left.
    apply found_user in Hfound as [Hin Hname]. split_and!; [done|by exists u|done..]. }
  apply no_user in Hfound.
  destruct (insert_user _ s1) as [r2 s2] eqn:Hins.
  apply insert_user_inv in Hins as (Hd2 & [[[e ->] Hu2]|[-> Hu2]]); intros [= <- <-]; cbn.
  - split; [congruence|]. right. right. right. left. split_and!; [done..|congruence|done].
  - split; [congruence|]. right. right. right. right. split_and!; [done..|].
    exists (next_id s1). by rewrite Hu2, Hu1.
Qed.

(** What [authenticate_user] can do. *)
Lemma authenticate_user_inv name pass t1 t2 sid w r w' :
  authenticate_user name pass t1 t2 sid w = (r, w') ->
  users_of w' = users_of w /\
  ((connection w = None /\ r = Returns None /\ w' = w) \/
   (exists s, connection w = Some s /\ head (failing s) = Some true /\
      r = Raises PyMongoError /\ logins_of w' = logins_of w /\ shown w' = shown w) \/
   (reachable w = true /\
      snd <$> list_find (fun u => username u = name) (users_of w) = None /\
      r = Returns None /\ logins_of w' = logins_of w /\ shown w' = shown w) \/
   (exists u, reachable w = true /\
      snd <$> list_find (fun u => username u = name) (users_of w) = Some u /\
      verify_password pass (password u) = false /\
      r = Returns None /\ logins_of w' = logins_of w /\ shown w' = shown w) \/
   (exists u, reachable w = true /\
      snd <$> list_find (fun u => username u = name) (users_of w) = Some u /\
      verify_password pass (password u) = true /\
      r = Returns (Some u) /\
      ((logins_of w' = logins_of w /\ shown w' = shown w ++ [login_error]) \/
       (shown w' = shown w /\
        exists i, logins_of w' = logins_of w ++ [login_data name t1 t2 sid i])))).
Proof.
  unfold authenticate_user, users_of, logins_of, reachable.
  destruct (connection w) as [s|] eqn:Hc; [|intros [= <- <-]; rewrite Hc; split; [done|by left]].
  destruct (find_user name s) as [r1 s1] eqn:Hfind.
  apply find_user_inv in Hfind as (Hu1 & Hd1 & Hn1 & [[Hf ->]|[Hf ->]]).
  { intros [= <- <-]. cbn. split; [done|]. right. left. by exists s. }
  assert (Hreach : match failing s with true :: _ => false | _ => true end = true).
  { by destruct (failing s) as [|[] ?]. }
  destruct (snd <$> list_find _ (users s)) as [u|] eqn:Hfound.
  2:{ intros [= <- <-]. cbn. split; [done|]. right. right. left. by split_and!. }
  destruct (verify_password pass (password u)) eqn:Hv.
  2:{ intros [= <- <-]. cbn. split; [done|]. right. right. right. left. exists u.
      by split_and!. }
  destruct (insert_login _ s1) as [r2 s2] eqn:Hins.
  apply insert_login_inv in Hins as (Hu2 & [[[e ->] Hd2]|[-> Hd2]]); intros [= <- <-]; cbn.
  - split; [congruence|]. right. right. right. right. exists u. split_and!; [done..|].
    left. split; [congruence|done].
  - split; [congruence|]. right. right. right. right. exists u. split_and!; [done..|].
    right. split; [done|]. exists (next_id s1). by rewrite Hd2, Hd1.
Qed.

Lemma verify_password_eq pass hashed :
  verify_password pass hashed = true <-> hash_password pass = hashed.
Proof. unfold verify_password. apply String.eqb_eq. Qed.

(** Whom [authenticate_user] returns. *)
Lemma authenticated name pass t1 t2 sid w u w' :
  authenticate_user name pass t1 t2 sid w = (Returns (Some u), w') ->
  u ∈ users_of w /\ username u = name /\ hash_password pass = password u.
Proof.
  intros Hauth.
  apply authenticate_user_inv in Hauth
    as (_ & [(_ & [=] & _)|[(s & _ & _ & [=] & _)|[(_ & _ & [=] & _)|
            [(u' & _ & _ & _ & [=] & _)|(u' & _ & Hsome & Hv & [= <-] & _)]]]]).
  apply found_user in Hsome as [Hin Hname]. by apply verify_password_eq in Hv.
Qed.

Lemma users_of_show_error msg w : users_of (show_error msg w) = users_of w.
Proof. reflexivity. Qed.

Lemma verify_own_hash pass : verify_password pass (hash_password pass) = true.
Proof. unfold verify_password. apply String.eqb_refl. Qed.

Lemma hexdigest_length p : String.length (Sha256.hexdigest p) = 64%nat.
Proof. reflexivity. Qed.

Lemma StronglySorted_take {A} (R : relation A) (n : nat) (l : list A) :
  StronglySorted R l -> StronglySorted R (take n l).
Proof.
  intros Hs. revert n. induction Hs as [|x l Hs IH Hx]; intros [|n]; cbn; try constructor.
  - apply IH.
  - rewrite Forall_forall in Hx |- *. intros y Hy. apply Hx.
    by eapply elem_of_take_1 || (apply elem_of_take in Hy as (i & Hi & _);
                                 by eapply list_elem_of_lookup_2).
Qed.

End accounts.

Section accounts_properties.

Implicit Types (s : store) (w : site) (u : user) (l : list login).

Lemma reachable_head w s :
  connection w = Some s -> (reachable w = true <-> head (failing s) <> Some true).
Proof.
  intros Hc. unfold reachable. rewrite Hc. by destruct (failing s) as [|[] ?]; cbn; split.
Qed.

(** X18. [create_user] keeps usernames unique: when no two users share a
    username before the call, none do after it, whatever it returns; and
    when the username is taken it does not report success and leaves the
    users as they were. *)
Theorem create_user_keeps_names_unique name mail pass now w r w' :
  unique_names w ->
  create_user name mail pass now w = (r, w') ->
  unique_names w' /\
  ((exists u, u ∈ users_of w /\ username u = name) ->
   r <> Returns true /\ users_of w' = users_of w).
Proof.
  unfold unique_names. intros Huniq Hcreate.
  apply create_user_inv in Hcreate
    as (_ & [(_ & -> & ->)|[(s & _ & _ & -> & -> & _)|[(_ & _ & -> & -> & _)|
            [(_ & _ & -> & -> & _)|(_ & Hnone & -> & _ & i & ->)]]]]); try done.
  split.
  - rewrite fmap_app. apply NoDup_app. split_and!; [done| |apply NoDup_singleton].
    intros n Hn ->%list_elem_of_singleton.
    apply list_elem_of_fmap in Hn as (u & Hu & Hin).
    rewrite Forall_forall in Hnone. by apply (Hnone u Hin).
  - intros (u & Hin & Hu). rewrite Forall_forall in Hnone. by destruct (Hnone u Hin).
Qed.

Lemma create_user_keeps_names_unique_witness :
  unique_names (create_user "ann" "other@example.org" "pass" Example.noon signed_up).2 /\
  ((exists u, u ∈ users_of signed_up /\ username u = "ann"%string) ->
   Returns false <> Returns true /\
   users_of (create_user "ann" "other@example.org" "pass" Example.noon signed_up).2
     = users_of signed_up).
Proof.
  apply (create_user_keeps_names_unique "ann" "other@example.org" "pass" Example.noon
           signed_up (Returns false)).
  - unfold unique_names. compute_done.
  - compute_done.
Defined.

(** X19. Who has signed up can log in: after [create_user] reported
    success, [authenticate_user] with the same username and password, on
    a store that answers the look-up, returns the user created, whose
    stored password is the 64-character SHA-256 digest of the password;
    the users stay as they are, and the login is recorded unless its
    insert fails, which only shows an error. *)
Theorem created_user_can_log_in name mail pass now t1 t2 sid w w1 :
  create_user name mail pass now w = (Returns true, w1) ->
  reachable w1 = true ->
  exists u w2,
    authenticate_user name pass t1 t2 sid w1 = (Returns (Some u), w2) /\
    username u = name /\ email u = mail /\ password u = hash_password pass /\
    String.length (password u) = 64%nat /\ created_at u = to_bson now /\
    users_of w2 = users_of w1 /\
    ((logins_of w2 = logins_of w1 /\ shown w2 = shown w1 ++ [login_error]) \/
     (shown w2 = shown w1 /\
      exists i, logins_of w2 = logins_of w1 ++ [login_data name t1 t2 sid i])).
Proof.
  intros Hcreate Hreach.
  apply create_user_inv in Hcreate
    as (_ & [(_ & [=] & _)|[(s & _ & _ & [=] & _)|[(_ & _ & [=] & _)|
            [(_ & _ & [=] & _)|(_ & Hnone & _ & _ & i & Hus)]]]]).
  assert (Hfind : snd <$> list_find (fun u => username u = name) (users_of w1)
                  = Some (user_data name mail pass now i)).
  { rewrite Hus. by apply find_appended. }
  destruct (authenticate_user name pass t1 t2 sid w1) as [r w2] eqn:Hauth.
  apply authenticate_user_inv in Hauth
    as (Hu & [(Hc & _)|[(s & Hc & Hf & _)|[(_ & Hno & _)|
             [(u & _ & Hsome & Hv & _)|(u & _ & Hsome & Hv & -> & Hlog)]]]]).
  - assert (He : users_of w1 = []) by (unfold users_of; by rewrite Hc).
    rewrite He in Hus. by destruct (users_of w).
  - apply (reachable_head _ _ Hc) in Hreach. by destruct Hreach.
  - congruence.
  - rewrite Hfind in Hsome. injection Hsome as <-.
    unfold user_data in Hv. cbn [password] in Hv.
    by rewrite verify_own_hash in Hv.
  - rewrite Hfind in Hsome. injection Hsome as <-.
    exists (user_data name mail pass now i), w2. by split_and!.
Qed.

Lemma created_user_can_log_in_witness :
  exists u w2,
    authenticate_user "ann" "correct horse" Example.noon Example.noon "1713960000.0" signed_up
      = (Returns (Some u), w2) /\
    username u = "ann"%string /\ email u = "ann@example.org"%string /\
    password u = hash_password "correct horse" /\
    String.length (password u) = 64%nat /\ created_at u = to_bson Example.morning /\
    users_of w2 = users_of signed_up /\
    ((logins_of w2 = logins_of signed_up /\ shown w2 = shown signed_up ++ [login_error]) \/
     (shown w2 = shown signed_up /\
      exists i, logins_of w2 = logins_of signed_up
                  ++ [login_data "ann" Example.noon Example.noon "1713960000.0" i])).
Proof.
  apply (created_user_can_log_in "ann" "ann@example.org" "correct horse" Example.morning
           Example.noon Example.noon "1713960000.0" empty_site signed_up); compute_done.
Defined.

(** X20. [authenticate_user] never changes the users, returns a user only
    if that user is in the collection under the given username and the
    SHA-256 digest of the given password is the stored one, and when it
    returns [None] it has recorded no login and shown nothing. *)
Theorem login_needs_matching_hash name pass t1 t2 sid w r w' :
  authenticate_user name pass t1 t2 sid w = (r, w') ->
  users_of w' = users_of w /\
  (forall u, r = Returns (Some u) ->
     u ∈ users_of w /\ username u = name /\ hash_password pass = password u) /\
  (r = Returns None -> logins_of w' = logins_of w /\ shown w' = shown w).
Proof.
  intros Hauth. split_and!.
  - by apply authenticate_user_inv in Hauth as [? _].
  - intros u ->. by eapply authenticated.
  - intros ->.
    apply authenticate_user_inv in Hauth
      as (_ & [(_ & _ & ->)|[(s & _ & _ & [=] & _)|[(_ & _ & _ & Hl & Hs)|
              [(u & _ & _ & _ & _ & Hl & Hs)|(u & _ & _ & _ & [=] & _)]]]]); done.
Qed.

Lemma login_needs_matching_hash_witness :
  users_of logged_in = users_of signed_up /\
  (forall u, Returns (Some (user_data "ann" "ann@example.org" "correct horse"
                              Example.morning 0)) = Returns (Some u) ->
     u ∈ users_of signed_up /\ username u = "ann"%string /\
     hash_password "correct horse" = password u) /\
  (Returns (Some (user_data "ann" "ann@example.org" "correct horse" Example.morning 0))
     = Returns None ->
   logins_of logged_in = logins_of signed_up /\ shown logged_in = shown signed_up).
Proof.
  apply (login_needs_matching_hash "ann" "correct horse" Example.noon Example.noon
           "1713960000.0" signed_up). compute_done.
Defined.

(** X21. A store failure during the look-up is not caught by
    [create_user] and [authenticate_user]: the [find_one] stands outside
    the [try], so both raise the store's error, with users, logins and
    page unchanged; [get_user_login_data] catches it, returns the empty
    list and shows an error. *)
Theorem account_lookup_failure_escapes name mail pass now t1 t2 sid w :
  reachable w = false ->
  (exists w1,
     create_user name mail pass now w = (Raises PyMongoError, w1) /\
     users_of w1 = users_of w /\ logins_of w1 = logins_of w /\ shown w1 = shown w) /\
  (exists w2,
     authenticate_user name pass t1 t2 sid w = (Raises PyMongoError, w2) /\
     users_of w2 = users_of w /\ logins_of w2 = logins_of w /\ shown w2 = shown w) /\
  (exists w3,
     get_user_login_data name w = ([], w3) /\
     users_of w3 = users_of w /\ logins_of w3 = logins_of w /\
     shown w3 = shown w ++ [history_error]).
Proof.
  unfold reachable, create_user, authenticate_user, get_user_login_data,
    find_user, find_logins, attempt, users_of, logins_of.
  destruct (connection w) as [s|]; [|done].
  destruct (failing s) as [|[] rest]; [done| |done]. intros _.
  split_and!; eexists; (split; [reflexivity|done]).
Qed.

Lemma account_lookup_failure_escapes_witness :
  (exists w1,
     create_user "bob" "bob@example.org" "pass" Example.noon (cut_off signed_up)
       = (Raises PyMongoError, w1) /\
     users_of w1 = users_of (cut_off signed_up) /\
     logins_of w1 = logins_of (cut_off signed_up) /\ shown w1 = shown (cut_off signed_up)) /\
  (exists w2,
     authenticate_user "ann" "correct horse" Example.noon Example.noon "1713960000.0"
       (cut_off signed_up) = (Raises PyMongoError, w2) /\
     users_of w2 = users_of (cut_off signed_up) /\
     logins_of w2 = logins_of (cut_off signed_up) /\ shown w2 = shown (cut_off signed_up)) /\
  (exists w3,
     get_user_login_data "ann" (cut_off signed_up) = ([], w3) /\
     users_of w3 = users_of (cut_off signed_up) /\
     logins_of w3 = logins_of (cut_off signed_up) /\
     shown w3 = shown (cut_off signed_up) ++ [history_error]).
Proof.
  apply (account_lookup_failure_escapes "bob" "bob@example.org" "pass" Example.noon
           Example.noon Example.noon "1713960000.0" (cut_off signed_up)).
  compute_done.
Defined.

(** X22. [get_user_login_data] returns at most ten logins, all of the
    user, newest first, and they are the newest: no login of the user
    that it leaves out is newer than one it returns.  On a store that
    answers it returns ten or all of them; it changes neither
    collection. *)
Theorem login_history_newest_first name w l w' :
  get_user_login_data name w = (l, w') ->
  (length l <= 10)%nat /\
  StronglySorted newer l /\
  Forall (fun x => x ∈ logins_of w /\ login_username x = name) l /\
  (forall x y, x ∈ logins_of w -> login_username x = name -> x ∉ l -> y ∈ l -> newer y x) /\
  (reachable w = true ->
   length l = Nat.min 10 (length (filter (fun x => login_username x = name) (logins_of w)))) /\
  users_of w' = users_of w /\ logins_of w' = logins_of w.
Proof.
  unfold get_user_login_data, users_of, logins_of, reachable.
  destruct (connection w) as [s|] eqn:Hc.
  2:{ intros [= <- <-]. rewrite Hc.
      split_and!; [cbn; lia|constructor|constructor| |done..].
      by intros x y ?%elem_of_nil. }
  destruct (find_logins name s) as [r s1] eqn:Hfind. unfold find_logins in Hfind.
  apply attempt_inv in Hfind
    as [(Hf & -> & Hu & Hd & _)|(Hf & s0 & [= <- <-] & Hu & Hd & _)]; intros [= <- <-]; cbn.
  { split_and!; [cbn; lia|constructor|constructor| | |done..].
    - by intros x y _ _ _ ?%elem_of_nil.
    - intros Hr. destruct (failing s) as [|[] ?]; done. }
  set (mine := filter (fun x => login_username x = name) (data_collection s)).
  set (sorted := merge_sort newer mine).
  assert (Hperm : sorted ≡ₚ mine) by apply merge_sort_Permutation.
  assert (Hsorted : StronglySorted newer sorted) by apply (StronglySorted_merge_sort _).
  split_and!; [|by apply StronglySorted_take| | | |done..].
  - rewrite length_take. lia.
  - apply Forall_forall. intros x Hx.
    assert (x ∈ sorted) as Hin.
    { apply elem_of_take in Hx as (i & Hi & _). by eapply list_elem_of_lookup_2. }
    rewrite Hperm in Hin. by apply list_elem_of_filter in Hin as [? ?].
  - intros x y Hx Hname Hout Hy.
    assert (x ∈ sorted) as Hin by (rewrite Hperm; by apply list_elem_of_filter).
    rewrite <- (take_drop 10 sorted) in Hin, Hsorted.
    apply elem_of_app in Hin as [Hin|Hin]; [done|].
    by eapply StronglySorted_app_1_elem_of.
  - intros _. by rewrite length_take, Hperm.
Qed.

Lemma login_history_newest_first_witness :
  length (logins_of busy) = 15%nat /\
  length (filter (fun x => login_username x = "ann"%string) (logins_of busy)) = 13%nat /\
  ((fun x => (login_time x - to_bson Example.noon) / 3600000) <$> (get_user_login_data "ann" busy).1)
    = [13; 12; 11; 10; 9; 8; 7; 6; 5; 4] /\
  (length (get_user_login_data "ann" busy).1 <= 10)%nat /\
  StronglySorted newer (get_user_login_data "ann" busy).1 /\
  Forall (fun x => x ∈ logins_of busy /\ login_username x = "ann"%string)
    (get_user_login_data "ann" busy).1 /\
  (forall x y, x ∈ logins_of busy -> login_username x = "ann"%string ->
     x ∉ (get_user_login_data "ann" busy).1 -> y ∈ (get_user_login_data "ann" busy).1 ->
     newer y x) /\
  (reachable busy = true ->
   length (get_user_login_data "ann" busy).1
   = Nat.min 10 (length (filter (fun x => login_username x = "ann"%string)
                           (logins_of busy)))) /\
  users_of (get_user_login_data "ann" busy).2 = users_of busy /\
  logins_of (get_user_login_data "ann" busy).2 = logins_of busy.
Proof.
  split; [compute_done|]. split; [compute_done|]. split; [compute_done|].
  apply (login_history_newest_first "ann" busy (get_user_login_data "ann" busy).1
           (get_user_login_data "ann" busy).2).
  by destruct (get_user_login_data "ann" busy).
Defined.

(** X23. The login page opens a session only for who has the password:
    after a run of [show_login_page] the session user is as before, or
    Login was pressed with a username and a password that are not empty
    and the session user is a user of the collection with that username
    whose stored password is the SHA-256 digest of the password typed. *)
Theorem session_needs_password p now t1 t2 sid w session r w' session' :
  show_login_page p now t1 t2 sid w session = (r, w', session') ->
  session' = session \/
  exists name pass u,
    p = Login name pass /\ name <> ""%string /\ pass <> ""%string /\
    session' = Some u /\ u ∈ users_of w /\ username u = name /\
    hash_password pass = password u.
Proof.
  unfold show_login_page. destruct p as [name pass|name mail pass confirm|].
  - destruct (filled name) eqn:Hn; [|intros [= _ _ <-]; by left].
    destruct (filled pass) eqn:Hp; [|intros [= _ _ <-]; by left]. cbn.
    destruct (authenticate_user name pass t1 t2 sid w) as [[[u|]|e] w1] eqn:Hauth;
      intros [= _ _ <-]; [|by left..].
    right. exists name, pass, u.
    destruct (authenticated _ _ _ _ _ _ _ _ Hauth) as (Hin & Hname & Hhash).
    unfold filled in Hn, Hp. apply negb_true_iff, String.eqb_neq in Hn, Hp.
    by split_and!.
  - destruct (_ && _); [|intros [= _ _ <-]; by left].
    destruct (String.eqb pass confirm); [|intros [= _ _ <-]; by left].
    destruct (create_user name mail pass now w) as [[[]|e] w1]; intros [= _ _ <-]; by left.
  - intros [= _ _ <-]. by left.
Qed.

Lemma session_needs_password_witness :
  Some (user_data "ann" "ann@example.org" "correct horse" Example.morning 0) = None \/
  exists name pass u,
    Login "ann" "correct horse" = Login name pass /\ name <> ""%string /\ pass <> ""%string /\
    Some (user_data "ann" "ann@example.org" "correct horse" Example.morning 0) = Some u /\
    u ∈ users_of signed_up /\ username u = name /\
    hash_password pass = password u.
Proof.
  apply (session_needs_password (Login "ann" "correct horse") Example.noon Example.noon
           Example.noon "1713960000.0" signed_up None (Returns tt)
           (show_error "Login successful!" logged_in)).
  compute_done.
Defined.

(** X24. The login page creates an account only from a sign-up form filled
    in completely and with the password confirmed: after a run of
    [show_login_page] the users are as before, or Sign Up was pressed
    with username, email and password not empty and the confirmation
    equal to the password, the username was free, and the one user added
    is the one [create_user] makes of them. *)
Theorem signup_needs_all_fields p now t1 t2 sid w session r w' session' :
  show_login_page p now t1 t2 sid w session = (r, w', session') ->
  users_of w' = users_of w \/
  exists name mail pass i,
    p = SignUp name mail pass pass /\
    name <> ""%string /\ mail <> ""%string /\ pass <> ""%string /\
    Forall (fun u => username u <> name) (users_of w) /\
    users_of w' = users_of w ++ [user_data name mail pass now i].
Proof.
  unfold show_login_page. destruct p as [name pass|name mail pass confirm|].
  - destruct (_ && _); [|intros [= _ <- _]; by left].
    destruct (authenticate_user name pass t1 t2 sid w) as [[[u|]|e] w1] eqn:Hauth;
      intros [= _ <- _]; left; rewrite ?users_of_show_error;
      by apply authenticate_user_inv in Hauth as [? _].
  - destruct (filled name) eqn:Hn; [|intros [= _ <- _]; by left].
    destruct (filled mail) eqn:Hm; [|intros [= _ <- _]; by left].
    destruct (filled pass) eqn:Hp; [|intros [= _ <- _]; by left].
    destruct (filled confirm) eqn:Hc; [|intros [= _ <- _]; by left]. cbn.
    destruct (String.eqb pass confirm) eqn:Heq; [|intros [= _ <- _]; by left].
    apply String.eqb_eq in Heq as <-.
    unfold filled in Hn, Hm, Hp. apply negb_true_iff, String.eqb_neq in Hn, Hm, Hp.
    destruct (create_user name mail pass now w) as [[[]|e] w1] eqn:Hcreate;
      intros [= _ <- _]; rewrite ?users_of_show_error;
      apply create_user_inv in Hcreate
        as (_ & [(_ & _ & ->)|[(s & _ & _ & _ & Hu & _)|[(_ & _ & _ & Hu & _)|
                [(_ & _ & _ & Hu & _)|(_ & Hnone & _ & _ & i & Hu)]]]]);
      try (by left).
    all: right; exists name, mail, pass, i; by split_and!.
  - intros [= _ <- _]. by left.
Qed.

Lemma signup_needs_all_fields_witness :
  users_of (show_error "Account created successfully! Please login." signed_up)
    = users_of empty_site \/
  exists name mail pass i,
    SignUp "ann" "ann@example.org" "correct horse" "correct horse" = SignUp name mail pass pass /\
    name <> ""%string /\ mail <> ""%string /\ pass <> ""%string /\
    Forall (fun u => username u <> name) (users_of empty_site) /\
    users_of (show_error "Account created successfully! Please login." signed_up)
      = users_of empty_site ++ [user_data name mail pass Example.morning i].
Proof.
  apply (signup_needs_all_fields
           (SignUp "ann" "ann@example.org" "correct horse" "correct horse")
           Example.morning Example.noon Example.noon "1713960000.0" empty_site None
           (Returns tt) (show_error "Account created successfully! Please login." signed_up)
           None).
  compute_done.
Defined.

End accounts_properties.
